(** * api_logistico: authentication and session lifecycle

    A shallow embedding of the session code of the API
    ([src/controllers/authController.js], the [User] model, the user
    controller and service, the update validation chain and the SQLite
    schema of [src/config/database.js]) together with the properties the
    specification states about it.

    Layout:
    - [Clock]: the two textual timestamp formats the code mixes, JavaScript's
      [Date.prototype.toISOString] and SQLite's [datetime('now')] /
      [CURRENT_TIMESTAMP], over the UTC calendar of ECMAScript;
    - [Crypto]: the interface of [bcryptjs] and [jsonwebtoken];
      [Platform]: what SQLite stores for a numeric text in a column of
      NUMERIC affinity, and how the engine reads a date that is not in
      the format of [toISOString];
    - the database (two tables) and the environment of one request;
    - the [User] model, the controllers, the bulk import;
    - the middleware, the rules and the other handlers of /users, the
      default administrator, the routes;
    - the theorems: the properties of the specification, then what the
      handlers leave of the store ([moves], [frame]) and the further
      properties of the routes.

    Conventions:
    - a request is handled at one instant: its environment gives one
      reading of the clock, the salt [bcrypt] draws, and the statements the
      SQLite driver fails;
    - a handler is a function from the database to its response and the
      database it leaves; a promise that rejects keeps the writes made
      before it, as the code runs no transaction;
    - the properties of a request body are typed: a string, or for the two
      lockout properties a value or [null], or undefined ([None]);
    - the copy of the users that [createUser] and [updateUser] keep in the
      spreadsheet is not part of the state: the code only logs whether
      writing it worked. *)

From Stdlib Require Import ZArith List String Ascii Bool Lia.
From Stdlib Require PrimFloat FloatOps SpecFloat Uint63 DecimalString.
Import ListNotations.

Local Open Scope string_scope.
Local Open Scope Z_scope.

(* ================================================================== *)
(** * Timestamps *)

Module Clock.

(** Time values are milliseconds since the epoch, as [Date.now()] returns
    them.  The calendar is ECMAScript's (Day, DayFromYear, YearFromTime,
    InLeapYear, MonthFromTime, DateFromTime, MakeDay). *)

Definition msPerDay : Z := 86400000.

Definition Day (t : Z) : Z := t / msPerDay.

Definition DayFromYear (y : Z) : Z :=
  365 * (y - 1970) + (y - 1969) / 4 - (y - 1901) / 100 + (y - 1601) / 400.

Definition InLeapYear (y : Z) : Z :=
  if (y mod 4 =? 0) && (negb (y mod 100 =? 0) || (y mod 400 =? 0))
  then 1 else 0.

(** The largest year whose first day is not after day [d]: an estimate
    from the mean length of a year, then one step down or up. *)
Definition YearFromDay (d : Z) : Z :=
  let y0 := 1970 + (400 * d) / 146097 in
  if d <? DayFromYear y0 then y0 - 1
  else if DayFromYear (y0 + 1) <=? d then y0 + 1
  else y0.

(** Months are numbered from 0 here, as in ECMAScript; [L] is
    [InLeapYear] and [d] the day within the year, from 0. *)
Definition MonthFromDay (L d : Z) : Z :=
  if d <? 31 then 0
  else if d <? 59 + L then 1
  else if d <? 90 + L then 2
  else if d <? 120 + L then 3
  else if d <? 151 + L then 4
  else if d <? 181 + L then 5
  else if d <? 212 + L then 6
  else if d <? 243 + L then 7
  else if d <? 273 + L then 8
  else if d <? 304 + L then 9
  else if d <? 334 + L then 10
  else 11.

Definition MonthStart (L m : Z) : Z :=
  if m <=? 0 then 0
  else if m =? 1 then 31
  else if m =? 2 then 59 + L
  else if m =? 3 then 90 + L
  else if m =? 4 then 120 + L
  else if m =? 5 then 151 + L
  else if m =? 6 then 181 + L
  else if m =? 7 then 212 + L
  else if m =? 8 then 243 + L
  else if m =? 9 then 273 + L
  else if m =? 10 then 304 + L
  else 334 + L.

(** A broken-down UTC time; [c_month] is 1..12 and [c_day] 1..31, as they
    are printed. *)
Record civil : Type := mkCivil {
  c_year : Z; c_month : Z; c_day : Z;
  c_hour : Z; c_min : Z; c_sec : Z; c_ms : Z
}.

Definition civil_of_time (t : Z) : civil :=
  let d := Day t in
  let y := YearFromDay d in
  let L := InLeapYear y in
  let diy := d - DayFromYear y in
  let m := MonthFromDay L diy in
  {| c_year := y;
     c_month := m + 1;
     c_day := diy - MonthStart L m + 1;
     c_hour := (t mod msPerDay) / 3600000;
     c_min := (t mod 3600000) / 60000;
     c_sec := (t mod 60000) / 1000;
     c_ms := t mod 1000 |}.

Definition MakeDay (y m d : Z) : Z :=
  DayFromYear y + MonthStart (InLeapYear y) (m - 1) + d - 1.

Definition time_of_civil (c : civil) : Z :=
  MakeDay (c_year c) (c_month c) (c_day c) * msPerDay
  + c_hour c * 3600000 + c_min c * 60000 + c_sec c * 1000 + c_ms c.

(** ** Printing *)

Definition digit (d : Z) : ascii := ascii_of_N (Z.to_N (48 + d)).

Definition pad2 (n : Z) (k : string) : string :=
  String (digit (n / 10 mod 10)) (String (digit (n mod 10)) k).

Definition pad3 (n : Z) (k : string) : string :=
  String (digit (n / 100 mod 10)) (pad2 n k).

Definition pad4 (n : Z) (k : string) : string :=
  String (digit (n / 1000 mod 10)) (pad3 n k).

Definition pad6 (n : Z) (k : string) : string :=
  String (digit (n / 100000 mod 10)) (String (digit (n / 10000 mod 10)) (pad4 n k)).

(** [YYYY-MM-DD], followed by [k]. *)
Definition date_text (c : civil) (k : string) : string :=
  pad4 (c_year c) (String "-" (pad2 (c_month c) (String "-" (pad2 (c_day c) k)))).

(** [HH:MM:SS], followed by [k]. *)
Definition clock_text (c : civil) (k : string) : string :=
  pad2 (c_hour c) (String ":" (pad2 (c_min c) (String ":" (pad2 (c_sec c) k)))).

(** [new Date(t).toISOString()]: [YYYY-MM-DDTHH:mm:ss.sssZ]; years
    outside 0..9999 are printed with a sign and six digits. *)
Definition toISOString (t : Z) : string :=
  let c := civil_of_time t in
  let tail := String "T" (clock_text c (String "." (pad3 (c_ms c) "Z"))) in
  if (0 <=? c_year c) && (c_year c <=? 9999) then date_text c tail
  else
    String (if (c_year c <? 0)%Z then "-"%char else "+"%char)
      (pad6 (Z.abs (c_year c))
         (String "-" (pad2 (c_month c) (String "-" (pad2 (c_day c) tail))))).

(** SQLite's [datetime('now')] and [CURRENT_TIMESTAMP] at time [t]:
    [YYYY-MM-DD HH:MM:SS], in UTC. *)
Definition sqlite_datetime (t : Z) : string :=
  let c := civil_of_time t in
  date_text c (String " " (clock_text c "")).

(** SQLite compares two TEXT values with [memcmp]: [expires_at] is stored
    as text (the column's NUMERIC affinity leaves a text that is no number
    alone) and [datetime] returns text. *)
Definition text_gt (a b : string) : bool :=
  match String.compare a b with Gt => true | _ => false end.

(** ** Reading *)

Definition digit_val (c : ascii) : option Z :=
  let n := Z.of_N (N_of_ascii c) in
  if (48 <=? n) && (n <=? 57) then Some (n - 48) else None.

Fixpoint number (cs : list ascii) (acc : Z) : option Z :=
  match cs with
  | [] => Some acc
  | c :: r =>
      match digit_val c with
      | Some d => number r (10 * acc + d)
      | None => None
      end
  end.

(** [new Date(s).getTime()] for [s] in the format [toISOString] prints
    with a four-digit year; [None] stands for a text that is not in this
    format.  The other formats an engine accepts are left to
    [date_parse_other], see [Date_of]. *)
Definition Date_parse (s : string) : option Z :=
  match list_ascii_of_string s with
  | [y3; y2; y1; y0; s1; m1; m0; s2; d1; d0; sT;
     h1; h0; s3; i1; i0; s4; e1; e0; s5; f2; f1; f0; sZ] =>
      if Ascii.eqb s1 "-" && Ascii.eqb s2 "-" && Ascii.eqb sT "T"
         && Ascii.eqb s3 ":" && Ascii.eqb s4 ":" && Ascii.eqb s5 "."
         && Ascii.eqb sZ "Z"
      then
        match number [y3; y2; y1; y0] 0, number [m1; m0] 0, number [d1; d0] 0,
              number [h1; h0] 0, number [i1; i0] 0, number [e1; e0] 0,
              number [f2; f1; f0] 0 with
        | Some y, Some m, Some d, Some h, Some i, Some e, Some f =>
            if (1 <=? m) && (m <=? 12) && (1 <=? d) && (d <=? 31)
               && (h <=? 23) && (i <=? 59) && (e <=? 59)
            then Some (time_of_civil (mkCivil y m d h i e f))
            else None
        | _, _, _, _, _, _, _ => None
        end
      else None
  | _ => None
  end.

(** Lexicographic comparison of two dates. *)
Definition lexcmp3 (a1 b1 c1 a2 b2 c2 : Z) : comparison :=
  match a1 ?= a2 with
  | Eq => match b1 ?= b2 with Eq => c1 ?= c2 | r => r end
  | r => r
  end.

(** From the epoch to the end of year 9999: the years printed with four
    digits. *)
Definition in_range (t : Z) : Prop := 0 <= t < 253402300800000.

End Clock.

Import Clock.

(* ================================================================== *)
(** * Library interfaces *)

(** The payload of a token: what [jwt.sign] receives plus the [iat] and
    [exp] it adds (seconds since the epoch). *)
Record claims : Type := mkClaims {
  claim_id : Z;
  claim_email : string;
  claim_role : option string;
  claim_iat : Z;
  claim_exp : option Z
}.

(** [bcryptjs] and the signature layer of [jsonwebtoken].  [bcrypt_hash salt
    s] is [bcrypt.hash(s, 12)] when the library draws [salt];
    [jwt_decode secret token] checks the signature of [token] under [secret]
    and returns its payload, [None] standing for a [JsonWebTokenError];
    the empty string is no token ("jwt must be provided").  [jwt_error
    secret token] is the message of that error ('jwt malformed', 'invalid
    token', 'invalid signature', ...); 'jwt expired' is the message of the
    other error, [TokenExpiredError]. *)
Class Crypto : Type := {
  bcrypt_hash : string -> string -> string;
  bcrypt_compare : string -> string -> bool;
  jwt_encode : string -> claims -> string;
  jwt_decode : string -> string -> option claims;
  jwt_error : string -> string -> string;
  jwt_decode_empty : forall secret, jwt_decode secret "" = None;
  jwt_error_name : forall secret token, jwt_error secret token <> "jwt expired"
}.

(** [validator.js], as the rules of the update use it: [isLength min max]
    is [isLength({ min, max })], [strong_password] is the [matches] of the
    password rule, with its regular expression. *)
Class Validator : Type := {
  trim : string -> string;
  isLength : Z -> option Z -> string -> bool;
  isEmail : string -> bool;
  normalizeEmail : string -> string;
  strong_password : string -> bool
}.

(** [src/config/config.js]; the two lifetimes are in seconds (the default
    ['15m'] is 900, ['7d'] is 604800), [lockoutTime] is in minutes. *)
Record config : Type := mkConfig {
  jwt_secret : string;
  jwt_refreshSecret : string;
  jwt_expiresIn : Z;
  jwt_refreshExpiresIn : Z;
  maxLoginAttempts : Z;
  lockoutTime : Z
}.

(** A value of the column [locked_until] as the driver hands it to
    JavaScript, and a value JavaScript holds in [lockedUntil]: a text or a
    number (a double).  NULL and [null] are [None]. *)
Inductive value : Type :=
| Text (s : string)
| Number (x : PrimFloat.float).

(** What SQLite and the engine do with texts that are not read here:
    [sqlite_number s] is the number SQLite stores in a column of NUMERIC
    affinity for a text [s] that is a well-formed integer or real literal
    ([None]: the text is kept), as the driver returns it;
    [date_parse_other s] is the time value of [new Date(s)] for a text that
    is not in the format of [toISOString] ([None]: an Invalid Date). *)
Class Platform : Type := {
  sqlite_number : string -> option PrimFloat.float;
  date_parse_other : string -> option Z
}.

(** The characters of a numeric literal and of the white space SQLite
    allows around one. *)
Definition numeric_char (c : ascii) : bool :=
  let n := Z.of_N (N_of_ascii c) in
  ((48 <=? n) && (n <=? 57))
  || (n =? 43) || (n =? 45) || (n =? 46) || (n =? 69) || (n =? 101)
  || (n =? 32) || ((9 <=? n) && (n <=? 13)).

Fixpoint numeric_alphabet (s : string) : bool :=
  match s with
  | EmptyString => true
  | String c rest => numeric_char c && numeric_alphabet rest
  end.

(** NUMERIC affinity, the affinity of a column declared DATETIME: a text
    with a character that no numeric literal has is stored as it is; any
    other text is stored as the number SQLite reads in it, if it reads
    one. *)
Definition numeric_affinity `{Platform} (s : string) : value :=
  if numeric_alphabet s then
    match sqlite_number s with
    | Some x => Number x
    | None => Text s
    end
  else Text s.

(** The integer part of a double, towards zero; [None] for NaN and the
    infinities. *)
Definition truncate (x : PrimFloat.float) : option Z :=
  match FloatOps.Prim2SF x with
  | SpecFloat.S754_zero _ => Some 0
  | SpecFloat.S754_finite negative m e =>
      let magnitude := if 0 <=? e then Zpos m * 2 ^ e else Zpos m / 2 ^ (- e) in
      Some (if negative then - magnitude else magnitude)
  | _ => None
  end.

(** ECMAScript's [TimeClip]; [None] is NaN. *)
Definition TimeClip (x : PrimFloat.float) : option Z :=
  match truncate x with
  | Some t => if Z.abs t <=? 8640000000000000 then Some t else None
  | None => None
  end.

(** The time value of [new Date(v)]; [None] is an Invalid Date. *)
Definition Date_of `{Platform} (v : value) : option Z :=
  match v with
  | Text s =>
      match Date_parse s with
      | Some t => Some t
      | None => date_parse_other s
      end
  | Number x => TimeClip x
  end.

(* ================================================================== *)
(** * The database *)

(** A row of [users] ([src/config/database.js]).  [login_attempts] and
    [locked_until] are the two nullable columns the code writes;
    [locked_until] is declared DATETIME. *)
Record user_row : Type := mkUserRow {
  r_id : Z;
  r_first_name : string;
  r_last_name : string;
  r_email : string;
  r_password : string;
  r_role : string;
  r_status : string;
  r_login_attempts : option Z;
  r_locked_until : option value;
  r_created_at : string;
  r_updated_at : string
}.

(** A row of [refresh_tokens]. *)
Record token_row : Type := mkTokenRow {
  t_id : Z;
  t_token : string;
  t_user_id : Z;
  t_expires_at : string;
  t_created_at : string
}.

Record DB : Type := mkDB {
  users : list user_row;
  users_seq : Z;
  refresh_tokens : list token_row;
  refresh_tokens_seq : Z
}.

(** The statements the code runs; each can fail in the driver. *)
Inductive statement : Type :=
| SelectUserByEmail | SelectUserById | InsertUser | UpdateUser
| InsertToken | SelectToken | DeleteToken.

(** What one request reads from outside: the clock, the salt [bcrypt]
    draws, and which statements the driver fails. *)
Record Env : Type := mkEnv {
  now : Z;
  salt : string;
  io_fails : statement -> bool
}.

(** A promise: it resolves or rejects, and leaves a database behind. *)
Inductive outcome (A : Type) : Type :=
| Resolved (a : A)
| Rejected (error : string).
Arguments Resolved {A} a.
Arguments Rejected {A} error.

Definition Task (A : Type) : Type := DB -> outcome A * DB.

Definition ret {A} (a : A) : Task A := fun db => (Resolved a, db).

Definition reject {A} (e : string) : Task A := fun db => (Rejected e, db).

Definition bind {A B} (m : Task A) (k : A -> Task B) : Task B :=
  fun db =>
    match m db with
    | (Resolved a, db') => k a db'
    | (Rejected e, db') => (Rejected e, db')
    end.

Notation "x <- m ;; k" := (bind m (fun x => k))
  (at level 61, m at next level, right associativity).

(** [db.run] / [db.get] calling back with [err]. *)
Definition run (env : Env) (s : statement) : Task unit :=
  if io_fails env s then reject "SQLITE_ERROR" else ret tt.

(** AUTOINCREMENT: one more than the largest rowid ever used. *)
Definition next_rowid (seq : Z) (ids : list Z) : Z :=
  Z.max seq (fold_right Z.max 0 ids) + 1.

(** A JavaScript string in a condition. *)
Definition truthy (s : string) : bool := negb (s =? "")%string.

(** A text or a number in a condition; a number is false when it is 0
    or NaN. *)
Definition js_truthy (v : value) : bool :=
  match v with
  | Text s => truthy s
  | Number x => negb (PrimFloat.eqb x PrimFloat.zero) && negb (PrimFloat.is_nan x)
  end.

(** [x || d] for a string that may be undefined. *)
Definition or_default (x : option string) (d : string) : string :=
  match x with
  | Some s => if truthy s then s else d
  | None => d
  end.

(* ================================================================== *)
(** * The [User] model *)

Module User.

(** The object the constructor builds from a row. *)
Record t : Type := mk {
  id : Z;
  firstName : string;
  lastName : string;
  email : string;
  password : string;
  role : string;
  status : string;
  loginAttempts : Z;
  lockedUntil : option value;
  createdAt : string;
  updatedAt : string
}.

(** [new User(data)]; [login_attempts || 0]. *)
Definition new (data : user_row) : t :=
  {| id := r_id data;
     firstName := r_first_name data;
     lastName := r_last_name data;
     email := r_email data;
     password := r_password data;
     role := r_role data;
     status := r_status data;
     loginAttempts := match r_login_attempts data with Some n => n | None => 0 end;
     lockedUntil := r_locked_until data;
     createdAt := r_created_at data;
     updatedAt := r_updated_at data |}.

(** [SELECT * FROM users WHERE email = ?], the first row if any. *)
Definition findByEmail (env : Env) (e : string) : Task (option t) :=
  _ <- run env SelectUserByEmail ;;
  fun db =>
    (Resolved (option_map new
       (find (fun r => (r_email r =? e)%string) (users db))), db).

(** [SELECT * FROM users WHERE id = ?]. *)
Definition findById (env : Env) (i : Z) : Task (option t) :=
  _ <- run env SelectUserById ;;
  fun db =>
    (Resolved (option_map new (find (fun r => r_id r =? i) (users db))), db).

(** The argument of [create].  The names may be undefined (a record read
    from the spreadsheet without them); the columns are NOT NULL. *)
Record userData : Type := mkUserData {
  d_firstName : option string;
  d_lastName : option string;
  d_email : string;
  d_password : string;
  d_role : option string;
  d_status : option string
}.

(** [bcrypt.hash(userData.password, 12)], then the INSERT with
    [role || 'user'] and [status || 'active']; the other columns take
    their defaults.  Resolves with [this.lastID]. *)
Definition create `{Crypto} (env : Env) (d : userData) : Task Z :=
  let hashedPassword := bcrypt_hash (salt env) (d_password d) in
  _ <- run env InsertUser ;;
  fun db =>
    match d_firstName d, d_lastName d with
    | Some first, Some last =>
        if existsb (fun r => (r_email r =? d_email d)%string) (users db)
        then (Rejected "SQLITE_CONSTRAINT: UNIQUE constraint failed: users.email", db)
        else
          let lastID := next_rowid (users_seq db) (map r_id (users db)) in
          (Resolved lastID,
           {| users := users db ++
                [ {| r_id := lastID;
                     r_first_name := first;
                     r_last_name := last;
                     r_email := d_email d;
                     r_password := hashedPassword;
                     r_role := or_default (d_role d) "user";
                     r_status := or_default (d_status d) "active";
                     r_login_attempts := Some 0;
                     r_locked_until := None;
                     r_created_at := sqlite_datetime (now env);
                     r_updated_at := sqlite_datetime (now env) |} ];
              users_seq := lastID;
              refresh_tokens := refresh_tokens db;
              refresh_tokens_seq := refresh_tokens_seq db |})
    | _, _ => (Rejected "SQLITE_CONSTRAINT: NOT NULL constraint failed", db)
    end.

(** The argument of [update]: [None] is a property that is undefined.
    The two lockout properties can also be [null]; [lockedUntil] is a
    text. *)
Record updateData : Type := mkUpdateData {
  u_firstName : option string;
  u_lastName : option string;
  u_email : option string;
  u_password : option string;
  u_role : option string;
  u_status : option string;
  u_loginAttempts : option (option Z);
  u_lockedUntil : option (option string)
}.

Definition supplied {A} (x : option A) (old : A) : A :=
  match x with Some v => v | None => old end.

(** The assignments of the UPDATE statement on one row.  The text bound
    to [locked_until] is stored under the column's NUMERIC affinity. *)
Definition assign `{Crypto} `{Platform} (env : Env) (d : updateData) (r : user_row)
  : user_row :=
  {| r_id := r_id r;
     r_first_name := supplied (u_firstName d) (r_first_name r);
     r_last_name := supplied (u_lastName d) (r_last_name r);
     r_email := supplied (u_email d) (r_email r);
     r_password :=
       supplied (option_map (bcrypt_hash (salt env)) (u_password d)) (r_password r);
     r_role := supplied (u_role d) (r_role r);
     r_status := supplied (u_status d) (r_status r);
     r_login_attempts := supplied (u_loginAttempts d) (r_login_attempts r);
     r_locked_until :=
       supplied (option_map (option_map numeric_affinity) (u_lockedUntil d))
         (r_locked_until r);
     r_created_at := r_created_at r;
     r_updated_at := sqlite_datetime (now env) |}.

(** The UNIQUE index on [email]: the row [i] cannot take an address
    another row holds. *)
Definition email_taken (i : Z) (d : updateData) (rows : list user_row) : bool :=
  match u_email d with
  | Some e =>
      existsb (fun r => r_id r =? i) rows
      && existsb (fun r => negb (r_id r =? i) && (r_email r =? e)%string) rows
  | None => false
  end.

(** [UPDATE users SET ... WHERE id = ?] with one assignment for each
    property that is not undefined and [updated_at = CURRENT_TIMESTAMP]
    always; resolves with [this.changes > 0]. *)
Definition update `{Crypto} `{Platform} (this : t) (env : Env) (d : updateData)
  : Task bool :=
  _ <- run env UpdateUser ;;
  fun db =>
    if email_taken (id this) d (users db)
    then (Rejected "SQLITE_CONSTRAINT: UNIQUE constraint failed: users.email", db)
    else
      (Resolved (existsb (fun r => r_id r =? id this) (users db)),
       {| users := map (fun r => if r_id r =? id this then assign env d r else r)
                       (users db);
          users_seq := users_seq db;
          refresh_tokens := refresh_tokens db;
          refresh_tokens_seq := refresh_tokens_seq db |}).

(** [bcrypt.compare(password, this.password)]. *)
Definition verifyPassword `{Crypto} (this : t) (pw : string) : bool :=
  bcrypt_compare pw (password this).

(** [this.lockedUntil && new Date() < new Date(this.lockedUntil)]. *)
Definition isLocked `{Platform} (this : t) (env : Env) : bool :=
  match lockedUntil this with
  | Some v =>
      js_truthy v &&
      match Date_of v with
      | Some until => now env <? until
      | None => false
      end
  | None => false
  end.

(** The object after [this.loginAttempts = ...; this.lockedUntil = ...]. *)
Definition set_lockout (this : t) (attempts : Z) (until : option value) : t :=
  {| id := id this; firstName := firstName this; lastName := lastName this;
     email := email this; password := password this; role := role this;
     status := status this;
     loginAttempts := attempts;
     lockedUntil := until;
     createdAt := createdAt this; updatedAt := updatedAt this |}.

(** One more failed attempt; at [maxLoginAttempts] the account is locked
    for [lockoutTime] minutes from now. *)
Definition incrementLoginAttempts `{Crypto} `{Platform} (cfg : config) (this : t)
    (env : Env) : Task t :=
  let attempts := loginAttempts this + 1 in
  let lockedUntil :=
    if attempts >=? maxLoginAttempts cfg
    then Some (toISOString (now env + lockoutTime cfg * 60 * 1000))
    else None in
  _ <- update this env
         {| u_firstName := None; u_lastName := None; u_email := None;
            u_password := None; u_role := None; u_status := None;
            u_loginAttempts := Some (Some attempts);
            u_lockedUntil := Some lockedUntil |} ;;
  ret (set_lockout this attempts (option_map Text lockedUntil)).

Definition resetLoginAttempts `{Crypto} `{Platform} (this : t) (env : Env) : Task t :=
  _ <- update this env
         {| u_firstName := None; u_lastName := None; u_email := None;
            u_password := None; u_role := None; u_status := None;
            u_loginAttempts := Some (Some 0);
            u_lockedUntil := Some None |} ;;
  ret (set_lockout this 0 None).

(** The object without its password. *)
Record json : Type := mkJson {
  j_id : Z;
  j_firstName : string;
  j_lastName : string;
  j_email : string;
  j_role : string;
  j_status : string;
  j_loginAttempts : Z;
  j_lockedUntil : option value;
  j_createdAt : string;
  j_updatedAt : string
}.

Definition toJSON (this : t) : json :=
  {| j_id := id this; j_firstName := firstName this; j_lastName := lastName this;
     j_email := email this; j_role := role this; j_status := status this;
     j_loginAttempts := loginAttempts this; j_lockedUntil := lockedUntil this;
     j_createdAt := createdAt this; j_updatedAt := updatedAt this |}.

End User.

(* ================================================================== *)
(** * Responses *)

Inductive body_data : Type :=
| NoData
| LoginData (user : User.json) (accessToken refreshToken : string) (expiresIn : Z)
| TokenData (accessToken : string) (expiresIn : Z)
| UserData (user : User.json)
| FieldErrors (fields : list string)
| SyncData (addedCount : Z) (errors : list (option string * string)).

(** [res.status(s).json({ success, message, error, data })]. *)
Record response : Type := mkResponse {
  res_status : Z;
  res_success : bool;
  res_message : string;
  res_error : option string;
  res_data : body_data
}.

Definition failure (s : Z) (m : string) : response :=
  mkResponse s false m None NoData.

Definition ok (s : Z) (m : string) (d : body_data) : response :=
  mkResponse s true m None d.

(** The [catch] block of most handlers. *)
Definition server_error (e : string) : response :=
  mkResponse 500 false "Server error" (Some e) NoData.

Definition handler (on_error : string -> response) (m : Task response)
  : DB -> response * DB :=
  fun db =>
    match m db with
    | (Resolved r, db') => (r, db')
    | (Rejected e, db') => (on_error e, db')
    end.


Definition AccountLocked (r : response) : Prop :=
  r = failure 423
        "Account is temporarily locked due to too many failed login attempts".

Definition InvalidRefreshToken (r : response) : Prop :=
  r = failure 401 "Invalid refresh token".

(* ================================================================== *)
(** * [AuthController] *)

Module AuthController.

(** [jwt.sign(payload, secret, { expiresIn })]. *)
Definition sign `{Crypto} (env : Env) (secret : string) (i : Z) (e : string)
    (r : option string) (expiresIn : Z) : string :=
  jwt_encode secret
    {| claim_id := i; claim_email := e; claim_role := r;
       claim_iat := now env / 1000;
       claim_exp := Some (now env / 1000 + expiresIn) |}.

(** [jwt.verify(token, secret)]: the signature, then the [exp] claim
    against the clock in seconds. *)
Definition verify `{Crypto} (env : Env) (token secret : string) : outcome claims :=
  match jwt_decode secret token with
  | None => Rejected (jwt_error secret token)
  | Some c =>
      match claim_exp c with
      | Some exp => if exp <=? now env / 1000 then Rejected "jwt expired" else Resolved c
      | None => Resolved c
      end
  end.

(** [INSERT INTO refresh_tokens (token, user_id, expires_at)], the expiry
    seven days from now as [toISOString] prints it. *)
Definition storeRefreshToken (env : Env) (token : string) (userId : Z) : Task Z :=
  let expiresAt := toISOString (now env + 7 * 24 * 60 * 60 * 1000) in
  _ <- run env InsertToken ;;
  fun db =>
    let lastID := next_rowid (refresh_tokens_seq db) (map t_id (refresh_tokens db)) in
    (Resolved lastID,
     {| users := users db;
        users_seq := users_seq db;
        refresh_tokens := refresh_tokens db ++
          [ {| t_id := lastID; t_token := token; t_user_id := userId;
               t_expires_at := expiresAt;
               t_created_at := sqlite_datetime (now env) |} ];
        refresh_tokens_seq := lastID |}).

(** The WHERE clause of the SELECT in [validateRefreshToken]:
    [token = ? AND user_id = ? AND expires_at > datetime("now")], where
    SQLite reads the double-quoted ["now"] as the string ['now']. *)
Definition active_row (env : Env) (token : string) (userId : Z) (r : token_row)
  : bool :=
  (t_token r =? token)%string && (t_user_id r =? userId)
  && text_gt (t_expires_at r) (sqlite_datetime (now env)).

(** Resolves with [!!row]. *)
Definition validateRefreshToken (env : Env) (token : string) (userId : Z)
  : Task bool :=
  _ <- run env SelectToken ;;
  fun db => (Resolved (existsb (active_row env token userId) (refresh_tokens db)), db).

(** [DELETE FROM refresh_tokens WHERE token = ?]; resolves with
    [this.changes > 0]. *)
Definition removeRefreshToken (env : Env) (token : string) : Task bool :=
  _ <- run env DeleteToken ;;
  fun db =>
    (Resolved (existsb (fun r => (t_token r =? token)%string) (refresh_tokens db)),
     {| users := users db;
        users_seq := users_seq db;
        refresh_tokens :=
          filter (fun r => negb (t_token r =? token)%string) (refresh_tokens db);
        refresh_tokens_seq := refresh_tokens_seq db |}).

(** POST /auth/login *)
Definition login `{Crypto} `{Platform} (cfg : config) (env : Env)
    (email password : string) : DB -> response * DB :=
  handler server_error (
    found <- User.findByEmail env email ;;
    match found with
    | None => ret (failure 401 "Invalid credentials")
    | Some user =>
        if negb (User.status user =? "active")%string then
          ret (failure 401 "Account is inactive")
        else if User.isLocked user env then
          ret (failure 423
                 "Account is temporarily locked due to too many failed login attempts")
        else if negb (User.verifyPassword user password) then
          user <- User.incrementLoginAttempts cfg user env ;;
          ret (failure 401
                 (if User.loginAttempts user >=? maxLoginAttempts cfg
                  then "Too many failed attempts. Account has been temporarily locked."
                  else "Invalid credentials"))
        else
          user <- (if User.loginAttempts user >? 0
                   then User.resetLoginAttempts user env
                   else ret user) ;;
          let accessToken :=
            sign env (jwt_secret cfg) (User.id user) (User.email user)
                 (Some (User.role user)) (jwt_expiresIn cfg) in
          let refreshToken :=
            sign env (jwt_refreshSecret cfg) (User.id user) (User.email user)
                 None (jwt_refreshExpiresIn cfg) in
          _ <- storeRefreshToken env refreshToken (User.id user) ;;
          ret (ok 200 "Login successful"
                 (LoginData (User.toJSON user) accessToken refreshToken
                            (jwt_expiresIn cfg)))
    end).

(** POST /auth/refresh; the body's [refreshToken] may be missing. *)
Definition refreshToken `{Crypto} (cfg : config) (env : Env)
    (refreshToken : option string) : DB -> response * DB :=
  handler (fun _ => failure 401 "Invalid refresh token") (
    match refreshToken with
    | None => ret (failure 401 "Refresh token is required")
    | Some token =>
        if negb (truthy token) then ret (failure 401 "Refresh token is required")
        else
          match verify env token (jwt_refreshSecret cfg) with
          | Rejected e => reject e
          | Resolved decoded =>
              tokenExists <- validateRefreshToken env token (claim_id decoded) ;;
              if negb tokenExists then ret (failure 401 "Invalid refresh token")
              else
                found <- User.findById env (claim_id decoded) ;;
                match found with
                | None => ret (failure 401 "User not found or inactive")
                | Some user =>
                    if negb (User.status user =? "active")%string
                    then ret (failure 401 "User not found or inactive")
                    else
                      let accessToken :=
                        sign env (jwt_secret cfg) (User.id user) (User.email user)
                             (Some (User.role user)) (jwt_expiresIn cfg) in
                      ret (ok 200 "Token refreshed successfully"
                             (TokenData accessToken (jwt_expiresIn cfg)))
                end
          end
    end).

(** POST /auth/logout *)
Definition logout (env : Env) (refreshToken : option string)
  : DB -> response * DB :=
  handler server_error (
    _ <- match refreshToken with
         | Some token =>
             if truthy token then removeRefreshToken env token else ret false
         | None => ret false
         end ;;
    ret (ok 200 "Logout successful" NoData)).

End AuthController.

(* ================================================================== *)
(** * The route PUT /users/:id *)

Module Validation.

Definition isIn (s : string) (allowed : list string) : bool :=
  existsb (String.eqb s) allowed.

(** One rule of the chain: the field's name when its value fails. *)
Definition check {A} (name : string) (x : option A) (valid : A -> bool)
  : list string :=
  match x with
  | Some v => if valid v then [] else [name]
  | None => []
  end.

(** [validateUserUpdate]: every rule is [optional()]; [trim] and
    [normalizeEmail] rewrite the body; a failed rule answers 400.  The
    chain has no rule for [loginAttempts] and [lockedUntil]. *)
Definition validateUserUpdate `{Validator} (body : User.updateData)
  : response + User.updateData :=
  let first := option_map trim (User.u_firstName body) in
  let last := option_map trim (User.u_lastName body) in
  let errors :=
    (check "firstName" first (isLength 2 (Some 50))
     ++ check "lastName" last (isLength 2 (Some 50))
     ++ check "email" (User.u_email body) isEmail
     ++ check "password" (User.u_password body) (isLength 8 None)
     ++ check "password" (User.u_password body) strong_password
     ++ check "role" (User.u_role body) (fun r => isIn r ["user"; "admin"])
     ++ check "status" (User.u_status body)
          (fun s => isIn s ["active"; "inactive"]))%list in
  match errors with
  | [] =>
      inr {| User.u_firstName := first;
             User.u_lastName := last;
             User.u_email := option_map normalizeEmail (User.u_email body);
             User.u_password := User.u_password body;
             User.u_role := User.u_role body;
             User.u_status := User.u_status body;
             User.u_loginAttempts := User.u_loginAttempts body;
             User.u_lockedUntil := User.u_lockedUntil body |}
  | _ => inl (mkResponse 400 false "Validation errors" None (FieldErrors errors))
  end.

End Validation.

Module Auth.

(** [canModifyUser]: [userId] is [req.user.id], [target] the parsed
    [:id]; the current user is handed to the next handler. *)
Definition canModifyUser (env : Env) (userId target : Z)
  : Task (response + User.t) :=
  found <- User.findById env userId ;;
  match found with
  | None => ret (inl (failure 404 "Current user not found."))
  | Some currentUser =>
      if negb (User.status currentUser =? "active")%string then
        ret (inl (failure 403 "Access denied. User is inactive."))
      else if (User.role currentUser =? "admin")%string
              || (User.id currentUser =? target) then
        ret (inr currentUser)
      else
        ret (inl (failure 403
          "Access denied. You can only modify your own profile or need admin privileges."))
  end.

End Auth.

Module UserController.

(** [if (updateData.x && currentUser.role !== 'admin') delete updateData.x] *)
Definition admin_only (currentUser : User.t) (x : option string) : option string :=
  match x with
  | Some v =>
      if truthy v && negb (User.role currentUser =? "admin")%string
      then None else Some v
  | None => None
  end.

(** PUT /users/:id.  The copy kept in the spreadsheet is written after
    the database; its outcome is only logged and is left out. *)
Definition updateUser `{Crypto} `{Platform} (env : Env) (currentUser : User.t)
    (target : Z) (updateData : User.updateData) : Task response :=
  found <- User.findById env target ;;
  match found with
  | None => ret (failure 404 "User not found")
  | Some targetUser =>
      duplicate <-
        match User.u_email updateData with
        | Some e =>
            if truthy e && negb (e =? User.email targetUser)%string
            then existing <- User.findByEmail env e ;;
                 ret (match existing with Some _ => true | None => false end)
            else ret false
        | None => ret false
        end ;;
      if (duplicate : bool) then
        ret (failure 400 "User with this email already exists")
      else
        let updateData :=
          {| User.u_firstName := User.u_firstName updateData;
             User.u_lastName := User.u_lastName updateData;
             User.u_email := User.u_email updateData;
             User.u_password := User.u_password updateData;
             User.u_role := admin_only currentUser (User.u_role updateData);
             User.u_status := admin_only currentUser (User.u_status updateData);
             User.u_loginAttempts := User.u_loginAttempts updateData;
             User.u_lockedUntil := User.u_lockedUntil updateData |} in
        success <- User.update targetUser env updateData ;;
        if negb success then ret (failure 400 "Failed to update user")
        else
          updated <- User.findById env target ;;
          match updated with
          | Some updatedUser =>
              ret (ok 200 "User updated successfully"
                     (UserData (User.toJSON updatedUser)))
          | None => reject "Cannot read properties of null (reading 'toJSON')"
          end
  end.

(** The route after [verifyToken]: [canModifyUser], [validateUserUpdate],
    [updateUser]. *)
Definition put `{Crypto} `{Validator} `{Platform} (env : Env) (userId target : Z)
    (body : User.updateData) : DB -> response * DB :=
  handler server_error (
    allowed <- Auth.canModifyUser env userId target ;;
    match allowed with
    | inl denied => ret denied
    | inr currentUser =>
        match Validation.validateUserUpdate body with
        | inl invalid => ret invalid
        | inr updateData => updateUser env currentUser target updateData
        end
    end).

End UserController.

(* ================================================================== *)
(** * [UserService]: the import from the spreadsheet *)

Module UserService.

(** A record as [readUsersFromExcel] returns it: an empty cell is
    undefined; [role] and [status] were given their defaults there. *)
Record excelUser : Type := mkExcelUser {
  x_firstName : option string;
  x_lastName : option string;
  x_email : option string;
  x_password : option string;
  x_role : string;
  x_status : string
}.

(** The body of the loop, inside its [try]. *)
Definition import_one `{Crypto} (env : Env) (x : excelUser) : Task bool :=
  existingUser <-
    match x_email x with
    | Some e => User.findByEmail env e
    | None => _ <- run env SelectUserByEmail ;; ret None
    end ;;
  match existingUser, x_email x, x_password x with
  | None, Some e, Some p =>
      if truthy e && truthy p then
        _ <- User.create env
               {| User.d_firstName := x_firstName x;
                  User.d_lastName := x_lastName x;
                  User.d_email := e;
                  User.d_password := p;
                  User.d_role := Some (or_default (Some (x_role x)) "user");
                  User.d_status := Some (or_default (Some (x_status x)) "active") |} ;;
        ret true
      else ret false
  | _, _, _ => ret false
  end.

(** [initializeUsersFromExcel]: each record is handled in the
    environment paired with it; a record that fails is logged and
    skipped.  The result is [processedCount]. *)
Fixpoint initializeUsersFromExcel `{Crypto} (excelUsers : list (Env * excelUser))
    (db : DB) : Z * DB :=
  match excelUsers with
  | [] => (0, db)
  | (env, x) :: rest =>
      match import_one env x db with
      | (Resolved true, db') =>
          let (n, db'') := initializeUsersFromExcel rest db' in (n + 1, db'')
      | (_, db') => initializeUsersFromExcel rest db'
      end
  end.

End UserService.

(* ================================================================== *)
(** * The rest of the middleware and of the user handlers *)

(** The [matches] of the password rule of the registration; its regular
    expression is not the one of the update. *)
Class Registration : Type := {
  registration_password : string -> bool
}.

Module Middleware.

(** [s.replace(pattern, '')]: the first occurrence of [pattern] is taken
    out, the rest of [s] is kept. *)
Fixpoint remove_first (pattern s : string) {struct s} : string :=
  if String.prefix pattern s
  then substring (String.length pattern)
         (String.length s - String.length pattern)%nat s
  else
    match s with
    | EmptyString => EmptyString
    | String c rest => String c (remove_first pattern rest)
    end.

(** [verifyToken]: the token is the Authorization header without its
    first [Bearer]; the payload of a token that verifies under the access
    secret becomes [req.user]. *)
Definition verifyToken `{Crypto} (cfg : config) (env : Env)
    (authorization : option string) : response + claims :=
  match option_map (remove_first "Bearer") authorization with
  | None => inl (failure 401 "Access denied. No token provided.")
  | Some token =>
      if negb (truthy token)
      then inl (failure 401 "Access denied. No token provided.")
      else
        match AuthController.verify env token (jwt_secret cfg) with
        | Resolved decoded => inr decoded
        | Rejected e =>
            if (e =? "jwt expired")%string
            then inl (failure 401 "Token has expired. Please login again.")
            else inl (mkResponse 401 false "Invalid token." (Some e) NoData)
        end
  end.

(** [requireAdmin]: [userId] is [req.user.id]. *)
Definition requireAdmin (env : Env) (userId : Z) : Task (response + User.t) :=
  found <- User.findById env userId ;;
  match found with
  | None => ret (inl (failure 404 "User not found."))
  | Some user =>
      if negb (User.status user =? "active")%string then
        ret (inl (failure 403 "Access denied. User is inactive."))
      else if negb (User.role user =? "admin")%string then
        ret (inl (failure 403 "Access denied. Admin privileges required."))
      else ret (inr user)
  end.

End Middleware.

Module Rules.

(** A rule that is not [optional()]: a missing value fails it. *)
Definition required {A} (name : string) (x : option A) (valid : A -> bool)
  : list string :=
  match x with
  | Some v => if valid v then [] else [name]
  | None => [name]
  end.

(** The body of POST /users as it arrives, and as [createUser] reads it
    once the rules have passed. *)
Record registration : Type := mkRegistration {
  g_firstName : option string;
  g_lastName : option string;
  g_email : option string;
  g_password : option string;
  g_role : option string;
  g_status : option string
}.

Record newUser : Type := mkNewUser {
  n_firstName : string;
  n_lastName : string;
  n_email : string;
  n_password : string;
  n_role : option string;
  n_status : option string
}.

(** [validateUserRegistration] *)
Definition validateUserRegistration `{Validator} `{Registration}
    (body : registration) : response + newUser :=
  let first := option_map trim (g_firstName body) in
  let last := option_map trim (g_lastName body) in
  let errors :=
    (required "firstName" first (isLength 2 (Some 50))
     ++ required "lastName" last (isLength 2 (Some 50))
     ++ required "email" (g_email body) isEmail
     ++ required "password" (g_password body) (isLength 8 None)
     ++ required "password" (g_password body) registration_password
     ++ Validation.check "role" (g_role body)
          (fun r => Validation.isIn r ["user"; "admin"])
     ++ Validation.check "status" (g_status body)
          (fun s => Validation.isIn s ["active"; "inactive"]))%list in
  match errors, first, last, g_email body, g_password body with
  | [], Some f, Some l, Some e, Some p =>
      inr {| n_firstName := f; n_lastName := l;
             n_email := normalizeEmail e; n_password := p;
             n_role := g_role body; n_status := g_status body |}
  | _, _, _, _, _ =>
      inl (mkResponse 400 false "Validation errors" None (FieldErrors errors))
  end.

(** [validateUserLogin]: a valid address, normalised, and a password that
    is not empty. *)
Definition validateUserLogin `{Validator} (email password : option string)
  : response + string * string :=
  let errors :=
    (required "email" email isEmail ++ required "password" password truthy)%list in
  match errors, email, password with
  | [], Some e, Some p => inr (normalizeEmail e, p)
  | _, _, _ =>
      inl (mkResponse 400 false "Validation errors" None (FieldErrors errors))
  end.

End Rules.

Module Users.

(** ORDER BY created_at DESC, on the text of the column.  SQLite leaves
    the order of rows with equal [created_at] open; here they keep the
    order of the table. *)
Fixpoint insert_newest (r : user_row) (sorted : list user_row) : list user_row :=
  match sorted with
  | [] => [r]
  | x :: rest =>
      if text_gt (r_created_at x) (r_created_at r)
      then x :: insert_newest r rest
      else r :: sorted
  end.

Definition newest_first (rows : list user_row) : list user_row :=
  fold_right insert_newest [] rows.

(** [User.findAll]; [fails] says whether the driver fails the SELECT. *)
Definition findAll (fails : bool) : Task (list User.t) :=
  fun db =>
    if fails then (Rejected "SQLITE_ERROR", db)
    else (Resolved (map User.new (newest_first (users db))), db).

End Users.

Module Handlers.

(** POST /users.  The copy in the spreadsheet is written after the
    database; its outcome is only logged and is left out. *)
Definition createUser `{Crypto} (env : Env) (body : Rules.newUser) : Task response :=
  existingUser <- User.findByEmail env (Rules.n_email body) ;;
  match existingUser with
  | Some _ => ret (failure 400 "User with this email already exists")
  | None =>
      userId <- User.create env
        {| User.d_firstName := Some (Rules.n_firstName body);
           User.d_lastName := Some (Rules.n_lastName body);
           User.d_email := Rules.n_email body;
           User.d_password := Rules.n_password body;
           User.d_role := Some (or_default (Rules.n_role body) "user");
           User.d_status := Some (or_default (Rules.n_status body) "active") |} ;;
      newUser <- User.findById env userId ;;
      match newUser with
      | Some u => ret (ok 201 "User created successfully" (UserData (User.toJSON u)))
      | None => reject "Cannot read properties of null (reading 'toJSON')"
      end
  end.

(** GET /users/:id *)
Definition getUserById (env : Env) (target : Z) : Task response :=
  found <- User.findById env target ;;
  match found with
  | None => ret (failure 404 "User not found")
  | Some user =>
      ret (ok 200 "User retrieved successfully" (UserData (User.toJSON user)))
  end.

(** GET /users/profile; [userId] is [req.user.id]. *)
Definition getProfile (env : Env) (userId : Z) : Task response :=
  found <- User.findById env userId ;;
  match found with
  | None => ret (failure 404 "User not found")
  | Some user =>
      ret (ok 200 "Profile retrieved successfully" (UserData (User.toJSON user)))
  end.

(** The loop of [syncUsersFromExcel]: its body is the body of the loop
    of the import, and a record that fails is reported with its address
    and the message of the error. *)
Fixpoint sync_loop `{Crypto} (excelUsers : list (Env * UserService.excelUser))
    (db : DB) : Z * list (option string * string) * DB :=
  match excelUsers with
  | [] => (0, [], db)
  | (env, x) :: rest =>
      match UserService.import_one env x db with
      | (Resolved added, db') =>
          let '(n, errors, db'') := sync_loop rest db' in
          ((if added then n + 1 else n), errors, db'')
      | (Rejected e, db') =>
          let '(n, errors, db'') := sync_loop rest db' in
          (n, (UserService.x_email x, e) :: errors, db'')
      end
  end.

(** A count in a template literal. *)
Definition number_text (n : Z) : string :=
  DecimalString.NilZero.string_of_int (Z.to_int n).

(** POST /users/sync, on the records [readUsersFromExcel] returned, each
    handled in the environment paired with it. *)
Definition syncUsersFromExcel `{Crypto} (excelUsers : list (Env * UserService.excelUser))
  : DB -> response * DB :=
  fun db =>
    let '(addedCount, errors, db') := sync_loop excelUsers db in
    (ok 200 ("Sync completed. " ++ number_text addedCount ++ " users added.")
        (SyncData addedCount errors), db').

End Handlers.

Module Startup.

Definition defaultAdmin : User.userData :=
  {| User.d_firstName := Some "Admin";
     User.d_lastName := Some "User";
     User.d_email := "admin@example.com";
     User.d_password := "Admin123!";
     User.d_role := Some "admin";
     User.d_status := Some "active" |}.

(** [UserService.createDefaultAdmin]: resolves with the new id, or with
    [null] when the store has users; an error is thrown on.  The copy of
    the administrator in the spreadsheet is left out, as above. *)
Definition createDefaultAdmin `{Crypto} (env : Env) (list_fails : bool)
  : Task (option Z) :=
  users <- Users.findAll list_fails ;;
  match users with
  | [] =>
      adminId <- User.create env defaultAdmin ;;
      adminUser <- User.findById env adminId ;;
      match adminUser with
      | Some _ => ret (Some adminId)
      | None => reject "Cannot read properties of null (reading 'password')"
      end
  | _ :: _ => ret None
  end.

End Startup.

Module Routes.

(** A route behind [verifyToken]. *)
Definition authenticated `{Crypto} (cfg : config) (env : Env)
    (authorization : option string) (next : claims -> DB -> response * DB)
  : DB -> response * DB :=
  fun db =>
    match Middleware.verifyToken cfg env authorization with
    | inl denied => (denied, db)
    | inr user => next user db
    end.

(** POST /auth/login behind [validateUserLogin] (the rate limiter is not
    modelled). *)
Definition post_login `{Crypto} `{Validator} `{Platform} (cfg : config) (env : Env)
    (email password : option string) : DB -> response * DB :=
  match Rules.validateUserLogin email password with
  | inl invalid => fun db => (invalid, db)
  | inr (e, p) => AuthController.login cfg env e p
  end.

(** POST /users: [verifyToken], [requireAdmin], [validateUserRegistration],
    [createUser]. *)
Definition post_users `{Crypto} `{Validator} `{Registration} (cfg : config)
    (env : Env) (authorization : option string) (body : Rules.registration)
  : DB -> response * DB :=
  authenticated cfg env authorization (fun user =>
    handler server_error (
      allowed <- Middleware.requireAdmin env (claim_id user) ;;
      match allowed with
      | inl denied => ret denied
      | inr _ =>
          match Rules.validateUserRegistration body with
          | inl invalid => ret invalid
          | inr valid => Handlers.createUser env valid
          end
      end)).

(** GET /users/:id: [verifyToken], [canModifyUser], [getUserById]. *)
Definition get_user `{Crypto} (cfg : config) (env : Env)
    (authorization : option string) (target : Z) : DB -> response * DB :=
  authenticated cfg env authorization (fun user =>
    handler server_error (
      allowed <- Auth.canModifyUser env (claim_id user) target ;;
      match allowed with
      | inl denied => ret denied
      | inr _ => Handlers.getUserById env target
      end)).

(** GET /users/profile: [verifyToken], [getProfile]. *)
Definition get_profile `{Crypto} (cfg : config) (env : Env)
    (authorization : option string) : DB -> response * DB :=
  authenticated cfg env authorization (fun user =>
    handler server_error (Handlers.getProfile env (claim_id user))).

(** PUT /users/:id with its [verifyToken]. *)
Definition put_user `{Crypto} `{Validator} `{Platform} (cfg : config) (env : Env)
    (authorization : option string) (target : Z) (body : User.updateData)
  : DB -> response * DB :=
  authenticated cfg env authorization (fun user =>
    UserController.put env (claim_id user) target body).

(** POST /users/sync: [verifyToken], [requireAdmin],
    [syncUsersFromExcel]. *)
Definition post_sync `{Crypto} (cfg : config) (env : Env)
    (authorization : option string)
    (excelUsers : list (Env * UserService.excelUser)) : DB -> response * DB :=
  authenticated cfg env authorization (fun user db =>
    match Middleware.requireAdmin env (claim_id user) db with
    | (Resolved (inr _), db') => Handlers.syncUsersFromExcel excelUsers db'
    | (Resolved (inl denied), db') => (denied, db')
    | (Rejected e, db') => (server_error e, db')
    end).

End Routes.

(* ================================================================== *)
(** * Vocabulary of the statements *)

(** No statement fails in the driver. *)
Definition quiet (env : Env) : Prop := forall s, io_fails env s = false.

(** The identity the store holds for an address, and for an id: what
    [findByEmail] and [findById] read. *)
Definition identity (db : DB) (e : string) : option User.t :=
  option_map User.new (find (fun r => (r_email r =? e)%string) (users db)).

Definition identity_by_id (db : DB) (i : Z) : option User.t :=
  option_map User.new (find (fun r => r_id r =? i) (users db)).

(** A payload is not expired by its own [exp] claim. *)
Definition unexpired (env : Env) (c : claims) : Prop :=
  forall exp, claim_exp c = Some exp -> now env / 1000 < exp.

(** The ledger holds a record for this token and this user. *)
Definition recorded (db : DB) (token : string) (userId : Z) (r : token_row) : Prop :=
  In r (refresh_tokens db) /\ t_token r = token /\ t_user_id r = userId.

(** The argument of [update] when only the two lockout fields are
    written. *)
Definition lockout_fields (attempts : Z) (until : option string) : User.updateData :=
  {| User.u_firstName := None; User.u_lastName := None; User.u_email := None;
     User.u_password := None; User.u_role := None; User.u_status := None;
     User.u_loginAttempts := Some (Some attempts);
     User.u_lockedUntil := Some until |}.

(** The body [updateUser] hands to the store when the caller is no
    administrator and [role] and [status], if present, are non-empty. *)
Definition stripped (d : User.updateData) : User.updateData :=
  {| User.u_firstName := User.u_firstName d;
     User.u_lastName := User.u_lastName d;
     User.u_email := User.u_email d;
     User.u_password := User.u_password d;
     User.u_role := None;
     User.u_status := None;
     User.u_loginAttempts := User.u_loginAttempts d;
     User.u_lockedUntil := User.u_lockedUntil d |}.

(** The response of a successful refresh. *)
Definition new_access_token (r : response) : Prop :=
  exists accessToken expiresIn,
    r = ok 200 "Token refreshed successfully" (TokenData accessToken expiresIn).


(* ================================================================== *)
(** * Vocabulary of the frames *)

(** Every run of a task, resolved or rejected, takes a database to one
    that [R] relates to it. *)
Definition moves {X} (R : DB -> DB -> Prop) (m : DB -> X * DB) : Prop :=
  forall db, R db (snd (m db)).

(** A relation between the database before and after that holds of a
    step that writes nothing and of two steps in a row. *)
Class Frame (R : DB -> DB -> Prop) : Prop := {
  frame_refl : forall db, R db db;
  frame_trans : forall db1 db2 db3, R db1 db2 -> R db2 db3 -> R db1 db3
}.

Definition untouched (db db' : DB) : Prop := db' = db.

Definition same_ledger (db db' : DB) : Prop :=
  refresh_tokens db' = refresh_tokens db /\
  refresh_tokens_seq db' = refresh_tokens_seq db.

(** A row without its two lockout columns and [updated_at]. *)
Definition account (r : user_row)
  : Z * string * string * string * string * string * string * string :=
  (r_id r, r_first_name r, r_last_name r, r_email r, r_password r, r_role r,
   r_status r, r_created_at r).

Definition same_accounts (db db' : DB) : Prop :=
  map account (users db') = map account (users db) /\ users_seq db' = users_seq db.

(** The two keys of [users]: the primary key and the UNIQUE address. *)
Definition well_keyed (db : DB) : Prop :=
  NoDup (map r_id (users db)) /\ NoDup (map r_email (users db)).

Definition keeps_keys (db db' : DB) : Prop := well_keyed db -> well_keyed db'.

(** The store only gains rows, at the end. *)
Definition grows (db db' : DB) : Prop :=
  exists added, users db' = (users db ++ added)%list.

(** The body [updateUser] hands to the store for this caller. *)
Definition written (currentUser : User.t) (d : User.updateData) : User.updateData :=
  {| User.u_firstName := User.u_firstName d;
     User.u_lastName := User.u_lastName d;
     User.u_email := User.u_email d;
     User.u_password := User.u_password d;
     User.u_role := UserController.admin_only currentUser (User.u_role d);
     User.u_status := UserController.admin_only currentUser (User.u_status d);
     User.u_loginAttempts := User.u_loginAttempts d;
     User.u_lockedUntil := User.u_lockedUntil d |}.

(** The caller may act on the target: active, and an administrator or
    the target itself. *)
Definition may_modify (db : DB) (userId target : Z) : Prop :=
  exists cu, identity_by_id db userId = Some cu /\ User.status cu = "active" /\
             (User.role cu = "admin" \/ userId = target).

(** The row [create] inserts under the id [lastID]. *)
Definition inserted `{Crypto} (env : Env) (d : User.userData) (first last : string)
    (lastID : Z) : user_row :=
  {| r_id := lastID;
     r_first_name := first;
     r_last_name := last;
     r_email := User.d_email d;
     r_password := bcrypt_hash (salt env) (User.d_password d);
     r_role := or_default (User.d_role d) "user";
     r_status := or_default (User.d_status d) "active";
     r_login_attempts := Some 0;
     r_locked_until := None;
     r_created_at := sqlite_datetime (now env);
     r_updated_at := sqlite_datetime (now env) |}.

(** The store with one more row. *)
Definition with_row (db : DB) (row : user_row) : DB :=
  {| users := users db ++ [row];
     users_seq := r_id row;
     refresh_tokens := refresh_tokens db;
     refresh_tokens_seq := refresh_tokens_seq db |}.

(** The argument [createUser] gives to [create]. *)
Definition registered (body : Rules.newUser) : User.userData :=
  {| User.d_firstName := Some (Rules.n_firstName body);
     User.d_lastName := Some (Rules.n_lastName body);
     User.d_email := Rules.n_email body;
     User.d_password := Rules.n_password body;
     User.d_role := Some (or_default (Rules.n_role body) "user");
     User.d_status := Some (or_default (Rules.n_status body) "active") |}.

(* ================================================================== *)
(** * A small instance of the libraries, and sample data *)

Module Sample.

(** Fixed-width decimal text. *)
Fixpoint decimal (width : nat) (n : Z) (k : string) : string :=
  match width with
  | O => k
  | S w => String (digit (n / 10 ^ Z.of_nat w mod 10)) (decimal w n k)
  end.

Fixpoint ends_with (suffix s : string) : bool :=
  (s =? suffix)%string ||
  match s with
  | EmptyString => false
  | String _ rest => ends_with suffix rest
  end.

(** The text before the first dot, and the text after it. *)
Fixpoint cut (s : string) : string * string :=
  match s with
  | EmptyString => (EmptyString, EmptyString)
  | String c rest =>
      if Ascii.eqb c "." then (EmptyString, rest)
      else let (a, b) := cut rest in (String c a, b)
  end.

Definition read (s : string) : option Z :=
  match s with
  | EmptyString => None
  | _ => number (list_ascii_of_string s) 0
  end.

(** A hash that shows its salt and its input, and a token that shows its
    secret and its payload: enough to run the handlers on examples. *)
Definition hash (salt s : string) : string :=
  "$2a$12$" ++ salt ++ "$" ++ s.

Definition compare (s h : string) : bool :=
  String.prefix "$2a$12$" h && ends_with ("$" ++ s) h.

Definition encode (secret : string) (c : claims) : string :=
  secret ++ "." ++
  decimal 6 (claim_id c)
    (String "." (decimal 12 (claim_iat c)
    (String "." (match claim_exp c with
                 | Some e => decimal 12 e ""
                 | None => ""
                 end ++ "." ++
     match claim_role c with Some r => r | None => "" end ++ "." ++
     claim_email c)))).

Definition decode (secret token : string) : option claims :=
  if String.prefix (secret ++ ".") token then
    let payload :=
      substring (String.length secret + 1) (String.length token) token in
    let (i, r1) := cut payload in
    let (iat, r2) := cut r1 in
    let (exp, r3) := cut r2 in
    let (role, email) := cut r3 in
    match read i, read iat with
    | Some i, Some iat =>
        Some {| claim_id := i; claim_email := email;
                claim_role := if truthy role then Some role else None;
                claim_iat := iat; claim_exp := read exp |}
    | _, _ => None
    end
  else None.

Definition error (secret token : string) : string :=
  match token with
  | EmptyString => "jwt must be provided"
  | String _ _ => if String.prefix (secret ++ ".") token then "invalid token"
                  else "invalid signature"
  end.

#[export] Instance crypto : Crypto :=
  {| bcrypt_hash := hash; bcrypt_compare := compare;
     jwt_encode := encode; jwt_decode := decode;
     jwt_error := error;
     jwt_decode_empty := fun secret =>
       match secret with
       | EmptyString => eq_refl
       | String _ _ => eq_refl
       end;
     jwt_error_name := fun secret token =>
       match token as t return error secret t <> "jwt expired" with
       | EmptyString => fun E => eq_ind "jwt must be provided"
                                   (fun s => if (s =? "jwt expired")%string
                                             then False else True) I _ E
       | String c rest =>
           match String.prefix (secret ++ ".") (String c rest) as b
             return (if b then "invalid token" else "invalid signature")
                    <> "jwt expired" with
           | true => fun E => eq_ind "invalid token"
                                (fun s => if (s =? "jwt expired")%string
                                          then False else True) I _ E
           | false => fun E => eq_ind "invalid signature"
                                 (fun s => if (s =? "jwt expired")%string
                                           then False else True) I _ E
           end
       end |}.

(** A text of digits is read as that number, when it is below 2^53; a
    date alone, [YYYY-MM-DD], as its midnight in UTC. *)
Definition digits_number (s : string) : option PrimFloat.float :=
  match s with
  | EmptyString => None
  | String _ _ =>
      match number (list_ascii_of_string s) 0 with
      | Some n =>
          if n <? 2 ^ 53 then Some (PrimFloat.of_uint63 (Uint63.of_Z n)) else None
      | None => None
      end
  end.

Definition date_alone (s : string) : option Z :=
  match list_ascii_of_string s with
  | [y3; y2; y1; y0; s1; m1; m0; s2; d1; d0] =>
      if Ascii.eqb s1 "-" && Ascii.eqb s2 "-" then
        match number [y3; y2; y1; y0] 0, number [m1; m0] 0, number [d1; d0] 0 with
        | Some y, Some m, Some d =>
            if (1 <=? m) && (m <=? 12) && (1 <=? d) && (d <=? 31)
            then Some (time_of_civil (mkCivil y m d 0 0 0 0))
            else None
        | _, _, _ => None
        end
      else None
  | _ => None
  end.

#[export] Instance platform : Platform :=
  {| sqlite_number := digits_number; date_parse_other := date_alone |}.

Fixpoint contains (c : ascii) (s : string) : bool :=
  match s with
  | EmptyString => false
  | String x rest => Ascii.eqb x c || contains c rest
  end.

#[export] Instance validator : Validator :=
  {| trim := fun s => s;
     isLength := fun lo hi s =>
       (lo <=? Z.of_nat (String.length s)) &&
       match hi with
       | Some h => Z.of_nat (String.length s) <=? h
       | None => true
       end;
     isEmail := contains "@";
     normalizeEmail := fun s => s;
     strong_password := contains "!" |}.

(** The defaults of [config.js]. *)
Definition cfg : config :=
  {| jwt_secret := "access-secret";
     jwt_refreshSecret := "refresh-secret";
     jwt_expiresIn := 900;
     jwt_refreshExpiresIn := 604800;
     maxLoginAttempts := 3;
     lockoutTime := 15 |}.

Definition quiet_at (t : Z) : Env :=
  {| now := t; salt := "NaCl"; io_fails := fun _ => false |}.

(** 2025-01-01T10:00:00Z, and some later times. *)
Definition t0 : Z := 1735725600000.
Definition minute : Z := 60000.
Definition hour : Z := 3600000.
Definition day : Z := 86400000.

Definition ana : user_row :=
  {| r_id := 7;
     r_first_name := "Ana";
     r_last_name := "Ruiz";
     r_email := "ana@example.com";
     r_password := hash "NaCl" "Secreto1!";
     r_role := "user";
     r_status := "active";
     r_login_attempts := Some 0;
     r_locked_until := None;
     r_created_at := "2024-12-01 08:00:00";
     r_updated_at := "2024-12-01 08:00:00" |}.

Definition with_lockout (r : user_row) (n : option Z) (until : option value)
  : user_row :=
  {| r_id := r_id r; r_first_name := r_first_name r; r_last_name := r_last_name r;
     r_email := r_email r; r_password := r_password r; r_role := r_role r;
     r_status := r_status r;
     r_login_attempts := n; r_locked_until := until;
     r_created_at := r_created_at r; r_updated_at := r_updated_at r |}.

Definition with_status (r : user_row) (s : string) : user_row :=
  {| r_id := r_id r; r_first_name := r_first_name r; r_last_name := r_last_name r;
     r_email := r_email r; r_password := r_password r; r_role := r_role r;
     r_status := s;
     r_login_attempts := r_login_attempts r; r_locked_until := r_locked_until r;
     r_created_at := r_created_at r; r_updated_at := r_updated_at r |}.

Definition db_of (rows : list user_row) (tokens : list token_row) : DB :=
  {| users := rows; users_seq := 7; refresh_tokens := tokens;
     refresh_tokens_seq := 0 |}.

(** The refresh token a login at [t0] mints for [ana], and the ledger
    after that login. *)
Definition tok : string :=
  AuthController.sign (quiet_at t0) (jwt_refreshSecret cfg) 7 "ana@example.com"
    None (jwt_refreshExpiresIn cfg).

Definition ledger : list token_row :=
  [ {| t_id := 1; t_token := tok; t_user_id := 7;
       t_expires_at := toISOString (t0 + 7 * day);
       t_created_at := sqlite_datetime t0 |} ].


(** [ana] after two failed attempts, and locked after three. *)
Definition ana_twice : user_row := with_lockout ana (Some 2) None.

Definition ana_locked : user_row :=
  with_lockout ana (Some 3) (Some (Text (toISOString (t0 + 15 * minute)))).

(** A body with [lockedUntil] alone, a time in the past. *)
Definition past_lock : User.updateData :=
  {| User.u_firstName := None; User.u_lastName := None; User.u_email := None;
     User.u_password := None; User.u_role := None; User.u_status := None;
     User.u_loginAttempts := None;
     User.u_lockedUntil := Some (Some "2024-12-31T00:00:00.000Z") |}.

(** The store after [ana] has sent that body to PUT /users/7. *)
Definition stale : DB :=
  snd (UserController.put (quiet_at t0) 7 7 past_lock (db_of [ana] [])).

(** The driver fails the INSERT into [refresh_tokens] only. *)
Definition ledger_down (t : Z) : Env :=
  {| now := t; salt := "NaCl";
     io_fails := fun s => match s with InsertToken => true | _ => false end |}.

(** A record of the spreadsheet, its password a bcrypt hash of cost 10. *)
Definition juan_hash : string :=
  "$2a$10$N9qo8uLOickgx2ZMRZoMyeIjZAgcfl7p92ldGxad68LJZdL17lhWy".

Definition juan : UserService.excelUser :=
  {| UserService.x_firstName := Some "Juan";
     UserService.x_lastName := Some "Mora";
     UserService.x_email := Some "juan@example.com";
     UserService.x_password := Some juan_hash;
     UserService.x_role := "user";
     UserService.x_status := "active" |}.

#[export] Instance registration : Registration :=
  {| registration_password := contains "!" |}.

(** A body of PUT /users/:id that asks for the role of an administrator. *)
Definition promote : User.updateData :=
  {| User.u_firstName := None; User.u_lastName := None; User.u_email := None;
     User.u_password := None; User.u_role := Some "admin"; User.u_status := None;
     User.u_loginAttempts := None; User.u_lockedUntil := None |}.

(** A body with [lockedUntil] alone, a text of digits: the milliseconds
    of 2099-01-01T00:00:00Z. *)
Definition digits_lock : User.updateData :=
  {| User.u_firstName := None; User.u_lastName := None; User.u_email := None;
     User.u_password := None; User.u_role := None; User.u_status := None;
     User.u_loginAttempts := None;
     User.u_lockedUntil := Some (Some "4070908800000") |}.

(** A body of POST /users that has passed the rules. *)
Definition eva : Rules.newUser :=
  {| Rules.n_firstName := "Eva";
     Rules.n_lastName := "Luna";
     Rules.n_email := "eva@example.com";
     Rules.n_password := "Clave123!";
     Rules.n_role := None;
     Rules.n_status := None |}.

(** The login of [ana] at [t0], and the registration of [eva]. *)
Definition first_login : response * DB :=
  AuthController.login cfg (quiet_at t0) "ana@example.com" "Secreto1!" (db_of [ana] []).

Definition eva_created : outcome response * DB :=
  Handlers.createUser (quiet_at t0) eva (db_of [ana] []).

Definition answer (o : outcome response) : response :=
  match o with
  | Resolved r => r
  | Rejected e => server_error e
  end.

End Sample.

(* ================================================================== *)
(** * Facts about the calendar and the two timestamp formats *)

Module ClockFacts.

Lemma InLeapYear_01 y : InLeapYear y = 0 \/ InLeapYear y = 1.
Proof. unfold InLeapYear. destruct (_ && _); auto. Qed.

Lemma DayFromYear_succ y : DayFromYear (y + 1) = DayFromYear y + 365 + InLeapYear y.
Proof.
  unfold DayFromYear, InLeapYear.
  destruct (Z.eqb_spec (y mod 4) 0), (Z.eqb_spec (y mod 100) 0),
    (Z.eqb_spec (y mod 400) 0); cbn [andb orb negb];
    Z.div_mod_to_equations; lia.
Qed.

Lemma YearFromDay_spec d :
  DayFromYear (YearFromDay d) <= d < DayFromYear (YearFromDay d + 1).
Proof.
  unfold YearFromDay.
  destruct (Z.ltb_spec d (DayFromYear (1970 + 400 * d / 146097))).
  - unfold DayFromYear in *. Z.div_mod_to_equations; lia.
  - destruct (Z.leb_spec (DayFromYear (1970 + 400 * d / 146097 + 1)) d).
    + unfold DayFromYear in *. Z.div_mod_to_equations; lia.
    + lia.
Qed.

Lemma DayFromYear_mono y1 y2 : y1 <= y2 -> DayFromYear y1 <= DayFromYear y2.
Proof.
  intros H. unfold DayFromYear. Z.div_mod_to_equations; lia.
Qed.

(* day in year bounds *)
Lemma day_in_year_bounds d :
  let y := YearFromDay d in
  0 <= d - DayFromYear y < 365 + InLeapYear y.
Proof.
  intros y. pose proof (YearFromDay_spec d) as H. fold y in H.
  rewrite DayFromYear_succ in H. lia.
Qed.

Ltac split_ltb :=
  repeat match goal with
  | |- context [ ?a <? ?b ] => destruct (Z.ltb_spec a b)
  | |- context [ ?a <=? ?b ] => destruct (Z.leb_spec a b)
  | |- context [ ?a =? ?b ] => destruct (Z.eqb_spec a b)
  end.

Lemma MonthFromDay_spec L d :
  0 <= L <= 1 -> 0 <= d < 365 + L ->
  let m := MonthFromDay L d in
  0 <= m <= 11 /\ MonthStart L m <= d /\ d - MonthStart L m < 31.
Proof.
  intros HL Hd. cbv zeta. unfold MonthFromDay.
  split_ltb; unfold MonthStart; split_ltb; lia.
Qed.

Lemma MakeDay_civil t :
  let c := civil_of_time t in
  MakeDay (c_year c) (c_month c) (c_day c) = Day t.
Proof.
  cbv zeta. unfold civil_of_time, MakeDay; cbn [c_year c_month c_day].
  replace (MonthFromDay (InLeapYear (YearFromDay (Day t))) (Day t - DayFromYear (YearFromDay (Day t))) + 1 - 1)
    with (MonthFromDay (InLeapYear (YearFromDay (Day t))) (Day t - DayFromYear (YearFromDay (Day t)))) by lia.
  lia.
Qed.

Lemma MonthFromDay_mono L a b : MonthFromDay L a < MonthFromDay L b -> a < b.
Proof. unfold MonthFromDay. split_ltb; lia. Qed.

Lemma civil_date_compare t1 t2 :
  let c1 := civil_of_time t1 in
  let c2 := civil_of_time t2 in
  lexcmp3 (c_year c1) (c_month c1) (c_day c1) (c_year c2) (c_month c2) (c_day c2)
  = (Day t1 ?= Day t2).
Proof.
  cbv zeta. unfold civil_of_time; cbn [c_year c_month c_day].
  generalize (Day t1) (Day t2); intros d1 d2.
  pose proof (YearFromDay_spec d1) as H1. pose proof (YearFromDay_spec d2) as H2.
  unfold lexcmp3.
  destruct (Z.compare_spec (YearFromDay d1) (YearFromDay d2)) as [E|E|E].
  - rewrite E in *.
    set (L := InLeapYear (YearFromDay d2)).
    set (a := d1 - DayFromYear (YearFromDay d2)).
    set (b := d2 - DayFromYear (YearFromDay d2)).
    destruct (Z.compare_spec (MonthFromDay L a + 1) (MonthFromDay L b + 1)) as [F|F|F].
    + assert (MonthFromDay L a = MonthFromDay L b) as -> by lia.
      destruct (Z.compare_spec d1 d2), (Z.compare_spec (a - MonthStart L (MonthFromDay L b) + 1) (b - MonthStart L (MonthFromDay L b) + 1)); subst a b; try reflexivity; lia.
    + assert (a < b) by (apply (MonthFromDay_mono L); lia).
      symmetry; apply Z.compare_lt_iff. lia.
    + assert (b < a) by (apply (MonthFromDay_mono L); lia).
      symmetry; apply Z.compare_gt_iff. lia.
  - symmetry; apply Z.compare_lt_iff.
    pose proof (DayFromYear_mono (YearFromDay d1 + 1) (YearFromDay d2)). lia.
  - symmetry; apply Z.compare_gt_iff.
    pose proof (DayFromYear_mono (YearFromDay d2 + 1) (YearFromDay d1)). lia.
Qed.


Lemma N_of_digit d : 0 <= d < 10 -> N_of_ascii (digit d) = Z.to_N (48 + d).
Proof.
  intros H. unfold digit. apply N_ascii_embedding. lia.
Qed.

Lemma digit_compare a b :
  0 <= a < 10 -> 0 <= b < 10 -> Ascii.compare (digit a) (digit b) = (a ?= b).
Proof.
  intros Ha Hb. unfold Ascii.compare. rewrite !N_of_digit by assumption.
  rewrite Z2N.inj_compare by lia.
  apply Z.add_compare_mono_l.
Qed.

Lemma digit_val_digit d : 0 <= d < 10 -> digit_val (digit d) = Some d.
Proof.
  intros H. unfold digit_val. rewrite N_of_digit by assumption.
  rewrite Z2N.id by lia.
  destruct (Z.leb_spec 48 (48 + d)), (Z.leb_spec (48 + d) 57); cbn [andb]; try lia.
  f_equal; lia.
Qed.

Lemma compare_pad2 a b k1 k2 :
  0 <= a -> 0 <= b ->
  String.compare (pad2 a k1) (pad2 b k2)
  = match a mod 100 ?= b mod 100 with Eq => String.compare k1 k2 | r => r end.
Proof.
  intros Ha Hb. unfold pad2. cbn [String.compare].
  rewrite !digit_compare by (Z.div_mod_to_equations; lia).
  destruct (Z.compare_spec (a / 10 mod 10) (b / 10 mod 10)),
           (Z.compare_spec (a mod 10) (b mod 10)),
           (Z.compare_spec (a mod 100) (b mod 100)); try reflexivity;
    exfalso; Z.div_mod_to_equations; lia.
Qed.

Lemma compare_pad3 a b k1 k2 :
  0 <= a -> 0 <= b ->
  String.compare (pad3 a k1) (pad3 b k2)
  = match a mod 1000 ?= b mod 1000 with Eq => String.compare k1 k2 | r => r end.
Proof.
  intros Ha Hb. unfold pad3. cbn [String.compare].
  rewrite digit_compare by (Z.div_mod_to_equations; lia).
  rewrite compare_pad2 by assumption.
  destruct (Z.compare_spec (a / 100 mod 10) (b / 100 mod 10)),
           (Z.compare_spec (a mod 100) (b mod 100)),
           (Z.compare_spec (a mod 1000) (b mod 1000)); try reflexivity;
    exfalso; Z.div_mod_to_equations; lia.
Qed.

Lemma compare_pad4 a b k1 k2 :
  0 <= a < 10000 -> 0 <= b < 10000 ->
  String.compare (pad4 a k1) (pad4 b k2)
  = match a ?= b with Eq => String.compare k1 k2 | r => r end.
Proof.
  intros Ha Hb. unfold pad4. cbn [String.compare].
  rewrite digit_compare by (Z.div_mod_to_equations; lia).
  rewrite compare_pad3 by lia.
  destruct (Z.compare_spec (a / 1000 mod 10) (b / 1000 mod 10)),
           (Z.compare_spec (a mod 1000) (b mod 1000)),
           (Z.compare_spec a b); try reflexivity;
    exfalso; Z.div_mod_to_equations; lia.
Qed.

Lemma compare_pad2_small a b k1 k2 :
  0 <= a < 100 -> 0 <= b < 100 ->
  String.compare (pad2 a k1) (pad2 b k2)
  = match a ?= b with Eq => String.compare k1 k2 | r => r end.
Proof.
  intros Ha Hb. rewrite compare_pad2 by lia.
  rewrite !Z.mod_small by lia. reflexivity.
Qed.

Lemma civil_fields t :
  let c := civil_of_time t in
  1 <= c_month c <= 12 /\ 1 <= c_day c <= 31 /\ 0 <= c_hour c <= 23 /\
  0 <= c_min c <= 59 /\ 0 <= c_sec c <= 59 /\ 0 <= c_ms c <= 999.
Proof.
  cbv zeta. unfold civil_of_time; cbn [c_month c_day c_hour c_min c_sec c_ms].
  pose proof (day_in_year_bounds (Day t)) as Hd. cbv zeta in Hd.
  pose proof (InLeapYear_01 (YearFromDay (Day t))) as HL.
  pose proof (MonthFromDay_spec (InLeapYear (YearFromDay (Day t)))
                (Day t - DayFromYear (YearFromDay (Day t))) ltac:(lia) Hd) as Hm.
  cbv zeta in Hm. unfold msPerDay.
  repeat split; try lia; Z.div_mod_to_equations; lia.
Qed.

Lemma civil_year_range t :
  in_range t -> 0 <= c_year (civil_of_time t) <= 9999.
Proof.
  unfold in_range, civil_of_time; cbn [c_year]. intros H.
  pose proof (YearFromDay_spec (Day t)) as Hy.
  assert (0 <= Day t < 2932897) as Hd
    by (unfold Day, msPerDay; Z.div_mod_to_equations; lia).
  split.
  - destruct (Z.lt_ge_cases (YearFromDay (Day t)) 0) as [Hn|]; [|assumption].
    pose proof (DayFromYear_mono (YearFromDay (Day t) + 1) 1970 ltac:(lia)) as Hm.
    change (DayFromYear 1970) with 0 in Hm. lia.
  - destruct (Z.le_gt_cases (YearFromDay (Day t)) 9999) as [|Hn]; [assumption|].
    pose proof (DayFromYear_mono 10000 (YearFromDay (Day t)) ltac:(lia)) as Hm.
    change (DayFromYear 10000) with 2932897 in Hm. lia.
Qed.

Lemma date_text_compare t1 t2 k1 k2 :
  in_range t1 -> in_range t2 ->
  String.compare (date_text (civil_of_time t1) k1) (date_text (civil_of_time t2) k2)
  = match Day t1 ?= Day t2 with Eq => String.compare k1 k2 | r => r end.
Proof.
  intros H1 H2. rewrite <- civil_date_compare.
  pose proof (civil_year_range t1 H1). pose proof (civil_year_range t2 H2).
  pose proof (civil_fields t1) as F1. pose proof (civil_fields t2) as F2.
  cbv zeta in F1, F2.
  unfold date_text, lexcmp3.
  rewrite compare_pad4 by lia.
  destruct (c_year (civil_of_time t1) ?= c_year (civil_of_time t2)); try reflexivity.
  cbn [String.compare]. change (Ascii.compare "-" "-") with Eq; cbv iota.
  rewrite compare_pad2_small by lia.
  destruct (c_month (civil_of_time t1) ?= c_month (civil_of_time t2)); try reflexivity.
  cbn [String.compare]. change (Ascii.compare "-" "-") with Eq; cbv iota.
  rewrite compare_pad2_small by lia.
  reflexivity.
Qed.

Theorem text_gt_expiry e n :
  in_range e -> in_range n ->
  text_gt (toISOString e) (sqlite_datetime n) = (Day n <=? Day e).
Proof.
  intros He Hn. unfold text_gt, toISOString, sqlite_datetime. cbv zeta.
  pose proof (civil_year_range e He) as Hy.
  replace ((0 <=? c_year (civil_of_time e)) && (c_year (civil_of_time e) <=? 9999)) with true
    by (symmetry; apply andb_true_iff; split; apply Z.leb_le; lia).
  rewrite date_text_compare by assumption.
  unfold Z.leb. rewrite (Z.compare_antisym (Day e) (Day n)).
  destruct (Day e ?= Day n); reflexivity.
Qed.

Lemma number_pad2 n : 0 <= n < 100 ->
  number [digit (n / 10 mod 10); digit (n mod 10)] 0 = Some n.
Proof.
  intros H. cbn [number].
  rewrite !digit_val_digit by (Z.div_mod_to_equations; lia).
  f_equal. Z.div_mod_to_equations; lia.
Qed.

Lemma number_pad3 n : 0 <= n < 1000 ->
  number [digit (n / 100 mod 10); digit (n / 10 mod 10); digit (n mod 10)] 0 = Some n.
Proof.
  intros H. cbn [number].
  rewrite !digit_val_digit by (Z.div_mod_to_equations; lia).
  f_equal. Z.div_mod_to_equations; lia.
Qed.

Lemma number_pad4 n : 0 <= n < 10000 ->
  number [digit (n / 1000 mod 10); digit (n / 100 mod 10);
          digit (n / 10 mod 10); digit (n mod 10)] 0 = Some n.
Proof.
  intros H. cbn [number].
  rewrite !digit_val_digit by (Z.div_mod_to_equations; lia).
  f_equal. Z.div_mod_to_equations; lia.
Qed.

Lemma time_of_civil_of_time t : time_of_civil (civil_of_time t) = t.
Proof.
  pose proof (MakeDay_civil t) as H. cbv zeta in H.
  unfold time_of_civil. rewrite H.
  unfold civil_of_time; cbn [c_hour c_min c_sec c_ms]. unfold Day, msPerDay.
  Z.div_mod_to_equations; lia.
Qed.

Theorem Date_parse_toISOString t :
  in_range t -> Date_parse (toISOString t) = Some t.
Proof.
  intros Ht.
  pose proof (civil_year_range t Ht) as Hy.
  pose proof (civil_fields t) as F. cbv zeta in F.
  pose proof (time_of_civil_of_time t) as R.
  unfold toISOString. cbv zeta.
  replace ((0 <=? c_year (civil_of_time t)) && (c_year (civil_of_time t) <=? 9999)) with true
    by (symmetry; apply andb_true_iff; split; apply Z.leb_le; lia).
  destruct (civil_of_time t) as [y m d h i e f]; cbn [c_year c_month c_day c_hour c_min c_sec c_ms] in *.
  unfold Date_parse, date_text, clock_text, pad4, pad3, pad2; cbn [c_year c_month c_day c_hour c_min c_sec c_ms list_ascii_of_string].
  change (Ascii.eqb "-" "-") with true. change (Ascii.eqb "T" "T") with true.
  change (Ascii.eqb ":" ":") with true. change (Ascii.eqb "." ".") with true.
  change (Ascii.eqb "Z" "Z") with true. cbn [andb].
  rewrite number_pad4, !number_pad2, number_pad3 by lia.
  replace ((1 <=? m) && (m <=? 12) && (1 <=? d) && (d <=? 31) && (h <=? 23) && (i <=? 59) && (e <=? 59)) with true.
  - f_equal; exact R.
  - symmetry. repeat (apply andb_true_iff; split); apply Z.leb_le; lia.
Qed.

End ClockFacts.

Import ClockFacts.

(* ================================================================== *)
(** * Texts the store keeps as texts *)

Lemma foreign_char_kept `{Platform} s :
  numeric_alphabet s = false -> numeric_affinity s = Text s.
Proof. unfold numeric_affinity. intros ->. reflexivity. Qed.

(** What [toISOString] prints has a [T]: it is no numeric literal, and
    the column keeps it as a text. *)
Lemma toISOString_alphabet t : numeric_alphabet (toISOString t) = false.
Proof.
  unfold toISOString. cbv zeta.
  assert (HT : forall k, numeric_alphabet (String "T" k) = false) by reflexivity.
  assert (H2 : forall n k, numeric_alphabet k = false -> numeric_alphabet (pad2 n k) = false).
  { intros n k Hk. unfold pad2. cbn [numeric_alphabet]. rewrite Hk, !andb_false_r.
    reflexivity. }
  assert (Hc : forall c k, numeric_alphabet k = false ->
                           numeric_alphabet (String c k) = false).
  { intros c k Hk. cbn [numeric_alphabet]. rewrite Hk. apply andb_false_r. }
  destruct (_ && _).
  - unfold date_text, pad4, pad3. auto 12.
  - unfold pad6, pad4, pad3. auto 14.
Qed.

Lemma toISOString_kept `{Platform} t :
  numeric_affinity (toISOString t) = Text (toISOString t).
Proof. apply foreign_char_kept, toISOString_alphabet. Qed.

Lemma toISOString_truthy t : truthy (toISOString t) = true.
Proof. unfold toISOString. cbv zeta. destruct (_ && _); reflexivity. Qed.

(* ================================================================== *)
(** * The task monad and the store *)

(** [H] says that a handler's run ended with the response the goal's
    hypotheses exclude: the two responses differ in a field. *)
Ltac other_answer H := injection H as <- _; discriminate.

Lemma run_ok env s db : io_fails env s = false -> run env s db = (Resolved tt, db).
Proof. intros E. unfold run. rewrite E. reflexivity. Qed.

Lemma run_fail env s db :
  io_fails env s = true -> run env s db = (Rejected "SQLITE_ERROR", db).
Proof. intros E. unfold run. rewrite E. reflexivity. Qed.

Lemma truthy_true s : truthy s = true <-> s <> "".
Proof.
  unfold truthy. destruct (String.eqb_spec s ""); cbn; split; congruence.
Qed.

Lemma find_map_same {A} (P : A -> bool) (g : A -> A) (l : list A) :
  (forall x, P (g x) = P x) -> find P (map g l) = option_map g (find P l).
Proof.
  intros Hg. induction l as [|x l IH]; [reflexivity|].
  cbn [map find]. rewrite Hg. destruct (P x); [reflexivity | exact IH].
Qed.

Lemma find_some_holds {A} (P : A -> bool) (l : list A) x :
  find P l = Some x -> P x = true.
Proof. intros E. now apply find_some in E. Qed.

Lemma find_existsb {A} (P : A -> bool) l x : find P l = Some x -> existsb P l = true.
Proof.
  intros Hf. apply existsb_exists. exists x. now apply find_some in Hf.
Qed.

Lemma find_app_new {A} (P : A -> bool) l x :
  find P l = None -> P x = true -> find P (l ++ [x]) = Some x.
Proof.
  intros Hn Hx. induction l as [|y l IH]; cbn [find app] in *.
  - rewrite Hx. reflexivity.
  - destruct (P y); [discriminate | auto].
Qed.

Lemma find_map_assign (i : Z) (g : user_row -> user_row) rows row :
  (forall r, r_id (g r) = r_id r) ->
  find (fun r => r_id r =? i) rows = Some row ->
  find (fun r => r_id r =? i) (map (fun r => if r_id r =? i then g r else r) rows)
  = Some (g row).
Proof.
  intros Hg Hf. rewrite find_map_same.
  - rewrite Hf. cbn [option_map]. apply find_some_holds in Hf. cbv beta in Hf.
    rewrite Hf. reflexivity.
  - intros r. destruct (r_id r =? i) eqn:E; [rewrite Hg|]; exact E.
Qed.

Lemma in_map_other (i : Z) (g : user_row -> user_row) rows r :
  (forall x, r_id (g x) = r_id x) ->
  r_id r <> i ->
  (In r (map (fun x => if r_id x =? i then g x else x) rows) <-> In r rows).
Proof.
  intros Hg Hr. rewrite in_map_iff. split.
  - intros (x & Hx & Hin). destruct (Z.eqb_spec (r_id x) i) as [E|E].
    + exfalso. apply Hr. rewrite <- Hx, Hg. exact E.
    + now subst.
  - intros Hin. exists r. split; [|assumption].
    destruct (Z.eqb_spec (r_id r) i); [contradiction | reflexivity].
Qed.

Lemma findById_ok env i db :
  io_fails env SelectUserById = false ->
  User.findById env i db = (Resolved (identity_by_id db i), db).
Proof.
  intros E. unfold User.findById, bind. rewrite run_ok by assumption. reflexivity.
Qed.

Lemma findByEmail_ok env e db :
  io_fails env SelectUserByEmail = false ->
  User.findByEmail env e db = (Resolved (identity db e), db).
Proof.
  intros E. unfold User.findByEmail, bind. rewrite run_ok by assumption. reflexivity.
Qed.

Lemma identity_users db1 db2 e : users db1 = users db2 -> identity db1 e = identity db2 e.
Proof. unfold identity. intros ->. reflexivity. Qed.

Lemma identity_none_existsb db e :
  identity db e = None ->
  existsb (fun r => (r_email r =? e)%string) (users db) = false.
Proof.
  unfold identity. intros Hn. apply not_true_is_false. intros E.
  apply existsb_exists in E. destruct E as (x & Hin & Hx).
  destruct (find _ (users db)) eqn:Hf; [discriminate|].
  apply (find_none _ _ Hf) in Hin. cbv beta in Hin. congruence.
Qed.

(* ================================================================== *)
(** * The ledger *)

Lemma validate_ok env t u db :
  io_fails env SelectToken = false ->
  AuthController.validateRefreshToken env t u db
  = (Resolved (existsb (AuthController.active_row env t u) (refresh_tokens db)), db).
Proof.
  intros E. unfold AuthController.validateRefreshToken, bind.
  rewrite run_ok by assumption. reflexivity.
Qed.

Lemma remove_ok env t db :
  io_fails env DeleteToken = false ->
  AuthController.removeRefreshToken env t db
  = (Resolved (existsb (fun r => (t_token r =? t)%string) (refresh_tokens db)),
     {| users := users db; users_seq := users_seq db;
        refresh_tokens :=
          filter (fun r => negb (t_token r =? t)%string) (refresh_tokens db);
        refresh_tokens_seq := refresh_tokens_seq db |}).
Proof.
  intros E. unfold AuthController.removeRefreshToken, bind.
  rewrite run_ok by assumption. reflexivity.
Qed.

Lemma store_users env t i db :
  users (snd (AuthController.storeRefreshToken env t i db)) = users db.
Proof.
  unfold AuthController.storeRefreshToken, bind, run.
  destruct (io_fails env InsertToken); reflexivity.
Qed.

(** A record the ledger check accepts is a record of the token and the
    user. *)
Lemma active_recorded env t u db :
  existsb (AuthController.active_row env t u) (refresh_tokens db) = true ->
  exists r, recorded db t u r.
Proof.
  intros E. apply existsb_exists in E. destruct E as (r & Hin & Hr).
  unfold AuthController.active_row in Hr.
  apply andb_true_iff in Hr. destruct Hr as [Hr _].
  apply andb_true_iff in Hr. destruct Hr as [Ht Hu].
  exists r. repeat split; [assumption | now apply String.eqb_eq | now apply Z.eqb_eq].
Qed.

(** The ledger check sees the calendar day of the expiry only. *)
Lemma active_row_by_day env t u r e :
  t_expires_at r = toISOString e -> in_range (now env) -> in_range e ->
  AuthController.active_row env t u r
  = (t_token r =? t)%string && (t_user_id r =? u) && (Day (now env) <=? Day e).
Proof.
  intros He Rn Re. unfold AuthController.active_row.
  rewrite He, text_gt_expiry by assumption. reflexivity.
Qed.

(** A record whose expiry lies ahead is accepted. *)
Lemma recorded_active env t u db r e :
  recorded db t u r -> t_expires_at r = toISOString e ->
  in_range (now env) -> in_range e -> now env < e ->
  existsb (AuthController.active_row env t u) (refresh_tokens db) = true.
Proof.
  intros (Hin & Ht & Hu) He Rn Re Hlt. apply existsb_exists. exists r.
  split; [assumption|].
  rewrite (active_row_by_day env t u r e) by assumption.
  rewrite (proj2 (String.eqb_eq _ _) Ht), (proj2 (Z.eqb_eq _ _) Hu). cbn [andb].
  apply Z.leb_le. unfold Day, msPerDay. apply Z.div_le_mono; lia.
Qed.

(** A record [storeRefreshToken] wrote is accepted at every instant of the
    UTC day on which it expires, before and after its expiry. *)
Lemma stored_record_accepted env0 env t u db :
  io_fails env0 InsertToken = false -> io_fails env SelectToken = false ->
  let e := now env0 + 7 * 24 * 60 * 60 * 1000 in
  in_range e -> in_range (now env) -> Day (now env) <= Day e ->
  let db' := snd (AuthController.storeRefreshToken env0 t u db) in
  AuthController.validateRefreshToken env t u db' = (Resolved true, db').
Proof.
  intros F0 F1 e Re Rn Hd db'. rewrite validate_ok by assumption. f_equal. f_equal.
  subst db'. unfold AuthController.storeRefreshToken, bind.
  rewrite run_ok by assumption. cbn [snd refresh_tokens].
  rewrite existsb_app. apply orb_true_iff. right. cbn [existsb].
  rewrite (active_row_by_day env t u _ e) by (reflexivity || assumption).
  cbn [t_token t_user_id]. rewrite String.eqb_refl, Z.eqb_refl.
  apply Z.leb_le in Hd. rewrite Hd. reflexivity.
Qed.

Lemma no_record_inactive env t u db :
  (forall r, In r (refresh_tokens db) -> t_token r <> t) ->
  existsb (AuthController.active_row env t u) (refresh_tokens db) = false.
Proof.
  intros Hno. apply not_true_is_false. intros E.
  apply active_recorded in E. destruct E as (r & Hin & Ht & _).
  exact (Hno r Hin Ht).
Qed.

(* ================================================================== *)
(** * Refresh and logout *)

Section Refresh.
Context `{Crypto} `{Platform}.

(** [jwt.verify] returns the payload when the signature verifies and the
    [exp] claim, if any, lies ahead. *)
Lemma verify_resolved env t secret c :
  AuthController.verify env t secret = Resolved c <->
  jwt_decode secret t = Some c /\ unexpired env c.
Proof.
  unfold AuthController.verify, unexpired.
  destruct (jwt_decode secret t) as [c0|]; [|split; [discriminate | intros [[=] _]]].
  destruct (claim_exp c0) as [exp|] eqn:Ee.
  - destruct (Z.leb_spec exp (now env / 1000)); split.
    + discriminate.
    + intros [[= ->] Hx]. specialize (Hx exp Ee). lia.
    + intros [= <-]. split; [reflexivity|]. intros x Hx. congruence.
    + intros [[= ->] _]. reflexivity.
  - split.
    + intros [= <-]. split; [reflexivity|]. intros x Hx. congruence.
    + intros [[= ->] _]. reflexivity.
Qed.

(** What [refreshToken] answers to a non-empty token, step by step. *)
Lemma refresh_steps cfg env t db :
  truthy t = true ->
  fst (AuthController.refreshToken cfg env (Some t) db) =
  match AuthController.verify env t (jwt_refreshSecret cfg) with
  | Rejected _ => failure 401 "Invalid refresh token"
  | Resolved c =>
      if io_fails env SelectToken then failure 401 "Invalid refresh token"
      else if negb (existsb (AuthController.active_row env t (claim_id c))
                      (refresh_tokens db))
      then failure 401 "Invalid refresh token"
      else if io_fails env SelectUserById then failure 401 "Invalid refresh token"
      else
        match identity_by_id db (claim_id c) with
        | None => failure 401 "User not found or inactive"
        | Some u =>
            if negb (User.status u =? "active")%string
            then failure 401 "User not found or inactive"
            else ok 200 "Token refreshed successfully"
                   (TokenData
                      (AuthController.sign env (jwt_secret cfg) (User.id u)
                         (User.email u) (Some (User.role u)) (jwt_expiresIn cfg))
                      (jwt_expiresIn cfg))
        end
  end.
Proof.
  intros Ht. unfold AuthController.refreshToken, handler. rewrite Ht. cbn [negb].
  destruct (AuthController.verify env t (jwt_refreshSecret cfg)) as [c|e];
    [|reflexivity].
  unfold bind at 1.
  destruct (io_fails env SelectToken) eqn:E1.
  - unfold AuthController.validateRefreshToken, bind.
    rewrite run_fail by assumption. reflexivity.
  - rewrite validate_ok by assumption.
    destruct (existsb _ _); cbn [negb]; [|reflexivity].
    unfold bind.
    destruct (io_fails env SelectUserById) eqn:E2.
    + unfold User.findById, bind. rewrite run_fail by assumption. reflexivity.
    + rewrite findById_ok by assumption.
      destruct (identity_by_id db (claim_id c)) as [u|]; [|reflexivity].
      destruct (negb _); reflexivity.
Qed.

(** C1, as amended.  [refresh] returns a new access token only if the
    token's signature verifies under the refresh secret, it is not expired
    by its own [exp] claim, the ledger holds a record for the token and its
    embedded user id, and the identity with that id exists and is active.  Conversely, when all of this holds and the
    record's expiry is strictly in the future, [refresh] returns a new
    access token (the statements on the ledger and on the users must not
    fail in the driver).  After [logout] has run its DELETE for a non-empty
    token, the ledger holds no record of the token, and on every ledger
    without such a record [refresh] answers [InvalidRefreshToken]. *)
Theorem C1_refresh cfg env t db :
  (new_access_token (fst (AuthController.refreshToken cfg env (Some t) db)) ->
   exists c u r,
     jwt_decode (jwt_refreshSecret cfg) t = Some c /\ unexpired env c /\
     recorded db t (claim_id c) r /\
     identity_by_id db (claim_id c) = Some u /\ User.status u = "active")
  /\
  (forall c u r e,
     io_fails env SelectToken = false -> io_fails env SelectUserById = false ->
     jwt_decode (jwt_refreshSecret cfg) t = Some c -> unexpired env c ->
     recorded db t (claim_id c) r ->
     t_expires_at r = toISOString e -> in_range (now env) -> in_range e ->
     now env < e ->
     identity_by_id db (claim_id c) = Some u -> User.status u = "active" ->
     new_access_token (fst (AuthController.refreshToken cfg env (Some t) db)))
  /\
  (t <> "" ->
   forall env0, io_fails env0 DeleteToken = false ->
   let db1 := snd (AuthController.logout env0 (Some t) db) in
   (forall r, In r (refresh_tokens db1) -> t_token r <> t) /\
   forall db2, (forall r, In r (refresh_tokens db2) -> t_token r <> t) ->
     InvalidRefreshToken (fst (AuthController.refreshToken cfg env (Some t) db2))).
Proof.
  split; [|split].
  - intros (a & x & Hr).
    destruct (String.eqb_spec t "") as [->|Hne].
    + cbn in Hr. discriminate.
    + rewrite refresh_steps in Hr by now apply truthy_true.
      destruct (AuthController.verify env t (jwt_refreshSecret cfg)) as [c|] eqn:Ev;
        [|discriminate].
      destruct (io_fails env SelectToken); [discriminate|].
      destruct (existsb _ _) eqn:Ea; cbn [negb] in Hr; [|discriminate].
      destruct (io_fails env SelectUserById); [discriminate|].
      destruct (identity_by_id db (claim_id c)) as [u|] eqn:Eu; [|discriminate].
      destruct (String.eqb_spec (User.status u) "active") as [Es|]; [|discriminate].
      apply active_recorded in Ea. destruct Ea as [r Hrec].
      apply verify_resolved in Ev. destruct Ev as [Hd Hx].
      exists c, u, r. auto.
  - intros c u r e F1 F2 Hd Hx Hrec He Rn Re Hlt Hu Hs.
    assert (Hne : t <> "")
      by (intros ->; rewrite jwt_decode_empty in Hd; discriminate).
    assert (Hv : AuthController.verify env t (jwt_refreshSecret cfg) = Resolved c)
      by (apply verify_resolved; auto).
    rewrite refresh_steps by now apply truthy_true.
    rewrite Hv, F1, F2, (recorded_active env t (claim_id c) db r e), Hu by assumption.
    rewrite Hs. cbn. eexists _, _. reflexivity.
  - intros Hne env0 F0. cbv zeta.
    assert (Ht : truthy t = true) by now apply truthy_true.
    split.
    + unfold AuthController.logout, handler, bind. rewrite Ht.
      rewrite remove_ok by assumption. cbn [snd refresh_tokens ret].
      intros r Hin Hr. apply filter_In in Hin. destruct Hin as [_ Hf].
      rewrite (proj2 (String.eqb_eq _ _) Hr) in Hf. discriminate.
    + intros db2 Hno. rewrite refresh_steps by assumption.
      unfold InvalidRefreshToken.
      destruct (AuthController.verify env t (jwt_refreshSecret cfg)) as [c|];
        [|reflexivity].
      destruct (io_fails env SelectToken); [reflexivity|].
      rewrite no_record_inactive by assumption. reflexivity.
Qed.

End Refresh.

(** C9.  Logout is idempotent: with the DELETE statement available,
    calling logout twice in a row with the same token answers success
    both times and the second call changes nothing; the token need not
    have been issued.  After the first call the ledger holds exactly the
    records it held before, without those of the token that was supplied
    (a missing or empty token deletes nothing); the users are untouched. *)
Theorem C9_logout_idempotent env1 env2 (t : option string) db :
  io_fails env1 DeleteToken = false -> io_fails env2 DeleteToken = false ->
  let (r1, db1) := AuthController.logout env1 t db in
  let (r2, db2) := AuthController.logout env2 t db1 in
  r1 = ok 200 "Logout successful" NoData /\
  r2 = ok 200 "Logout successful" NoData /\
  db2 = db1 /\
  users db1 = users db /\
  (forall r, In r (refresh_tokens db1) <->
             In r (refresh_tokens db) /\
             ~ (exists s, t = Some s /\ s <> "" /\ t_token r = s)).
Proof.
  intros F1 F2. unfold AuthController.logout, handler, bind.
  destruct t as [s|].
  - destruct (truthy s) eqn:Hs.
    + rewrite remove_ok by assumption. cbn [ret].
      rewrite remove_ok by assumption.
      cbn [ret refresh_tokens users users_seq refresh_tokens_seq].
      split; [reflexivity|]. split; [reflexivity|]. split; [|split; [reflexivity|]].
      * f_equal.
        induction (refresh_tokens db) as [|x l IH]; [reflexivity|].
        cbn [filter]. destruct (negb (t_token x =? s)%string) eqn:E; cbn [filter].
        -- rewrite E. f_equal. exact IH.
        -- exact IH.
      * intros r. rewrite filter_In. apply truthy_true in Hs. split.
        -- intros [Hin Hf]. split; [assumption|]. intros (s' & [= <-] & _ & Hr).
           rewrite (proj2 (String.eqb_eq _ _) Hr) in Hf. discriminate.
        -- intros [Hin Hn]. split; [assumption|].
           destruct (String.eqb_spec (t_token r) s) as [E|]; [|reflexivity].
           exfalso. apply Hn. exists s. auto.
    + cbn [ret].
      split; [reflexivity|]. split; [reflexivity|]. split; [reflexivity|].
      split; [reflexivity|].
      intros r. split; [|tauto]. intros Hin. split; [assumption|].
      intros (s' & [= <-] & Hne & _). apply truthy_true in Hne. congruence.
  - cbn [ret]. repeat (split; [reflexivity|]).
    intros r. split; [|tauto]. intros Hin. split; [assumption|].
    intros (s' & [=] & _).
Qed.

(* ================================================================== *)
(** * Login and the lockout *)

Section Login.
Context `{Crypto} `{Platform}.

(** [update] when the statement does not fail and the address, if one is
    supplied, is free. *)
Lemma update_accepts this env d db :
  io_fails env UpdateUser = false ->
  User.email_taken (User.id this) d (users db) = false ->
  User.update this env d db
  = (Resolved (existsb (fun r => r_id r =? User.id this) (users db)),
     {| users := map (fun r => if r_id r =? User.id this then User.assign env d r else r)
                     (users db);
        users_seq := users_seq db;
        refresh_tokens := refresh_tokens db;
        refresh_tokens_seq := refresh_tokens_seq db |}).
Proof.
  intros E Hd. unfold User.update, bind. rewrite run_ok by assumption.
  rewrite Hd. reflexivity.
Qed.

Lemma update_fail this env d db :
  io_fails env UpdateUser = true ->
  User.update this env d db = (Rejected "SQLITE_ERROR", db).
Proof.
  intros E. unfold User.update, bind. rewrite run_fail by assumption. reflexivity.
Qed.

(** The identity read back after the UPDATE that [incrementLoginAttempts]
    and [resetLoginAttempts] run: the two lockout fields are the ones
    written, the rest of the credentials is as before. *)
Lemma identity_after_lockout_write env db e u n until :
  identity db e = Some u ->
  io_fails env UpdateUser = false ->
  let db' := snd (User.update u env (lockout_fields n until) db) in
  exists u',
    identity db' e = Some u' /\
    User.loginAttempts u' = n /\
    User.lockedUntil u' = option_map numeric_affinity until /\
    User.id u' = User.id u /\ User.status u' = User.status u /\
    User.password u' = User.password u /\ User.email u' = User.email u /\
    User.role u' = User.role u /\
    refresh_tokens db' = refresh_tokens db.
Proof.
  intros Hu E. cbv zeta. rewrite update_accepts by (assumption || reflexivity).
  unfold identity in *. cbn [snd users refresh_tokens].
  rewrite find_map_same.
  - destruct (find _ (users db)) as [row|] eqn:Hf; [|discriminate].
    injection Hu as <-. cbn [option_map User.new User.id r_id].
    rewrite Z.eqb_refl. eexists. split; [reflexivity|].
    cbn. repeat split; reflexivity.
  - intros r. destruct (r_id r =? User.id u); reflexivity.
Qed.

(** What [login] answers and leaves behind, step by step. *)
Lemma login_steps cfg env e pw db :
  AuthController.login cfg env e pw db =
  if io_fails env SelectUserByEmail then (server_error "SQLITE_ERROR", db) else
  match identity db e with
  | None => (failure 401 "Invalid credentials", db)
  | Some u =>
      if negb (User.status u =? "active")%string then
        (failure 401 "Account is inactive", db)
      else if User.isLocked u env then
        (failure 423
           "Account is temporarily locked due to too many failed login attempts", db)
      else if negb (User.verifyPassword u pw) then
        if io_fails env UpdateUser then (server_error "SQLITE_ERROR", db)
        else
          let n := User.loginAttempts u + 1 in
          let until :=
            if n >=? maxLoginAttempts cfg
            then Some (toISOString (now env + lockoutTime cfg * 60 * 1000))
            else None in
          (failure 401
             (if n >=? maxLoginAttempts cfg
              then "Too many failed attempts. Account has been temporarily locked."
              else "Invalid credentials"),
           snd (User.update u env (lockout_fields n until) db))
      else if (User.loginAttempts u >? 0) && io_fails env UpdateUser then
        (server_error "SQLITE_ERROR", db)
      else
        let db1 :=
          if User.loginAttempts u >? 0
          then snd (User.update u env (lockout_fields 0 None) db) else db in
        let u1 := if User.loginAttempts u >? 0 then User.set_lockout u 0 None else u in
        if io_fails env InsertToken then (server_error "SQLITE_ERROR", db1)
        else
          let refreshToken :=
            AuthController.sign env (jwt_refreshSecret cfg) (User.id u1)
              (User.email u1) None (jwt_refreshExpiresIn cfg) in
          (ok 200 "Login successful"
             (LoginData (User.toJSON u1)
                (AuthController.sign env (jwt_secret cfg) (User.id u1) (User.email u1)
                   (Some (User.role u1)) (jwt_expiresIn cfg))
                refreshToken (jwt_expiresIn cfg)),
           snd (AuthController.storeRefreshToken env refreshToken (User.id u1) db1))
  end.
Proof.
  unfold AuthController.login, handler. unfold bind at 1.
  destruct (io_fails env SelectUserByEmail) eqn:F1.
  { unfold User.findByEmail, bind. rewrite run_fail by assumption. reflexivity. }
  rewrite findByEmail_ok by assumption.
  destruct (identity db e) as [u|]; [|reflexivity].
  destruct (negb (User.status u =? "active")%string); [reflexivity|].
  destruct (User.isLocked u env); [reflexivity|].
  destruct (negb (User.verifyPassword u pw)).
  - unfold bind, User.incrementLoginAttempts, bind.
    change {| User.u_firstName := None; User.u_lastName := None; User.u_email := None;
              User.u_password := None; User.u_role := None; User.u_status := None;
              User.u_loginAttempts := Some (Some (User.loginAttempts u + 1));
              User.u_lockedUntil := Some ?x |} with (lockout_fields (User.loginAttempts u + 1) x).
    destruct (io_fails env UpdateUser) eqn:F2.
    + rewrite update_fail by assumption. reflexivity.
    + rewrite update_accepts by (assumption || reflexivity). reflexivity.
  - unfold bind.
    destruct (User.loginAttempts u >? 0) eqn:Hpos; cbn [andb].
    + unfold User.resetLoginAttempts, bind.
      destruct (io_fails env UpdateUser) eqn:F2.
      * rewrite update_fail by assumption. reflexivity.
      * unfold lockout_fields. rewrite update_accepts by (assumption || reflexivity).
        cbn [ret snd].
        destruct (io_fails env InsertToken) eqn:F3.
        -- unfold AuthController.storeRefreshToken, bind.
           rewrite run_fail by assumption. reflexivity.
        -- unfold AuthController.storeRefreshToken, bind.
           rewrite run_ok by assumption. reflexivity.
    + cbn [ret].
      destruct (io_fails env InsertToken) eqn:F3.
      * unfold AuthController.storeRefreshToken, bind.
        rewrite run_fail by assumption. reflexivity.
      * unfold AuthController.storeRefreshToken, bind.
        rewrite run_ok by assumption. reflexivity.
Qed.



Lemma isLocked_until (u : User.t) env t :
  User.lockedUntil u = Some (Text (toISOString t)) -> in_range t ->
  User.isLocked u env = (now env <? t).
Proof.
  intros Hu R. unfold User.isLocked. rewrite Hu. cbn [js_truthy Date_of].
  rewrite Date_parse_toISOString, toISOString_truthy by assumption. reflexivity.
Qed.




(** C4, as amended.  A successful login of an identity whose failure
    count is positive leaves the count at 0 and [lockedUntil] unset.  A
    successful login of an identity whose count is not positive writes
    nothing on the users: the identity is left as it was, so its
    [lockedUntil] is unset afterwards only if it was unset before. *)
Theorem C4_success_resets cfg env email pw db r db' u :
  identity db email = Some u ->
  AuthController.login cfg env email pw db = (r, db') ->
  res_success r = true ->
  (0 < User.loginAttempts u ->
   exists u',
     identity db' email = Some u' /\
     User.loginAttempts u' = 0 /\ User.lockedUntil u' = None)
  /\
  (User.loginAttempts u <= 0 -> identity db' email = Some u /\ users db' = users db).
Proof.
  intros Hu Hl Hs. rewrite login_steps, Hu in Hl.
  destruct (io_fails env SelectUserByEmail); [other_answer Hl|].
  destruct (negb (User.status u =? "active")%string); [other_answer Hl|].
  destruct (User.isLocked u env); [other_answer Hl|].
  destruct (negb (User.verifyPassword u pw)).
  { destruct (io_fails env UpdateUser); other_answer Hl. }
  destruct (User.loginAttempts u >? 0) eqn:Hpos; cbn [andb] in Hl.
  - destruct (io_fails env UpdateUser) eqn:F2; [other_answer Hl|].
    cbv zeta in Hl.
    destruct (io_fails env InsertToken); [other_answer Hl|].
    injection Hl as _ <-. split; [|intros Hle; apply Z.gtb_lt in Hpos; lia].
    intros _.
    destruct (identity_after_lockout_write env db email u 0 None Hu F2)
      as (u' & Hi & Hn & Hk & _).
    exists u'. rewrite (identity_users _ _ email (store_users _ _ _ _)). auto.
  - cbv zeta in Hl.
    destruct (io_fails env InsertToken); [other_answer Hl|].
    injection Hl as _ <-. split.
    + intros Hp. apply Z.gtb_lt in Hp. congruence.
    + intros _. rewrite store_users.
      rewrite (identity_users _ _ email (store_users _ _ _ _)). auto.
Qed.

(** C6.  When the INSERT of the refresh token into the ledger fails,
    no login is answered with success and no login returns tokens; a
    login that had reached that write (known, active, unlocked identity,
    correct password, the earlier statements succeeding) is answered with
    the server error. *)
Theorem C6_ledger_write_failure cfg env email pw db :
  io_fails env InsertToken = true ->
  let (r, db') := AuthController.login cfg env email pw db in
  (res_success r = false /\ res_data r = NoData) /\
  (forall u,
     io_fails env SelectUserByEmail = false -> io_fails env UpdateUser = false ->
     identity db email = Some u -> User.status u = "active" ->
     User.isLocked u env = false -> User.verifyPassword u pw = true ->
     r = server_error "SQLITE_ERROR").
Proof.
  intros F3. rewrite login_steps.
  destruct (io_fails env SelectUserByEmail) eqn:F1.
  { split; [split; reflexivity | discriminate]. }
  destruct (identity db email) as [u|].
  2:{ split; [split; reflexivity | discriminate]. }
  destruct (String.eqb_spec (User.status u) "active") as [Ha|Ha]; cbn [negb].
  2:{ split; [split; reflexivity|]. intros u' _ _ [= <-] Hs. contradiction. }
  destruct (User.isLocked u env) eqn:Hk.
  { split; [split; reflexivity|]. intros u' _ _ [= <-] _ Hk'. congruence. }
  destruct (User.verifyPassword u pw) eqn:Hv; cbn [negb].
  2:{ destruct (io_fails env UpdateUser); cbv zeta;
        (split; [split; reflexivity|]); intros u' _ _ [= <-] _ _ Hv'; congruence. }
  destruct (io_fails env UpdateUser) eqn:F2.
  - rewrite andb_true_r. destruct (User.loginAttempts u >? 0); cbv zeta; rewrite ?F3;
      (split; [split; reflexivity|]); intros u' _ F2'; try discriminate; reflexivity.
  - rewrite andb_false_r. cbv zeta. rewrite F3.
    split; [split; reflexivity|]. reflexivity.
Qed.


End Login.

(* ================================================================== *)
(** * The store update and the route PUT /users/:id *)

Section Update.
Context `{Crypto} `{Platform}.

(** C8.  For an identity of the store and a partial update the store
    accepts (the statement does not fail, and a supplied address is not
    held by another identity), [update] succeeds and the identity's row
    carries, in every supplied field, what the statement stores of the
    supplied value (the value itself; for the password its hash; for
    [lockedUntil] what the NUMERIC affinity of the column makes of the
    text), its previous value in every other field, and the time of the
    update in [updated_at]; the other identities and the ledger are
    untouched. *)
Theorem C8_update_frame (this : User.t) env d db row :
  io_fails env UpdateUser = false ->
  find (fun r => r_id r =? User.id this) (users db) = Some row ->
  User.email_taken (User.id this) d (users db) = false ->
  exists db' row',
    User.update this env d db = (Resolved true, db') /\
    find (fun r => r_id r =? User.id this) (users db') = Some row' /\
    r_first_name row' =
      match User.u_firstName d with Some v => v | None => r_first_name row end /\
    r_last_name row' =
      match User.u_lastName d with Some v => v | None => r_last_name row end /\
    r_email row' =
      match User.u_email d with Some v => v | None => r_email row end /\
    r_password row' =
      match User.u_password d with
      | Some v => bcrypt_hash (salt env) v
      | None => r_password row
      end /\
    r_role row' =
      match User.u_role d with Some v => v | None => r_role row end /\
    r_status row' =
      match User.u_status d with Some v => v | None => r_status row end /\
    r_login_attempts row' =
      match User.u_loginAttempts d with Some v => v | None => r_login_attempts row end /\
    r_locked_until row' =
      match User.u_lockedUntil d with
      | Some v => option_map numeric_affinity v
      | None => r_locked_until row
      end /\
    r_id row' = r_id row /\
    r_created_at row' = r_created_at row /\
    r_updated_at row' = sqlite_datetime (now env) /\
    (forall r, r_id r <> User.id this -> (In r (users db') <-> In r (users db))) /\
    refresh_tokens db' = refresh_tokens db.
Proof.
  intros F Hf Ht. eexists _, (User.assign env d row).
  rewrite update_accepts by assumption. rewrite (find_existsb _ _ _ Hf).
  split; [reflexivity|]. cbn [users refresh_tokens].
  split; [apply find_map_assign; [reflexivity | assumption]|].
  unfold User.assign, User.supplied; cbn.
  destruct (User.u_password d), (User.u_lockedUntil d); cbn [option_map].
  all: repeat (split; [reflexivity|]).
  all: split; [|reflexivity]; intros r Hr; apply in_map_other; [reflexivity | assumption].
Qed.

End Update.


Section Put.
Context `{Crypto} `{Validator} `{Platform}.

Lemma check_nil {A} name (x : option A) valid :
  Validation.check name x valid = [] -> forall v, x = Some v -> valid v = true.
Proof.
  unfold Validation.check. intros E v ->. destruct (valid v); [reflexivity | discriminate].
Qed.

Lemma isIn_truthy s allowed :
  Validation.isIn s allowed = true -> ~ In "" allowed -> truthy s = true.
Proof.
  unfold Validation.isIn. intros E Hn. apply existsb_exists in E.
  destruct E as (x & Hin & Hx). apply String.eqb_eq in Hx. subst x.
  apply truthy_true. intros ->. contradiction.
Qed.

(** A body that passes the rules keeps its two lockout fields, and its
    [role] and [status], when present, are among the allowed words. *)
Lemma validated body body' :
  Validation.validateUserUpdate body = inr body' ->
  User.u_loginAttempts body' = User.u_loginAttempts body /\
  User.u_lockedUntil body' = User.u_lockedUntil body /\
  User.u_role body' = User.u_role body /\
  User.u_status body' = User.u_status body /\
  (forall r, User.u_role body = Some r -> truthy r = true) /\
  (forall s, User.u_status body = Some s -> truthy s = true).
Proof.
  unfold Validation.validateUserUpdate. cbv zeta.
  destruct (_ ++ _)%list eqn:E; [|discriminate].
  intros [= <-]. cbn [User.u_loginAttempts User.u_lockedUntil User.u_role User.u_status].
  do 5 (apply app_eq_nil in E; destruct E as [_ E]).
  apply app_eq_nil in E. destruct E as [Er Es].
  repeat (split; [reflexivity|]). split.
  - intros r Hr. apply (isIn_truthy r ["user"; "admin"]).
    + exact (check_nil _ _ _ Er r Hr).
    + cbn. intros [|[|[]]]; discriminate.
  - intros s Hs. apply (isIn_truthy s ["active"; "inactive"]).
    + exact (check_nil _ _ _ Es s Hs).
    + cbn. intros [|[|[]]]; discriminate.
Qed.

Lemma admin_only_strips (cu : User.t) x :
  (User.role cu =? "admin")%string = false ->
  (forall v, x = Some v -> truthy v = true) ->
  UserController.admin_only cu x = None.
Proof.
  intros Hr Hx. unfold UserController.admin_only. destruct x as [v|]; [|reflexivity].
  rewrite (Hx v eq_refl), Hr. reflexivity.
Qed.

(** A successful answer of the route, for a caller who updates their own
    record and is no administrator: the store write is the validated
    body without [role] and [status]. *)
Lemma put_success env i body db r db' row :
  find (fun x => r_id x =? i) (users db) = Some row ->
  (r_role row =? "admin")%string = false ->
  UserController.put env i i body db = (r, db') ->
  res_status r = 200 ->
  exists body',
    Validation.validateUserUpdate body = inr body' /\
    User.update (User.new row) env (stripped body') db = (Resolved true, db').
Proof.
  intros Hf Hr Hp Hs.
  unfold UserController.put, handler in Hp. unfold bind at 1 in Hp.
  unfold Auth.canModifyUser in Hp. unfold bind at 1 in Hp.
  destruct (io_fails env SelectUserById) eqn:F1.
  { unfold User.findById, bind in Hp. rewrite run_fail in Hp by assumption.
    other_answer Hp. }
  rewrite findById_ok in Hp by assumption. unfold identity_by_id in Hp.
  rewrite Hf in Hp. cbn [option_map] in Hp.
  destruct (negb (User.status (User.new row) =? "active")%string);
    [other_answer Hp|].
  change (User.role (User.new row)) with (r_role row) in Hp.
  change (User.id (User.new row)) with (r_id row) in Hp.
  rewrite Hr, (find_some_holds _ _ _ Hf) in Hp. cbn [orb ret] in Hp.
  destruct (Validation.validateUserUpdate body) as [bad|body'] eqn:Ev.
  { unfold Validation.validateUserUpdate in Ev. cbv zeta in Ev.
    destruct (_ ++ _)%list; [discriminate|]. injection Ev as <-.
    other_answer Hp. }
  exists body'. split; [reflexivity|].
  destruct (validated body body' Ev) as (_ & _ & Er & Es & Hrt & Hst).
  unfold UserController.updateUser in Hp. unfold bind at 1 in Hp.
  rewrite findById_ok in Hp by assumption. unfold identity_by_id in Hp.
  rewrite Hf in Hp. cbn [option_map] in Hp.
  rewrite !admin_only_strips in Hp by (assumption || (rewrite ?Er, ?Es; assumption)).
  fold (stripped body') in Hp.
  unfold bind at 1 in Hp.
  match type of Hp with
  | context [match ?m db with _ => _ end] => destruct (m db) as [[dup|e] db1] eqn:Ed
  end.
  2:{ other_answer Hp. }
  assert (db1 = db) as ->.
  { destruct (User.u_email body') as [e|]; [|injection Ed as _ <-; reflexivity].
    destruct (truthy e && negb (e =? User.email (User.new row))%string);
      [|injection Ed as _ <-; reflexivity].
    unfold bind in Ed. unfold User.findByEmail, bind, run in Ed.
    destruct (io_fails env SelectUserByEmail); [discriminate|].
    injection Ed as _ <-. reflexivity. }
  destruct dup; [other_answer Hp|].
  unfold bind at 1 in Hp.
  destruct (User.update (User.new row) env (stripped body') db) as [[success|e] db2] eqn:Eu.
  2:{ other_answer Hp. }
  destruct success; cbn [negb] in Hp; [|other_answer Hp].
  f_equal.
  unfold bind in Hp. unfold User.findById, bind, run in Hp. rewrite F1 in Hp.
  cbn [ret] in Hp.
  destruct (option_map _ _); injection Hp as _ <-; reflexivity.
Qed.

(** C10.  A user who is no administrator updates their own record
    through PUT /users/:id.  If the route answers 200, the stored [role]
    and [status] are the previous ones whatever the body supplied, while
    [loginAttempts] and [lockedUntil] are the supplied ones wherever the
    body supplies them, as the statement stores them: the count as it is,
    the text of [lockedUntil] under the NUMERIC affinity of the column
    (the text itself, unless SQLite reads a number in it; [null] as
    NULL).  In particular the body with [loginAttempts] 0 and
    [lockedUntil] null is accepted for an active identity, leaves the count
    at 0 and [lockedUntil] unset, and no later login attempt for that
    identity is answered with [AccountLocked]. *)
Theorem C10_lockout_fields_pass_through env i body db row :
  find (fun x => r_id x =? i) (users db) = Some row ->
  (r_role row =? "admin")%string = false ->
  (forall r db',
     UserController.put env i i body db = (r, db') -> res_status r = 200 ->
     exists row',
       find (fun x => r_id x =? i) (users db') = Some row' /\
       r_role row' = r_role row /\ r_status row' = r_status row /\
       r_login_attempts row' =
         match User.u_loginAttempts body with
         | Some v => v | None => r_login_attempts row
         end /\
       r_locked_until row' =
         match User.u_lockedUntil body with
         | Some v => option_map numeric_affinity v
         | None => r_locked_until row
         end)
  /\
  (quiet env -> r_status row = "active" ->
   find (fun x => (r_email x =? r_email row)%string) (users db) = Some row ->
   exists r db',
     UserController.put env i i (lockout_fields 0 None) db = (r, db') /\
     res_status r = 200 /\
     (exists u', identity db' (r_email row) = Some u' /\
        User.loginAttempts u' = 0 /\ User.lockedUntil u' = None) /\
     forall cfg env' pw,
       ~ AccountLocked (fst (AuthController.login cfg env' (r_email row) pw db'))).
Proof.
  intros Hf Hr. split.
  - intros r db' Hp Hs.
    destruct (put_success env i body db r db' row Hf Hr Hp Hs) as (body' & Ev & Eu).
    destruct (validated body body' Ev) as (E1 & E2 & _).
    assert (Hid : r_id row = i)
      by (apply find_some_holds in Hf; apply Z.eqb_eq in Hf; exact Hf).
    destruct (io_fails env UpdateUser) eqn:F2.
    { rewrite update_fail in Eu by assumption. discriminate. }
    destruct (User.email_taken (User.id (User.new row)) (stripped body') (users db))
      eqn:Et.
    { unfold User.update, bind in Eu. rewrite run_ok, Et in Eu by assumption.
      discriminate. }
    rewrite update_accepts in Eu by assumption.
    change (User.id (User.new row)) with (r_id row) in Eu. rewrite Hid in Eu.
    injection Eu as _ <-. cbn [users].
    exists (User.assign env (stripped body') row).
    split; [apply find_map_assign; [reflexivity | assumption]|].
    unfold User.assign, stripped, User.supplied; cbn. rewrite E1, E2.
    destruct (User.u_lockedUntil body); cbn [option_map]; auto.
  - intros Hq Ha He.
    assert (Hid : r_id row = i)
      by (apply find_some_holds in Hf; apply Z.eqb_eq in Hf; exact Hf).
    assert (Hu : identity db (r_email row) = Some (User.new row))
      by (unfold identity; rewrite He; reflexivity).
    destruct (identity_after_lockout_write env db (r_email row) (User.new row) 0 None
                Hu (Hq UpdateUser))
      as (u' & Hi & Hn & Hk & _ & Hs & _).
    eexists _, (snd (User.update (User.new row) env (lockout_fields 0 None) db)).
    split; [|split; [|split]].
    + unfold UserController.put, handler. unfold bind at 1.
      unfold Auth.canModifyUser. unfold bind at 1.
      rewrite findById_ok by apply Hq. unfold identity_by_id. rewrite Hf.
      cbn [option_map].
      change (User.status (User.new row)) with (r_status row).
      change (User.role (User.new row)) with (r_role row).
      change (User.id (User.new row)) with (r_id row).
      rewrite Ha, Hr, Hid, Z.eqb_refl.
      change (negb ("active" =? "active")%string) with false. cbn [orb ret].
      change (Validation.validateUserUpdate (lockout_fields 0 None))
        with (@inr response _ (lockout_fields 0 None)).
      unfold UserController.updateUser. unfold bind at 1.
      rewrite findById_ok by apply Hq. unfold identity_by_id. rewrite Hf.
      cbn [option_map lockout_fields User.u_email UserController.admin_only
           User.u_role User.u_status User.u_firstName User.u_lastName User.u_password
           User.u_loginAttempts User.u_lockedUntil].
      unfold bind at 1. cbn [ret]. unfold bind at 1.
      fold (lockout_fields 0 None).
      rewrite update_accepts by (apply Hq || reflexivity).
      change (User.id (User.new row)) with (r_id row). rewrite Hid.
      rewrite (find_existsb _ _ _ Hf). cbn [negb].
      unfold bind. rewrite findById_ok by apply Hq. unfold identity_by_id.
      cbn [users]. rewrite (find_map_assign i (User.assign env (lockout_fields 0 None)) _ row
                            (fun _ => eq_refl) Hf).
      cbn [option_map ret snd]. reflexivity.
    + reflexivity.
    + exists u'. auto.
    + intros cfg env' pw. rewrite login_steps, Hi.
      assert (Hl : User.isLocked u' env' = false)
        by (unfold User.isLocked; rewrite Hk; reflexivity).
      rewrite Hl. unfold AccountLocked.
      destruct (io_fails env' SelectUserByEmail); [cbn; discriminate|].
      destruct (negb (User.status u' =? "active")%string); [cbn; discriminate|].
      destruct (negb (User.verifyPassword u' pw)).
      * destruct (io_fails env' UpdateUser); cbn; discriminate.
      * destruct (_ && _); [cbn; discriminate|]. cbv zeta.
        destruct (io_fails env' InsertToken); cbn; discriminate.
Qed.

End Put.

(* ================================================================== *)
(** * The import from the spreadsheet *)

Section Spreadsheet.
Context `{Crypto} `{Platform}.

(** C3, on the code.  For a record of the import whose address is not
    yet in the store and whose names and password are present, the import
    creates one identity, and the password it stores is the bcrypt hash of
    the incoming value, not the incoming value: [User.create] hashes what
    it is given, also when that is already a hash. *)
Theorem C3_import_hashes_again env x e p first last db :
  io_fails env SelectUserByEmail = false -> io_fails env InsertUser = false ->
  UserService.x_email x = Some e -> e <> "" ->
  UserService.x_password x = Some p -> p <> "" ->
  UserService.x_firstName x = Some first -> UserService.x_lastName x = Some last ->
  identity db e = None ->
  let (created, db') := UserService.initializeUsersFromExcel [(env, x)] db in
  created = 1 /\
  exists u,
    identity db' e = Some u /\
    User.password u = bcrypt_hash (salt env) p.
Proof.
  intros F1 F2 He Hne Hp Hnp Hfi Hla Hno.
  cbn [UserService.initializeUsersFromExcel].
  unfold UserService.import_one. rewrite He, Hp. unfold bind at 1.
  rewrite findByEmail_ok, Hno by assumption.
  rewrite (proj2 (truthy_true e) Hne), (proj2 (truthy_true p) Hnp). cbn [andb].
  unfold bind, User.create, bind. rewrite run_ok by assumption.
  cbn [User.d_firstName User.d_lastName User.d_email User.d_password].
  rewrite Hfi, Hla, identity_none_existsb by assumption.
  cbn [ret]. split; [reflexivity|].
  unfold identity in *. cbn [users].
  destruct (find _ (users db)) eqn:Hf; [discriminate|].
  rewrite (find_app_new _ _ _ Hf) by (cbn; apply String.eqb_refl).
  eexists. split; reflexivity.
Qed.

End Spreadsheet.

(* ================================================================== *)
(** * What a handler leaves of the database *)

Create HintDb frames.

Section Frames.
Context {R : DB -> DB -> Prop} `{!Frame R}.

Lemma moves_ret {A} (a : A) : moves R (ret a).
Proof. intros db. apply frame_refl. Qed.

Lemma moves_reject {A} e : moves R (@reject A e).
Proof. intros db. apply frame_refl. Qed.

Lemma moves_run env s : moves R (run env s).
Proof. intros db. unfold run. destruct (io_fails env s); apply frame_refl. Qed.

Lemma moves_bind {A B} (m : Task A) (k : A -> Task B) :
  moves R m -> (forall a, moves R (k a)) -> moves R (bind m k).
Proof.
  intros Hm Hk db. unfold bind. specialize (Hm db).
  destruct (m db) as [[a|e] db1]; cbn [snd] in *; [|assumption].
  apply (frame_trans _ db1); [assumption | apply Hk].
Qed.

(** A step that only reads. *)
Lemma moves_read {A} (m : Task A) : (forall db, snd (m db) = db) -> moves R m.
Proof. intros Hm db. rewrite Hm. apply frame_refl. Qed.

Lemma moves_handler on_error (m : Task response) :
  moves R m -> moves R (handler on_error m).
Proof.
  intros Hm db. unfold handler. specialize (Hm db).
  destruct (m db) as [[r|e] db1]; exact Hm.
Qed.

Lemma moves_const {X} (x : X) : moves R (fun db => (x, db)).
Proof. intros db. apply frame_refl. Qed.

End Frames.

Lemma findById_reads env i db : snd (User.findById env i db) = db.
Proof.
  unfold User.findById, bind, run. destruct (io_fails env SelectUserById); reflexivity.
Qed.

Lemma findByEmail_reads env e db : snd (User.findByEmail env e db) = db.
Proof.
  unfold User.findByEmail, bind, run.
  destruct (io_fails env SelectUserByEmail); reflexivity.
Qed.

Lemma validate_reads env t u db :
  snd (AuthController.validateRefreshToken env t u db) = db.
Proof.
  unfold AuthController.validateRefreshToken, bind, run.
  destruct (io_fails env SelectToken); reflexivity.
Qed.

Lemma findAll_reads fails db : snd (Users.findAll fails db) = db.
Proof. unfold Users.findAll. destruct fails; reflexivity. Qed.

(** Splits a handler into its steps; the steps that write are settled
    by the hints of [frames]. *)
Ltac frame :=
  repeat first
    [ apply moves_handler
    | apply moves_ret
    | apply moves_const
    | apply moves_reject
    | apply moves_run
    | apply moves_read; solve
        [ apply findById_reads | apply findByEmail_reads | apply validate_reads
        | apply findAll_reads ]
    | solve [auto 2 with frames]
    | apply moves_bind; [|intros ?]
    | match goal with
      | |- moves _ (match ?x with _ => _ end) => destruct x
      | |- moves _ (if ?b then _ else _) => destruct b
      end ].

#[export] Instance untouched_frame : Frame untouched.
Proof. split; unfold untouched; congruence. Qed.

#[export] Instance same_ledger_frame : Frame same_ledger.
Proof.
  split; unfold same_ledger; [auto|].
  intros a b c [] []. split; congruence.
Qed.

#[export] Instance same_accounts_frame : Frame same_accounts.
Proof.
  split; unfold same_accounts; [auto|].
  intros a b c [] []. split; congruence.
Qed.

#[export] Instance keeps_keys_frame : Frame keeps_keys.
Proof. split; unfold keeps_keys; auto. Qed.

#[export] Instance grows_frame : Frame grows.
Proof.
  split; unfold grows.
  - intros db. exists []. symmetry. apply app_nil_r.
  - intros a b c [x Hx] [y Hy]. exists (x ++ y)%list. rewrite Hy, Hx.
    symmetry. apply app_assoc.
Qed.

(* ================================================================== *)
(** * The steps that write *)

Lemma same_users_accounts db db' :
  users db' = users db -> users_seq db' = users_seq db -> same_accounts db db'.
Proof. intros E1 E2. split; [rewrite E1|]; auto. Qed.

Lemma same_users_keys db db' : users db' = users db -> keeps_keys db db'.
Proof. unfold keeps_keys, well_keyed. intros ->. auto. Qed.

Lemma same_users_grows db db' : users db' = users db -> grows db db'.
Proof. intros E. exists []. rewrite E. symmetry. apply app_nil_r. Qed.

Lemma store_same_users env t i db :
  users (snd (AuthController.storeRefreshToken env t i db)) = users db /\
  users_seq (snd (AuthController.storeRefreshToken env t i db)) = users_seq db.
Proof.
  unfold AuthController.storeRefreshToken, bind, run.
  destruct (io_fails env InsertToken); split; reflexivity.
Qed.

Lemma remove_same_users env t db :
  users (snd (AuthController.removeRefreshToken env t db)) = users db /\
  users_seq (snd (AuthController.removeRefreshToken env t db)) = users_seq db.
Proof.
  unfold AuthController.removeRefreshToken, bind, run.
  destruct (io_fails env DeleteToken); split; reflexivity.
Qed.

Lemma store_moves_accounts env t i :
  moves same_accounts (AuthController.storeRefreshToken env t i).
Proof. intros db. apply same_users_accounts; apply store_same_users. Qed.

Lemma remove_moves_accounts env t :
  moves same_accounts (AuthController.removeRefreshToken env t).
Proof. intros db. apply same_users_accounts; apply remove_same_users. Qed.

Lemma store_moves_keys env t i :
  moves keeps_keys (AuthController.storeRefreshToken env t i).
Proof. intros db. apply same_users_keys. apply store_same_users. Qed.

Lemma remove_moves_keys env t :
  moves keeps_keys (AuthController.removeRefreshToken env t).
Proof. intros db. apply same_users_keys. apply remove_same_users. Qed.

Section Writes.
Context `{Crypto} `{Platform}.

(** [update] changes nothing, or rewrites the rows of its id. *)
Lemma update_writes this env d db :
  snd (User.update this env d db) = db \/
  User.email_taken (User.id this) d (users db) = false /\
  snd (User.update this env d db) =
    {| users := map (fun r => if r_id r =? User.id this then User.assign env d r else r)
                    (users db);
       users_seq := users_seq db;
       refresh_tokens := refresh_tokens db;
       refresh_tokens_seq := refresh_tokens_seq db |}.
Proof.
  unfold User.update, bind, run.
  destruct (io_fails env UpdateUser); [left; reflexivity|]. cbn [ret].
  destruct (User.email_taken _ _ _); [left | right; split]; reflexivity.
Qed.

Lemma update_same_ledger this env d : moves same_ledger (User.update this env d).
Proof.
  intros db. destruct (update_writes this env d db) as [->|[_ ->]];
    split; reflexivity.
Qed.

(** An update of the two lockout fields keeps every account. *)
Lemma update_same_accounts this env n until :
  moves same_accounts (User.update this env (lockout_fields n until)).
Proof.
  intros db. destruct (update_writes this env (lockout_fields n until) db)
    as [->|[_ ->]]; [split; reflexivity|].
  split; [|reflexivity]. cbn [users]. rewrite map_map. apply map_ext.
  intros r. destruct (r_id r =? User.id this); reflexivity.
Qed.

Lemma map_if_same (i : Z) (g : user_row -> user_row) rows :
  existsb (fun r => r_id r =? i) rows = false ->
  map (fun r => if r_id r =? i then g r else r) rows = rows.
Proof.
  induction rows as [|x l IH]; [reflexivity|]. cbn [existsb map].
  intros E. apply orb_false_iff in E. destruct E as [-> E].
  rewrite IH by assumption. reflexivity.
Qed.

(** Giving the rows of one id an address no other row holds keeps the
    addresses distinct. *)
Lemma nodup_set_email (g : user_row -> user_row) i e rows :
  (forall r, r_email (g r) = e) ->
  NoDup (map r_id rows) -> NoDup (map r_email rows) ->
  (forall r, In r rows -> r_id r <> i -> r_email r <> e) ->
  NoDup (map r_email (map (fun r => if r_id r =? i then g r else r) rows)).
Proof.
  intros Hg. induction rows as [|x l IH]; intros Hi He Hfree; [constructor|].
  cbn [map] in *. inversion Hi as [|? ? Hxi Hli]. inversion He as [|? ? Hxe Hle].
  subst. constructor.
  - rewrite map_map, in_map_iff. intros (r & Hr & Hin).
    destruct (Z.eqb_spec (r_id x) i) as [Ex|Ex];
      destruct (Z.eqb_spec (r_id r) i) as [Er|Er].
    + apply Hxi. apply in_map_iff. exists r. split; [congruence | assumption].
    + rewrite Hg in Hr. apply (Hfree r); [right; assumption | assumption | assumption].
    + rewrite Hg in Hr. apply (Hfree x); [left; reflexivity | assumption | congruence].
    + apply Hxe. apply in_map_iff. exists r. split; assumption.
  - apply IH; [assumption | assumption |].
    intros r Hin. apply Hfree. right. assumption.
Qed.

Lemma update_keeps_keys this env d : moves keeps_keys (User.update this env d).
Proof.
  intros db [Hi He]. destruct (update_writes this env d db) as [->|[Ht ->]];
    [split; assumption|].
  split; cbn [users].
  - rewrite map_map.
    replace (map _ (users db)) with (map r_id (users db)); [assumption|].
    apply map_ext. intros r. destruct (r_id r =? User.id this); reflexivity.
  - unfold User.email_taken in Ht. destruct (User.u_email d) as [e|] eqn:Ee.
    + apply andb_false_iff in Ht. destruct Ht as [Ht|Ht].
      * rewrite map_if_same by assumption. assumption.
      * apply (nodup_set_email _ _ e); [| assumption | assumption |].
        -- intros r. cbn. rewrite Ee. reflexivity.
        -- intros r Hin Hr Hre.
           assert (E : existsb (fun r => negb (r_id r =? User.id this)
                                         && (r_email r =? e)%string) (users db) = true).
           { apply existsb_exists. exists r. split; [assumption|].
             apply andb_true_iff. split.
             - apply negb_true_iff. now apply Z.eqb_neq.
             - now apply String.eqb_eq. }
           congruence.
    + rewrite map_map.
      replace (map _ (users db)) with (map r_email (users db)); [assumption|].
      apply map_ext. intros r. destruct (r_id r =? User.id this); [|reflexivity].
      cbn. rewrite Ee. reflexivity.
Qed.

(** [create] rejects and changes nothing, or resolves with a new id and
    appends one row under an address the store did not hold. *)
Lemma create_writes env d db :
  (exists err, User.create env d db = (Rejected err, db)) \/
  exists first last,
    User.d_firstName d = Some first /\ User.d_lastName d = Some last /\
    identity db (User.d_email d) = None /\
    io_fails env InsertUser = false /\
    let lastID := next_rowid (users_seq db) (map r_id (users db)) in
    User.create env d db
    = (Resolved lastID, with_row db (inserted env d first last lastID)).
Proof.
  unfold User.create, bind, run.
  destruct (io_fails env InsertUser); [left; eexists; reflexivity|]. cbn [ret].
  destruct (User.d_firstName d) as [first|]; [|left; eexists; reflexivity].
  destruct (User.d_lastName d) as [last|]; [|left; eexists; reflexivity].
  destruct (existsb _ (users db)) eqn:E; [left; eexists; reflexivity|].
  right. exists first, last. repeat split.
  unfold identity. destruct (find _ (users db)) eqn:Hf; [|reflexivity].
  apply find_existsb in Hf. congruence.
Qed.

Lemma max_bounds ids x : In x ids -> x <= fold_right Z.max 0 ids.
Proof.
  induction ids as [|y l IH]; [contradiction|]. cbn [fold_right In].
  intros [->|Hin]; [lia|]. specialize (IH Hin). lia.
Qed.

Lemma next_rowid_fresh seq ids : ~ In (next_rowid seq ids) ids.
Proof.
  intros Hin. apply max_bounds in Hin. unfold next_rowid in Hin. lia.
Qed.

Lemma nodup_snoc {A} (l : list A) x : NoDup l -> ~ In x l -> NoDup (l ++ [x]).
Proof.
  induction l as [|y l IH]; intros Hl Hx; cbn [app].
  - constructor; [intros [] | constructor].
  - inversion Hl; subst. constructor.
    + rewrite in_app_iff. intros [Hin|[->|[]]]; [contradiction|].
      apply Hx. left. reflexivity.
    + apply IH; [assumption|]. intros Hin. apply Hx. right. assumption.
Qed.

Lemma identity_none_fresh db e :
  identity db e = None -> ~ In e (map r_email (users db)).
Proof.
  intros Hn Hin. apply in_map_iff in Hin. destruct Hin as (r & Hr & Hin).
  apply identity_none_existsb in Hn.
  assert (E : existsb (fun r => (r_email r =? e)%string) (users db) = true).
  { apply existsb_exists. exists r. split; [assumption | now apply String.eqb_eq]. }
  congruence.
Qed.

Lemma create_keeps_keys env d : moves keeps_keys (User.create env d).
Proof.
  intros db [Hi He].
  destruct (create_writes env d db) as [[err ->]|(first & last & _ & _ & Hn & _ & ->)];
    [split; assumption|].
  split; cbn [snd users with_row inserted]; rewrite map_app; cbn [map r_id r_email];
    apply nodup_snoc; try assumption.
  - apply next_rowid_fresh.
  - now apply identity_none_fresh.
Qed.

Lemma create_same_ledger env d : moves same_ledger (User.create env d).
Proof.
  intros db.
  destruct (create_writes env d db) as [[err ->]|(first & last & _ & _ & _ & _ & ->)];
    split; reflexivity.
Qed.

Lemma create_grows env d : moves grows (User.create env d).
Proof.
  intros db.
  destruct (create_writes env d db) as [[err ->]|(first & last & _ & _ & _ & _ & ->)].
  - apply frame_refl.
  - eexists. reflexivity.
Qed.

End Writes.

#[export] Hint Resolve update_same_ledger update_keeps_keys create_keeps_keys
  create_same_ledger create_grows store_moves_accounts remove_moves_accounts
  store_moves_keys remove_moves_keys : frames.
#[export] Hint Extern 1 (moves same_accounts (User.update _ _ _)) =>
  apply update_same_accounts : frames.

(* ================================================================== *)
(** * What the handlers of /auth leave of the store *)

Lemma store_ok env t i db :
  io_fails env InsertToken = false ->
  AuthController.storeRefreshToken env t i db =
  (Resolved (next_rowid (refresh_tokens_seq db) (map t_id (refresh_tokens db))),
   {| users := users db;
      users_seq := users_seq db;
      refresh_tokens := refresh_tokens db ++
        [ {| t_id := next_rowid (refresh_tokens_seq db) (map t_id (refresh_tokens db));
             t_token := t; t_user_id := i;
             t_expires_at := toISOString (now env + 7 * 24 * 60 * 60 * 1000);
             t_created_at := sqlite_datetime (now env) |} ];
      refresh_tokens_seq :=
        next_rowid (refresh_tokens_seq db) (map t_id (refresh_tokens db)) |}).
Proof.
  intros F. unfold AuthController.storeRefreshToken, bind.
  rewrite run_ok by assumption. reflexivity.
Qed.

(** Under the primary key, a row is the one found under its id. *)
Lemma find_id_unique rows row :
  NoDup (map r_id rows) -> In row rows ->
  find (fun r => r_id r =? r_id row) rows = Some row.
Proof.
  induction rows as [|x l IH]; intros Hn Hin; [contradiction|].
  cbn [map] in Hn. inversion Hn as [|? ? Hx Hl]. subst. cbn [find].
  destruct Hin as [->|Hin]; [rewrite Z.eqb_refl; reflexivity|].
  destruct (Z.eqb_spec (r_id x) (r_id row)) as [E|E]; [|auto].
  exfalso. apply Hx. rewrite E. now apply in_map.
Qed.

Section AuthStore.
Context `{Crypto} `{Platform}.

Lemma refresh_moves cfg env t : moves untouched (AuthController.refreshToken cfg env t).
Proof. unfold AuthController.refreshToken. frame. Qed.

Lemma login_moves_accounts cfg env e pw :
  moves same_accounts (AuthController.login cfg env e pw).
Proof.
  unfold AuthController.login, User.incrementLoginAttempts, User.resetLoginAttempts.
  frame.
Qed.

Lemma logout_moves_accounts env t : moves same_accounts (AuthController.logout env t).
Proof. unfold AuthController.logout. frame. Qed.

(** The store a successful login hands to [storeRefreshToken]. *)
Lemma reset_same_ledger (u : User.t) env db :
  same_ledger db
    (if User.loginAttempts u >? 0
     then snd (User.update u env (lockout_fields 0 None) db) else db).
Proof.
  destruct (User.loginAttempts u >? 0); [apply update_same_ledger | apply frame_refl].
Qed.

(** X1.  POST /auth/refresh writes nothing: whatever the token and
    whatever the driver does, the users and the ledger are afterwards what
    they were.  A refresh token is not rotated and a stale record is not
    cleaned up. *)
Theorem refresh_reads_only cfg env t db :
  snd (AuthController.refreshToken cfg env t db) = db.
Proof. apply refresh_moves. Qed.

(** X2.  POST /auth/login adds a record to the ledger exactly when it
    answers 200, and then exactly one: the record of the refresh token it
    returns, for the user it returns, expiring seven days after the
    login.  Every other answer, the 500 of a failed ledger write included,
    leaves the ledger as it was. *)
Theorem login_ledger cfg env e pw db :
  let (r, db') := AuthController.login cfg env e pw db in
  refresh_tokens db' =
    (refresh_tokens db ++
     match res_data r with
     | LoginData u _ refreshToken _ =>
         [ {| t_id := next_rowid (refresh_tokens_seq db) (map t_id (refresh_tokens db));
              t_token := refreshToken;
              t_user_id := User.j_id u;
              t_expires_at := toISOString (now env + 7 * 24 * 60 * 60 * 1000);
              t_created_at := sqlite_datetime (now env) |} ]
     | _ => []
     end)%list /\
  (res_status r = 200 <-> exists u a t x, res_data r = LoginData u a t x).
Proof.
  rewrite login_steps.
  assert (Hno : forall r (d : DB),
            res_data r = NoData -> res_status r <> 200 ->
            refresh_tokens d = refresh_tokens db ->
            refresh_tokens d =
              (refresh_tokens db ++
               match res_data r with
               | LoginData u _ refreshToken _ =>
                   [ {| t_id := next_rowid (refresh_tokens_seq db)
                                  (map t_id (refresh_tokens db));
                        t_token := refreshToken;
                        t_user_id := User.j_id u;
                        t_expires_at := toISOString (now env + 7 * 24 * 60 * 60 * 1000);
                        t_created_at := sqlite_datetime (now env) |} ]
               | _ => []
               end)%list /\
            (res_status r = 200 <-> exists u a t x, res_data r = LoginData u a t x)).
  { intros r d Hd Hs ->. rewrite Hd. split; [symmetry; apply app_nil_r|].
    split; [contradiction | intros (u & a & t & x & E); discriminate]. }
  destruct (io_fails env SelectUserByEmail);
    [apply Hno; [reflexivity | discriminate | reflexivity]|].
  destruct (identity db e) as [u|];
    [|apply Hno; [reflexivity | discriminate | reflexivity]].
  destruct (negb (User.status u =? "active")%string);
    [apply Hno; [reflexivity | discriminate | reflexivity]|].
  destruct (User.isLocked u env);
    [apply Hno; [reflexivity | discriminate | reflexivity]|].
  destruct (negb (User.verifyPassword u pw)).
  - destruct (io_fails env UpdateUser);
      [apply Hno; [reflexivity | discriminate | reflexivity]|].
    cbv zeta. apply Hno; [reflexivity | discriminate | apply update_same_ledger].
  - destruct (_ && _); [apply Hno; [reflexivity | discriminate | reflexivity]|].
    cbv zeta. destruct (reset_same_ledger u env db) as [E1 E2].
    destruct (io_fails env InsertToken) eqn:F;
      [apply Hno; [reflexivity | discriminate | assumption]|].
    rewrite store_ok by assumption. cbn [snd refresh_tokens res_data res_status ok].
    rewrite E1, E2. split.
    + destruct (User.loginAttempts u >? 0); reflexivity.
    + split; [eauto | reflexivity].
Qed.

(** X3.  No handler of /auth writes anything of an account but its two
    lockout fields (and [updated_at]): after login, refresh and logout
    the rows are the same in number and order and each has its id, names,
    address, password hash, role, status and creation time. *)
Theorem auth_keeps_accounts cfg env db :
  (forall e pw, same_accounts db (snd (AuthController.login cfg env e pw db))) /\
  (forall t, same_accounts db (snd (AuthController.refreshToken cfg env t db))) /\
  (forall t, same_accounts db (snd (AuthController.logout env t db))).
Proof.
  split; [|split].
  - intros e pw. apply login_moves_accounts.
  - intros t. rewrite (refresh_moves cfg env t db). apply frame_refl.
  - intros t. apply logout_moves_accounts.
Qed.

End AuthStore.

(* ================================================================== *)
(** * Login behind its rules, and the token it mints *)

Lemma required_nil {A} name (x : option A) valid :
  Rules.required name x valid = [] -> exists v, x = Some v /\ valid v = true.
Proof.
  unfold Rules.required. destruct x as [v|]; [|discriminate].
  destruct (valid v) eqn:E; [|discriminate]. intros _. exists v. auto.
Qed.

Section LoginRoute.
Context `{Crypto} `{Validator} `{Platform}.

Lemma validateUserLogin_passes email password e p :
  Rules.validateUserLogin email password = inr (e, p) ->
  exists a, email = Some a /\ isEmail a = true /\ e = normalizeEmail a /\
            password = Some p /\ truthy p = true.
Proof.
  unfold Rules.validateUserLogin. cbv zeta.
  destruct (_ ++ _)%list eqn:E; [|discriminate].
  apply app_eq_nil in E. destruct E as [E1 E2].
  apply required_nil in E1, E2.
  destruct E1 as (a & -> & Ha). destruct E2 as (q & -> & Hq).
  intros [= <- <-]. exists a. auto.
Qed.

Lemma validateUserLogin_fails email password r :
  Rules.validateUserLogin email password = inl r -> res_status r = 400.
Proof.
  unfold Rules.validateUserLogin. cbv zeta.
  destruct (_ ++ _)%list; [|intros [= <-]; reflexivity].
  destruct email; [|intros [= <-]; reflexivity].
  destruct password; [discriminate | intros [= <-]; reflexivity].
Qed.

(** X4.  POST /auth/login answers 200 only for a body that passes the
    rules (a valid address and a password that is not empty), an identity
    stored under the normalised address that is active and not locked, and
    a password that [bcrypt.compare] accepts against the stored hash.  The
    identity is looked up under [normalizeEmail] of the address sent. *)
Theorem login_only_with_credentials cfg env email password db :
  res_status (fst (Routes.post_login cfg env email password db)) = 200 ->
  exists e p u,
    email = Some e /\ isEmail e = true /\ password = Some p /\ p <> "" /\
    identity db (normalizeEmail e) = Some u /\ User.status u = "active" /\
    User.isLocked u env = false /\ bcrypt_compare p (User.password u) = true.
Proof.
  unfold Routes.post_login.
  destruct (Rules.validateUserLogin email password) as [bad|[e p]] eqn:Ev.
  { apply validateUserLogin_fails in Ev. cbn [fst]. rewrite Ev. discriminate. }
  apply validateUserLogin_passes in Ev.
  destruct Ev as (a & -> & Ha & -> & -> & Hp).
  rewrite login_steps.
  destruct (io_fails env SelectUserByEmail); [discriminate|].
  destruct (identity db (normalizeEmail a)) as [u|] eqn:Hu; [|discriminate].
  destruct (String.eqb_spec (User.status u) "active") as [Hs|]; [|discriminate].
  cbn [negb]. destruct (User.isLocked u env) eqn:Hl; [discriminate|].
  unfold User.verifyPassword.
  destruct (bcrypt_compare p (User.password u)) eqn:Hc; cbn [negb].
  - intros _. exists a, p, u. rewrite truthy_true in Hp.
    repeat split; try reflexivity; assumption.
  - destruct (io_fails env UpdateUser); [discriminate|]. cbv zeta.
    destruct (_ >=? _); discriminate.
Qed.

End LoginRoute.

Section LoginToken.
Context `{Crypto} `{Platform}.

(** The identity a successful login found, and what it left. *)
Lemma login_succeeded cfg env e pw db u a t x db' :
  AuthController.login cfg env e pw db
  = (ok 200 "Login successful" (LoginData u a t x), db') ->
  exists row,
    find (fun r => (r_email r =? e)%string) (users db) = Some row /\
    r_status row = "active" /\
    User.j_id u = r_id row /\ User.j_email u = r_email row /\
    User.j_role u = r_role row /\
    t = AuthController.sign env (jwt_refreshSecret cfg) (r_id row) (r_email row)
          None (jwt_refreshExpiresIn cfg) /\
    io_fails env InsertToken = false /\
    exists db1,
      db' = snd (AuthController.storeRefreshToken env t (r_id row) db1) /\
      (db1 = db \/
       io_fails env UpdateUser = false /\
       db1 = snd (User.update (User.new row) env (lockout_fields 0 None) db)).
Proof.
  rewrite login_steps. unfold identity.
  destruct (io_fails env SelectUserByEmail); [discriminate|].
  destruct (find _ (users db)) as [row|]; [|discriminate]. cbn [option_map].
  destruct (String.eqb_spec (User.status (User.new row)) "active") as [Hs|];
    [|discriminate].
  cbn [negb]. destruct (User.isLocked _ env); [discriminate|].
  destruct (negb _).
  { destruct (io_fails env UpdateUser); [discriminate|]. cbv zeta.
    destruct (_ >=? _); discriminate. }
  destruct (User.loginAttempts (User.new row) >? 0); cbn [andb].
  - destruct (io_fails env UpdateUser) eqn:F2; [discriminate|]. cbv zeta.
    destruct (io_fails env InsertToken) eqn:F3; [discriminate|].
    intros [= <- <- <- <- <-]. exists row. repeat (split; [first [reflexivity | assumption]|]).
    eexists. split; [reflexivity|]. right. auto.
  - cbv zeta. destruct (io_fails env InsertToken) eqn:F3; [discriminate|].
    intros [= <- <- <- <- <-]. exists row. repeat (split; [first [reflexivity | assumption]|]).
    eexists. split; [reflexivity|]. left. reflexivity.
Qed.

(** X5.  The refresh token of a successful login is accepted by POST
    /auth/refresh on the store that login left: the record login wrote is
    found under the token and the user id of its payload, and the identity
    is read back under that id.  The answer carries an access token signed
    at the time of the refresh for the identity that logged in.  This
    needs ids that are unique, a library that decodes the token to the
    payload login signed, a token that is not expired by its [exp] claim,
    and a clock that has not passed the UTC day on which the record
    expires. *)
Theorem refresh_accepts_login_token cfg env0 env e pw db u a t x db' :
  NoDup (map r_id (users db)) ->
  AuthController.login cfg env0 e pw db
  = (ok 200 "Login successful" (LoginData u a t x), db') ->
  jwt_decode (jwt_refreshSecret cfg) t
  = Some {| claim_id := User.j_id u; claim_email := User.j_email u;
            claim_role := None; claim_iat := now env0 / 1000;
            claim_exp := Some (now env0 / 1000 + jwt_refreshExpiresIn cfg) |} ->
  io_fails env SelectToken = false -> io_fails env SelectUserById = false ->
  now env / 1000 < now env0 / 1000 + jwt_refreshExpiresIn cfg ->
  in_range (now env) -> in_range (now env0 + 7 * 24 * 60 * 60 * 1000) ->
  Day (now env) <= Day (now env0 + 7 * 24 * 60 * 60 * 1000) ->
  fst (AuthController.refreshToken cfg env (Some t) db')
  = ok 200 "Token refreshed successfully"
      (TokenData
         (AuthController.sign env (jwt_secret cfg) (User.j_id u) (User.j_email u)
            (Some (User.j_role u)) (jwt_expiresIn cfg))
         (jwt_expiresIn cfg)).
Proof.
  intros Hn Hl Hd F1 F2 Hx Rn Re Hday.
  destruct (login_succeeded _ _ _ _ _ _ _ _ _ _ Hl)
    as (row & Hf & Hs & Hi & He & Hr & Ht & F3 & db1 & Hdb' & Hdb1).
  assert (Hne : truthy t = true).
  { apply truthy_true. intros E. rewrite E, jwt_decode_empty in Hd. discriminate. }
  rewrite refresh_steps by assumption.
  assert (Hv : AuthController.verify env t (jwt_refreshSecret cfg) = Resolved
            {| claim_id := User.j_id u; claim_email := User.j_email u;
               claim_role := None; claim_iat := now env0 / 1000;
               claim_exp := Some (now env0 / 1000 + jwt_refreshExpiresIn cfg) |}).
  { apply verify_resolved. split; [assumption|]. intros y [= <-]. assumption. }
  rewrite Hv, F1, F2. cbn [claim_id].
  (* the record *)
  assert (Ha : existsb (AuthController.active_row env t (User.j_id u))
                 (refresh_tokens db') = true).
  { rewrite Hdb', store_ok by assumption. cbn [snd refresh_tokens].
    rewrite existsb_app. apply orb_true_iff. right. cbn [existsb].
    rewrite (active_row_by_day env t (User.j_id u) _
               (now env0 + 7 * 24 * 60 * 60 * 1000))
      by (reflexivity || assumption).
    cbn [t_token t_user_id]. rewrite Hi, String.eqb_refl, Z.eqb_refl.
    apply Z.leb_le in Hday. rewrite Hday. reflexivity. }
  rewrite Ha. cbn [negb].
  (* the identity *)
  assert (Hin : In row (users db)) by (apply find_some in Hf; tauto).
  assert (Hfi : find (fun r => r_id r =? r_id row) (users db) = Some row)
    by now apply find_id_unique.
  assert (Hu : exists row',
            find (fun r => r_id r =? r_id row) (users db') = Some row' /\
            r_status row' = r_status row /\ r_email row' = r_email row /\
            r_role row' = r_role row /\ r_id row' = r_id row).
  { rewrite Hdb'. rewrite (proj1 (store_same_users env0 t (r_id row) db1)).
    destruct Hdb1 as [->|[F4 ->]]; [exists row; auto|].
    rewrite update_accepts by (assumption || reflexivity). cbn [snd users].
    change (User.id (User.new row)) with (r_id row).
    rewrite (find_map_assign (r_id row) (User.assign env0 (lockout_fields 0 None)) _ row
               (fun _ => eq_refl) Hfi).
    eexists. split; [reflexivity|]. cbn. auto. }
  destruct Hu as (row' & Hf' & Hs' & He' & Hr' & Hi').
  unfold identity_by_id. rewrite Hi, Hf'. cbn [option_map].
  change (User.status (User.new row')) with (r_status row').
  rewrite Hs', Hs. cbn [negb String.eqb]. 
  change (User.id (User.new row')) with (r_id row').
  change (User.email (User.new row')) with (r_email row').
  change (User.role (User.new row')) with (r_role row').
  rewrite Hi', He', Hr', He, Hr. reflexivity.
Qed.

(** X6.  When the time of a lock has passed, the count of failed
    attempts is still the one that caused the lock.  One wrong password
    then locks the identity again at once, for another [lockoutTime]
    minutes; the right password logs in, sets the count to 0 and removes
    [lockedUntil]. *)
Theorem expired_lock cfg env e pw db u until :
  io_fails env SelectUserByEmail = false -> io_fails env UpdateUser = false ->
  io_fails env InsertToken = false ->
  identity db e = Some u -> User.status u = "active" ->
  User.lockedUntil u = Some (Text (toISOString until)) -> in_range until ->
  until <= now env ->
  maxLoginAttempts cfg <= User.loginAttempts u + 1 -> 0 < User.loginAttempts u ->
  let (r, db') := AuthController.login cfg env e pw db in
  exists u',
    identity db' e = Some u' /\
    if bcrypt_compare pw (User.password u) then
      res_status r = 200 /\ User.loginAttempts u' = 0 /\ User.lockedUntil u' = None
    else
      r = failure 401 "Too many failed attempts. Account has been temporarily locked." /\
      User.loginAttempts u' = User.loginAttempts u + 1 /\
      User.lockedUntil u' =
        Some (Text (toISOString (now env + lockoutTime cfg * 60 * 1000))).
Proof.
  intros F1 F2 F3 Hu Hs Hk Ru Hle Hmax Hpos.
  rewrite login_steps, F1, Hu, Hs, F2, F3.
  rewrite (isLocked_until u env until Hk Ru).
  replace (now env <? until) with false by (symmetry; apply Z.ltb_ge; assumption).
  change (negb ("active" =? "active")%string) with false. cbv iota.
  unfold User.verifyPassword.
  destruct (bcrypt_compare pw (User.password u)); cbn [negb]; cbv iota zeta.
  - replace (User.loginAttempts u >? 0) with true by (symmetry; apply Z.gtb_lt; lia).
    cbn [andb]. cbv iota.
    destruct (identity_after_lockout_write env db e u 0 None Hu F2)
      as (u' & Hi & Hn & Hl & _).
    exists u'. rewrite (identity_users _ _ e (store_users env _ _ _)). auto.
  - replace (User.loginAttempts u + 1 >=? maxLoginAttempts cfg) with true
      by (symmetry; apply Z.geb_le; lia).
    destruct (identity_after_lockout_write env db e u (User.loginAttempts u + 1)
                (Some (toISOString (now env + lockoutTime cfg * 60 * 1000))) Hu F2)
      as (u' & Hi & Hn & Hl & _).
    cbn [option_map] in Hl. rewrite toISOString_kept in Hl.
    exists u'. auto.
Qed.

End LoginToken.

(* ================================================================== *)
(** * The routes of /users behind their guards *)

Lemma snd_handler on_error (m : Task response) db :
  snd (handler on_error m db) = snd (m db).
Proof. unfold handler. destruct (m db) as [[r|e] db1]; reflexivity. Qed.

Lemma identity_by_id_id db i u : identity_by_id db i = Some u -> User.id u = i.
Proof.
  unfold identity_by_id. destruct (find _ (users db)) as [row|] eqn:Hf; [|discriminate].
  intros [= <-]. apply find_some_holds in Hf. now apply Z.eqb_eq.
Qed.

(** The three parts of what a guard does, once its answer is known: it
    writes nothing, a refusal is no success, and what is left to prove is
    what holds of a caller it lets through. *)
Ltac guard_cases :=
  split; [reflexivity|];
  split; intros ? E; cbn [fst ret] in E; try discriminate E;
  injection E as <-; try discriminate.

(** [canModifyUser] reads only, and lets through an active caller who is
    an administrator or the target. *)
Lemma canModifyUser_allows env userId target db :
  snd (Auth.canModifyUser env userId target db) = db /\
  (forall r, fst (Auth.canModifyUser env userId target db) = Resolved (inl r) ->
     res_status r <> 200) /\
  forall cu, fst (Auth.canModifyUser env userId target db) = Resolved (inr cu) ->
    identity_by_id db userId = Some cu /\ User.status cu = "active" /\
    (User.role cu = "admin" \/ userId = target).
Proof.
  unfold Auth.canModifyUser. unfold bind at 1 2 3.
  destruct (io_fails env SelectUserById) eqn:F.
  { unfold User.findById, bind. rewrite run_fail by assumption. guard_cases. }
  rewrite findById_ok by assumption.
  destruct (identity_by_id db userId) as [cu|] eqn:Hu; [|guard_cases].
  destruct (String.eqb_spec (User.status cu) "active") as [Hs|]; cbn [negb];
    [|guard_cases].
  destruct (String.eqb_spec (User.role cu) "admin") as [Hr|]; cbn [orb].
  { guard_cases. auto. }
  destruct (Z.eqb_spec (User.id cu) target) as [Hi|]; guard_cases.
  repeat split; try assumption.
  right. rewrite <- Hi. symmetry. now apply (identity_by_id_id db).
Qed.

(** [requireAdmin] reads only, and lets through an active administrator. *)
Lemma requireAdmin_allows env userId db :
  snd (Middleware.requireAdmin env userId db) = db /\
  (forall r, fst (Middleware.requireAdmin env userId db) = Resolved (inl r) ->
     res_status r <> 201) /\
  forall cu, fst (Middleware.requireAdmin env userId db) = Resolved (inr cu) ->
    identity_by_id db userId = Some cu /\ User.status cu = "active" /\
    User.role cu = "admin".
Proof.
  unfold Middleware.requireAdmin. unfold bind at 1 2 3.
  destruct (io_fails env SelectUserById) eqn:F.
  { unfold User.findById, bind. rewrite run_fail by assumption. guard_cases. }
  rewrite findById_ok by assumption.
  destruct (identity_by_id db userId) as [cu|] eqn:Hu; [|guard_cases].
  destruct (String.eqb_spec (User.status cu) "active") as [Hs|]; cbn [negb];
    [|guard_cases].
  destruct (String.eqb_spec (User.role cu) "admin") as [Hr|]; cbn [negb];
    guard_cases.
  auto.
Qed.

Section UsersRoutes.
Context `{Crypto} `{Platform}.

Lemma verifyToken_denies cfg env authorization r :
  Middleware.verifyToken cfg env authorization = inl r -> res_status r = 401.
Proof.
  unfold Middleware.verifyToken.
  destruct (option_map _ authorization) as [token|]; [|intros [= <-]; reflexivity].
  destruct (negb (truthy token)); [intros [= <-]; reflexivity|].
  destruct (AuthController.verify env token (jwt_secret cfg)) as [c|e]; [discriminate|].
  destruct (e =? "jwt expired")%string; intros [= <-]; reflexivity.
Qed.

(** [updateUser] changes nothing, or runs one UPDATE on the row of the
    target: what holds of the store as it was and of the store after such
    an UPDATE holds of the store [updateUser] leaves. *)
Lemma updateUser_cases env cu target d db (P : DB -> Prop) :
  P db ->
  (forall row, find (fun r => r_id r =? target) (users db) = Some row ->
     P (snd (User.update (User.new row) env (written cu d) db))) ->
  P (snd (UserController.updateUser env cu target d db)).
Proof.
  intros Hdb Hup.
  unfold UserController.updateUser. unfold bind at 1.
  destruct (io_fails env SelectUserById) eqn:F1.
  { unfold User.findById, bind. rewrite run_fail by assumption. exact Hdb. }
  rewrite findById_ok by assumption. unfold identity_by_id.
  destruct (find _ (users db)) as [row|] eqn:Hf; [|exact Hdb].
  cbn [option_map]. unfold bind at 1.
  match goal with
  | |- context [match ?m db with _ => _ end] => destruct (m db) as [[dup|e] db1] eqn:Ed
  end.
  2:{ cbn [snd].
      destruct (User.u_email d) as [a|]; [|discriminate].
      destruct (truthy a && negb (a =? User.email (User.new row))%string);
        [|discriminate].
      unfold bind in Ed. unfold User.findByEmail, bind, run in Ed.
      destruct (io_fails env SelectUserByEmail); [|discriminate].
      injection Ed as _ <-. exact Hdb. }
  assert (db1 = db) as ->.
  { destruct (User.u_email d) as [a|]; [|injection Ed as _ <-; reflexivity].
    destruct (truthy a && negb (a =? User.email (User.new row))%string);
      [|injection Ed as _ <-; reflexivity].
    unfold bind in Ed. unfold User.findByEmail, bind, run in Ed.
    destruct (io_fails env SelectUserByEmail); [discriminate|].
    injection Ed as _ <-. reflexivity. }
  destruct dup; [exact Hdb|].
  specialize (Hup row eq_refl).
  fold (written cu d). unfold bind at 1.
  destruct (User.update (User.new row) env (written cu d) db) as [[success|e] db2];
    [|exact Hup].
  destruct success; cbn [negb]; [|exact Hup].
  unfold bind. unfold User.findById, bind, run.
  destruct (io_fails env SelectUserById); [exact Hup|]. cbn [ret].
  destruct (option_map _ _); exact Hup.
Qed.

Section WithRules.
Context `{Validator}.

(** PUT /users/:id changes nothing, or the caller may act on the target,
    the body passes the rules and one UPDATE runs on the row of the
    target. *)
Lemma put_cases env userId target body db (P : DB -> Prop) :
  P db ->
  (forall cu row body',
     identity_by_id db userId = Some cu -> User.status cu = "active" ->
     User.role cu = "admin" \/ userId = target ->
     Validation.validateUserUpdate body = inr body' ->
     find (fun r => r_id r =? target) (users db) = Some row ->
     P (snd (User.update (User.new row) env (written cu body') db))) ->
  P (snd (UserController.put env userId target body db)).
Proof.
  intros Hdb Hup.
  unfold UserController.put. rewrite snd_handler. unfold bind at 1.
  destruct (canModifyUser_allows env userId target db) as (Hs & _ & Ha).
  destruct (Auth.canModifyUser env userId target db) as [[[denied|cu]|err] db1];
    cbn [snd fst] in *; subst db1; [exact Hdb | | exact Hdb].
  destruct (Validation.validateUserUpdate body) as [bad|body'] eqn:Ev; [exact Hdb|].
  destruct (Ha cu eq_refl) as (Hu & Hst & Hr).
  apply updateUser_cases; [exact Hdb|]. intros row Hf. now apply (Hup cu row body').
Qed.

(** X7.  PUT /users/:id never touches the ledger, never adds, removes or
    renumbers a row, and leaves every row but the target's as it was.  It
    changes the store only for a caller who is active and is an
    administrator or the target itself. *)
Theorem put_guarded env userId target body db :
  let db' := snd (UserController.put env userId target body db) in
  same_ledger db db' /\
  map r_id (users db') = map r_id (users db) /\
  (forall row, r_id row <> target -> (In row (users db') <-> In row (users db))) /\
  (db' <> db -> may_modify db userId target).
Proof.
  cbv zeta. apply put_cases.
  { repeat split; try tauto; congruence. }
  intros cu row body' Hu Hs Hr _ Hf.
  assert (Hi : User.id (User.new row) = target)
    by (apply find_some_holds in Hf; now apply Z.eqb_eq).
  split; [apply update_same_ledger|].
  destruct (update_writes (User.new row) env (written cu body') db) as [->|[_ ->]].
  { repeat split; try tauto; congruence. }
  cbn [users]. rewrite Hi. split; [|split].
  - rewrite map_map. apply map_ext. intros r.
    destruct (r_id r =? target); reflexivity.
  - intros r Hr'. apply in_map_other; [reflexivity | assumption].
  - intros _. exists cu. auto.
Qed.

(** X8.  A caller who is no administrator cannot change a role or a
    status through PUT /users/:id, their own included: the rules let
    [role] and [status] through only as one of the allowed words, and
    [updateUser] deletes such a word for this caller. *)
Theorem put_keeps_privileges env userId target body db cu :
  identity_by_id db userId = Some cu -> User.role cu <> "admin" ->
  let db' := snd (UserController.put env userId target body db) in
  map (fun r => (r_id r, r_role r, r_status r)) (users db')
  = map (fun r => (r_id r, r_role r, r_status r)) (users db).
Proof.
  intros Hcu Hna. cbv zeta. apply put_cases; [reflexivity|].
  intros cu' row body' Hu _ _ Ev Hf.
  assert (cu' = cu) as -> by congruence.
  destruct (validated body body' Ev) as (_ & _ & Er & Es & Hrt & Hst).
  apply String.eqb_neq in Hna.
  destruct (update_writes (User.new row) env (written cu body') db) as [->|[_ ->]];
    [reflexivity|].
  cbn [users]. rewrite map_map. apply map_ext. intros r.
  destruct (r_id r =? User.id (User.new row)); [|reflexivity].
  unfold User.assign, written. cbn.
  rewrite !admin_only_strips by (assumption || (rewrite ?Er, ?Es; assumption)).
  reflexivity.
Qed.

End WithRules.

(** X16.  GET /users/:id and GET /users/profile write nothing.  The first
    answers 200 only to a caller whose token verifies and who is active
    and an administrator or the target, and then with the identity
    stored under the target id; the second answers with the identity
    stored under the id of the token's payload. *)
Theorem get_routes_guarded cfg env authorization target db :
  (let (r, db') := Routes.get_user cfg env authorization target db in
   db' = db /\
   (res_status r = 200 ->
    exists c u,
      Middleware.verifyToken cfg env authorization = inr c /\
      may_modify db (claim_id c) target /\
      identity_by_id db target = Some u /\ res_data r = UserData (User.toJSON u)))
  /\
  (let (r, db') := Routes.get_profile cfg env authorization db in
   db' = db /\
   (res_status r = 200 ->
    exists c u,
      Middleware.verifyToken cfg env authorization = inr c /\
      identity_by_id db (claim_id c) = Some u /\
      res_data r = UserData (User.toJSON u))).
Proof.
  split.
  - unfold Routes.get_user, Routes.authenticated.
    destruct (Middleware.verifyToken cfg env authorization) as [denied|c] eqn:Ev.
    { apply verifyToken_denies in Ev. split; [reflexivity|]. rewrite Ev. discriminate. }
    unfold handler. unfold bind at 1.
    destruct (canModifyUser_allows env (claim_id c) target db) as (Hs & Hd & Ha).
    destruct (Auth.canModifyUser env (claim_id c) target db) as [[[denied|cu]|err] db1];
      cbn [snd fst] in *; subst db1.
    + split; [reflexivity|]. intros E. exfalso. exact (Hd denied eq_refl E).
    + destruct (Ha cu eq_refl) as (Hu & Hst & Hr).
      unfold Handlers.getUserById. unfold bind.
      destruct (io_fails env SelectUserById) eqn:F.
      { unfold User.findById, bind. rewrite run_fail by assumption.
        split; [reflexivity | discriminate]. }
      rewrite findById_ok by assumption.
      destruct (identity_by_id db target) as [u|] eqn:Ht;
        [|split; [reflexivity | discriminate]].
      split; [reflexivity|]. intros _. exists c, u.
      repeat split; try reflexivity. exists cu. auto.
    + split; [reflexivity | discriminate].
  - unfold Routes.get_profile, Routes.authenticated.
    destruct (Middleware.verifyToken cfg env authorization) as [denied|c] eqn:Ev.
    { apply verifyToken_denies in Ev. split; [reflexivity|]. rewrite Ev. discriminate. }
    unfold handler, Handlers.getProfile, bind.
    destruct (io_fails env SelectUserById) eqn:F.
    { unfold User.findById, bind. rewrite run_fail by assumption.
      split; [reflexivity | discriminate]. }
    rewrite findById_ok by assumption.
    destruct (identity_by_id db (claim_id c)) as [u|] eqn:Ht;
      [|split; [reflexivity | discriminate]].
    split; [reflexivity|]. intros _. exists c, u. auto.
Qed.

End UsersRoutes.

(* ================================================================== *)
(** * The import, the registration and the default administrator *)

Lemma find_app_none {A} (P : A -> bool) l l' :
  find P (l ++ l') = None -> find P l = None.
Proof.
  induction l as [|x l IH]; [reflexivity|]. cbn [app find].
  destruct (P x); [discriminate | exact IH].
Qed.

Lemma find_app_some {A} (P : A -> bool) l l' x :
  find P l = Some x -> find P (l ++ l') = Some x.
Proof.
  induction l as [|y l IH]; [discriminate|]. cbn [app find].
  destruct (P y); [auto | exact IH].
Qed.

(** An address the store holds is held by every store that grew from it. *)
Lemma identity_grows db db' e :
  grows db db' -> identity db e <> None -> identity db' e <> None.
Proof.
  intros [added Ha] Hk. unfold identity in *. rewrite Ha.
  destruct (find _ (users db)) as [row|] eqn:Hf; [|contradiction].
  rewrite (find_app_some _ _ added _ Hf). discriminate.
Qed.

Lemma insert_newest_cons r sorted : Users.insert_newest r sorted <> [].
Proof.
  destruct sorted as [|x l]; cbn; [discriminate|].
  destruct (text_gt _ _); discriminate.
Qed.

Lemma newest_first_nil rows : Users.newest_first rows = [] -> rows = [].
Proof.
  destruct rows as [|x l]; [reflexivity|]. unfold Users.newest_first. cbn [fold_right].
  intros E. now apply insert_newest_cons in E.
Qed.

Section Appends.
Context `{Crypto} `{Platform}.

(** The record [import_one] hands to [create]. *)
Lemma import_one_writes env x db :
  let (o, db') := UserService.import_one env x db in
  (o <> Resolved true /\ db' = db) \/
  exists e p first last,
    UserService.x_email x = Some e /\ UserService.x_password x = Some p /\
    e <> "" /\ p <> "" /\ identity db e = None /\
    let d := {| User.d_firstName := UserService.x_firstName x;
                User.d_lastName := UserService.x_lastName x;
                User.d_email := e; User.d_password := p;
                User.d_role := Some (or_default (Some (UserService.x_role x)) "user");
                User.d_status :=
                  Some (or_default (Some (UserService.x_status x)) "active") |} in
    o = Resolved true /\
    db' = with_row db
            (inserted env d first last (next_rowid (users_seq db) (map r_id (users db)))).
Proof.
  unfold UserService.import_one. unfold bind at 1.
  destruct (UserService.x_email x) as [e|].
  2:{ unfold bind, run. destruct (io_fails env SelectUserByEmail); cbn [ret];
        left; split; (discriminate || reflexivity). }
  destruct (io_fails env SelectUserByEmail) eqn:F1.
  { unfold User.findByEmail, bind. rewrite run_fail by assumption.
    left. split; (discriminate || reflexivity). }
  rewrite findByEmail_ok by assumption.
  destruct (identity db e) as [u|] eqn:Hu;
    [left; split; (discriminate || reflexivity)|].
  destruct (UserService.x_password x) as [p|];
    [|left; split; (discriminate || reflexivity)].
  destruct (truthy e) eqn:He; [|left; split; (discriminate || reflexivity)].
  destruct (truthy p) eqn:Hp; [|left; split; (discriminate || reflexivity)].
  cbn [andb]. unfold bind.
  match goal with |- context [User.create env ?d db] => set (data := d) end.
  destruct (create_writes env data db)
    as [[err ->]|(first & last & Hfi & Hla & Hn & _ & ->)].
  - left. split; (discriminate || reflexivity).
  - cbn [ret]. right. exists e, p, first, last.
    apply truthy_true in He, Hp. repeat split; assumption || reflexivity.
Qed.

Lemma import_cons_snd env x rest db :
  snd (UserService.initializeUsersFromExcel ((env, x) :: rest) db)
  = snd (UserService.initializeUsersFromExcel rest
           (snd (UserService.import_one env x db))).
Proof.
  cbn [UserService.initializeUsersFromExcel].
  destruct (UserService.import_one env x db) as [[[|]|err] db1]; cbn [snd];
    [|reflexivity | reflexivity].
  destruct (UserService.initializeUsersFromExcel rest db1); reflexivity.
Qed.

(** What every record leaves in place, the import leaves in place. *)
Lemma import_moves (R : DB -> DB -> Prop) `{!Frame R} xs :
  (forall env x, moves R (UserService.import_one env x)) ->
  forall db, R db (snd (UserService.initializeUsersFromExcel xs db)).
Proof.
  intros Hone. induction xs as [|[env x] rest IH]; intros db; [apply frame_refl|].
  rewrite import_cons_snd. eapply frame_trans; [apply Hone | apply IH].
Qed.

Lemma import_one_moves_keys env x : moves keeps_keys (UserService.import_one env x).
Proof. unfold UserService.import_one. frame. Qed.

Lemma import_one_grows env x : moves grows (UserService.import_one env x).
Proof. unfold UserService.import_one. frame. Qed.

(** X10.  The import only appends: the rows the store held are still
    there, unchanged and at the head, the ledger is untouched, and the
    count the import returns is the number of rows it appended.  Each new
    row belongs to an address the store did not hold, comes from a record
    of the spreadsheet with that address, and starts with a count of 0 and
    no lock. *)
Theorem import_only_appends xs : forall db,
  let (n, db') := UserService.initializeUsersFromExcel xs db in
  same_ledger db db' /\
  exists added,
    users db' = (users db ++ added)%list /\
    n = Z.of_nat (List.length added) /\
    Forall (fun row =>
              identity db (r_email row) = None /\
              r_login_attempts row = Some 0 /\ r_locked_until row = None /\
              exists env x, In (env, x) xs /\
                            UserService.x_email x = Some (r_email row))
           added.
Proof.
  induction xs as [|[env x] rest IH]; intros db.
  { cbn. split; [apply frame_refl|]. exists []. rewrite app_nil_r. auto. }
  cbn [UserService.initializeUsersFromExcel].
  pose proof (import_one_writes env x db) as H1.
  destruct (UserService.import_one env x db) as [o db1].
  destruct H1 as [[Ho ->]|(e & p & first & last & He & Hp & _ & _ & Hn & Ho & ->)].
  - assert (Hrest : let (n, db') := UserService.initializeUsersFromExcel rest db in
              same_ledger db db' /\
              exists added,
                users db' = (users db ++ added)%list /\
                n = Z.of_nat (List.length added) /\
                Forall (fun row =>
                          identity db (r_email row) = None /\
                          r_login_attempts row = Some 0 /\ r_locked_until row = None /\
                          exists env0 x0, In (env0, x0) ((env, x) :: rest) /\
                            UserService.x_email x0 = Some (r_email row))
                       added).
    { specialize (IH db).
      destruct (UserService.initializeUsersFromExcel rest db) as [n db2].
      destruct IH as (Hl & added & Hu & Hc & Ha). split; [assumption|].
      exists added. repeat split; try assumption.
      eapply Forall_impl; [|exact Ha]. cbv beta.
      intros row (A & B & C & env0 & x0 & Hin & Hx). repeat split; try assumption.
      exists env0, x0. split; [right; assumption | assumption]. }
    destruct o as [[|]|err]; [contradiction | exact Hrest | exact Hrest].
  - cbv zeta in Ho. subst o.
    match goal with
    | |- context [with_row db ?r] => set (row := r)
    end.
    specialize (IH (with_row db row)).
    destruct (UserService.initializeUsersFromExcel rest (with_row db row)) as [n db2].
    destruct IH as (Hl & added & Hu & Hc & Ha). split; [exact Hl|].
    exists (row :: added). split; [|split].
    + rewrite Hu. cbn [users with_row]. rewrite <- app_assoc. reflexivity.
    + cbn [List.length]. lia.
    + constructor.
      * repeat split; try reflexivity; [exact Hn|].
        exists env, x. split; [left; reflexivity | exact He].
      * eapply Forall_impl; [|exact Ha]. cbv beta.
        intros r (A & B & C & env0 & x0 & Hin & Hx). repeat split; try assumption.
        -- unfold identity in *. cbn [users with_row] in A.
           destruct (find _ (users db ++ [row])%list) eqn:Hf; [discriminate|].
           apply find_app_none in Hf. rewrite Hf. reflexivity.
        -- exists env0, x0. split; [right; assumption | assumption].
Qed.

(** Records whose addresses the store holds are skipped. *)
Lemma import_known xs : forall db,
  (forall env x e p, In (env, x) xs ->
     UserService.x_email x = Some e -> e <> "" ->
     UserService.x_password x = Some p -> p <> "" -> identity db e <> None) ->
  UserService.initializeUsersFromExcel xs db = (0, db).
Proof.
  induction xs as [|[env x] rest IH]; intros db Hk; [reflexivity|].
  cbn [UserService.initializeUsersFromExcel].
  pose proof (import_one_writes env x db) as H1.
  destruct (UserService.import_one env x db) as [o db1].
  destruct H1 as [[Ho ->]|(e & p & first & last & He & Hp & Hne & Hnp & Hn & _)].
  - assert (Hrest : UserService.initializeUsersFromExcel rest db = (0, db)).
    { apply IH. intros env0 x0 e p Hin. apply (Hk env0). right. assumption. }
    destruct o as [[|]|err]; [contradiction | exact Hrest | exact Hrest].
  - exfalso. apply (Hk env x e p); auto. left. reflexivity.
Qed.

(** A record with its names, its address and its password is known to
    the store after the import, when the driver fails no statement. *)
Lemma import_one_covers env x e p db :
  io_fails env SelectUserByEmail = false -> io_fails env InsertUser = false ->
  UserService.x_firstName x <> None -> UserService.x_lastName x <> None ->
  UserService.x_email x = Some e -> e <> "" ->
  UserService.x_password x = Some p -> p <> "" ->
  identity (snd (UserService.import_one env x db)) e <> None.
Proof.
  intros F1 F2 Hfi Hla He Hne Hp Hnp.
  unfold UserService.import_one. rewrite He, Hp. unfold bind at 1.
  rewrite findByEmail_ok by assumption.
  destruct (identity db e) as [u|] eqn:Hu; [cbn [ret snd]; congruence|].
  rewrite (proj2 (truthy_true e) Hne), (proj2 (truthy_true p) Hnp). cbn [andb].
  unfold bind, User.create, bind. rewrite run_ok by assumption.
  cbn [User.d_firstName User.d_lastName User.d_email User.d_password].
  destruct (UserService.x_firstName x) as [first|]; [|contradiction].
  destruct (UserService.x_lastName x) as [last|]; [|contradiction].
  rewrite identity_none_existsb by assumption. cbn [ret snd].
  unfold identity in *. cbn [users].
  destruct (find _ (users db)) eqn:Hf; [discriminate|].
  rewrite (find_app_new _ _ _ Hf) by (cbn; apply String.eqb_refl). discriminate.
Qed.

Lemma import_covers xs : forall db,
  Forall (fun ex =>
            io_fails (fst ex) SelectUserByEmail = false /\
            io_fails (fst ex) InsertUser = false /\
            UserService.x_firstName (snd ex) <> None /\
            UserService.x_lastName (snd ex) <> None) xs ->
  forall env x e p, In (env, x) xs ->
    UserService.x_email x = Some e -> e <> "" ->
    UserService.x_password x = Some p -> p <> "" ->
    identity (snd (UserService.initializeUsersFromExcel xs db)) e <> None.
Proof.
  induction xs as [|[env0 x0] rest IH]; intros db Hall env x e p Hin He Hne Hp Hnp;
    [contradiction|].
  inversion Hall as [|? ? (F1 & F2 & Hfi & Hla) Hrest]. subst.
  rewrite import_cons_snd. destruct Hin as [[= -> ->]|Hin].
  - apply (identity_grows (snd (UserService.import_one env x db))).
    + apply (import_moves grows). apply import_one_grows.
    + now apply (import_one_covers env x e p).
  - now apply (IH _ Hrest env x e p).
Qed.

(** X11.  Importing the same spreadsheet again adds nothing, whatever
    the clock, the salt and the driver do the second time: every record
    that the first import could create is then known by its address.  The
    first import must have run without a failing statement, on records
    that have both names. *)
Theorem import_again_adds_nothing xs ys db :
  map snd ys = map snd xs ->
  Forall (fun ex =>
            io_fails (fst ex) SelectUserByEmail = false /\
            io_fails (fst ex) InsertUser = false /\
            UserService.x_firstName (snd ex) <> None /\
            UserService.x_lastName (snd ex) <> None) xs ->
  let db' := snd (UserService.initializeUsersFromExcel xs db) in
  UserService.initializeUsersFromExcel ys db' = (0, db').
Proof.
  intros Hsame Hall. cbv zeta. apply import_known.
  intros env x e p Hin He Hne Hp Hnp.
  assert (Hx : In x (map snd xs)).
  { rewrite <- Hsame. apply in_map_iff. exists (env, x). auto. }
  apply in_map_iff in Hx. destruct Hx as ([env0 x0] & Hx0 & Hin0). cbn in Hx0. subst x0.
  now apply (import_covers xs db Hall env0 x e p).
Qed.

End Appends.

(* ================================================================== *)
(** * The Authorization header *)

Lemma remove_first_step pattern s :
  Middleware.remove_first pattern s =
  if String.prefix pattern s
  then substring (String.length pattern)
         (String.length s - String.length pattern)%nat s
  else
    match s with
    | EmptyString => EmptyString
    | String c rest => String c (Middleware.remove_first pattern rest)
    end.
Proof. destruct s; reflexivity. Qed.

Lemma prefix_append p s : String.prefix p (p ++ s) = true.
Proof.
  induction p as [|c p IH]; cbn; [destruct s; reflexivity|].
  destruct (ascii_dec c c); [exact IH | contradiction].
Qed.

Lemma substring_whole s : substring 0 (String.length s) s = s.
Proof. induction s as [|c s IH]; cbn; [reflexivity | now rewrite IH]. Qed.

Lemma substring_append p s n :
  substring (String.length p) n (p ++ s) = substring 0 n s.
Proof. induction p as [|c p IH]; cbn; [reflexivity | exact IH]. Qed.

Lemma length_append p s :
  String.length (p ++ s) = (String.length p + String.length s)%nat.
Proof. induction p as [|c p IH]; cbn; [reflexivity | now rewrite IH]. Qed.

(** A header that starts with the pattern loses it, and nothing else. *)
Lemma remove_first_prefix p s : Middleware.remove_first p (p ++ s) = s.
Proof.
  rewrite remove_first_step, prefix_append, substring_append, length_append.
  replace (String.length p + String.length s - String.length p)%nat
    with (String.length s) by lia.
  apply substring_whole.
Qed.

Section Bearer.
Context `{Crypto} `{Platform}.

(** X12.  From the header [Bearer <token>], [verifyToken] removes the
    word [Bearer] and hands the rest, the token with the space before it,
    to [jwt.verify].  With a library that takes no text starting with a
    space for a token, every such header is answered 401 'Invalid token.'
    with the message of the library's error for that text, whatever the
    token, and no route behind [verifyToken] runs its handler. *)
Theorem bearer_header_is_refused cfg env token :
  (forall s, jwt_decode (jwt_secret cfg) (String " " s) = None) ->
  let refused :=
    mkResponse 401 false "Invalid token."
      (Some (jwt_error (jwt_secret cfg) (String " " token))) NoData in
  Middleware.verifyToken cfg env (Some ("Bearer " ++ token)) = inl refused /\
  forall next db,
    Routes.authenticated cfg env (Some ("Bearer " ++ token)) next db = (refused, db).
Proof.
  intros Hlib refused.
  assert (Hv : Middleware.verifyToken cfg env (Some ("Bearer " ++ token)) = inl refused).
  { unfold Middleware.verifyToken. cbn [option_map].
    change ("Bearer " ++ token) with ("Bearer" ++ String " " token).
    rewrite remove_first_prefix.
    change (truthy (String " " token)) with true. cbn [negb].
    unfold AuthController.verify. rewrite Hlib.
    rewrite (proj2 (String.eqb_neq _ _) (jwt_error_name _ _)). reflexivity. }
  split; [exact Hv|]. intros next db. unfold Routes.authenticated. rewrite Hv.
  reflexivity.
Qed.

End Bearer.

(* ================================================================== *)
(** * POST /users and the default administrator *)

Lemma isIn_two s a b : Validation.isIn s [a; b] = true -> s = a \/ s = b.
Proof.
  unfold Validation.isIn. cbn [existsb]. rewrite orb_false_r.
  intros E. apply orb_true_iff in E.
  destruct E as [E|E]; apply String.eqb_eq in E; auto.
Qed.

(** [x || d] once more changes nothing. *)
Lemma or_default_twice x d : or_default (Some (or_default x d)) d = or_default x d.
Proof.
  unfold or_default. destruct x as [s|].
  - destruct (truthy s) eqn:Es; [rewrite Es; reflexivity|].
    destruct (truthy d); reflexivity.
  - destruct (truthy d); reflexivity.
Qed.

Section Registered.
Context `{Crypto} `{Platform}.

(** The record [createUser] hands to [create]. *)
Lemma createUser_outcome env body db :
  let row := inserted env (registered body) (Rules.n_firstName body)
               (Rules.n_lastName body)
               (next_rowid (users_seq db) (map r_id (users db))) in
  let (o, db') := Handlers.createUser env body db in
  (db' = db /\ forall r, o = Resolved r -> res_status r <> 201) \/
  (identity db (Rules.n_email body) = None /\ db' = with_row db row /\
   (o = Rejected "SQLITE_ERROR" \/
    o = Resolved (ok 201 "User created successfully"
                    (UserData (User.toJSON (User.new row)))))).
Proof.
  cbv zeta. unfold Handlers.createUser. unfold bind at 1.
  destruct (io_fails env SelectUserByEmail) eqn:F1.
  { unfold User.findByEmail, bind. rewrite run_fail by assumption.
    left. split; [reflexivity | discriminate]. }
  rewrite findByEmail_ok by assumption.
  destruct (identity db (Rules.n_email body)) as [u|] eqn:Hu.
  { left. split; [reflexivity|]. intros r [= <-]. discriminate. }
  unfold bind at 1.
  fold (registered body).
  destruct (create_writes env (registered body) db)
    as [[err ->]|(first & last & [= <-] & [= <-] & _ & _ & ->)].
  { left. split; [reflexivity | discriminate]. }
  assert (Hfresh : find (fun r => r_id r =? next_rowid (users_seq db) (map r_id (users db)))
                     (users db) = None).
  { destruct (find _ (users db)) as [r|] eqn:Hf; [|reflexivity].
    apply find_some in Hf. destruct Hf as [Hin Hr]. apply Z.eqb_eq in Hr.
    exfalso. apply (next_rowid_fresh (users_seq db) (map r_id (users db))).
    rewrite <- Hr. now apply in_map. }
  cbv iota beta. unfold bind. destruct (io_fails env SelectUserById) eqn:F2.
  { unfold User.findById, bind. rewrite run_fail by assumption.
    right. split; [reflexivity|]. split; [reflexivity|]. left. reflexivity. }
  rewrite findById_ok by assumption. unfold identity_by_id.
  cbn [users with_row]. rewrite (find_app_new _ _ _ Hfresh) by (cbn; apply Z.eqb_refl).
  right. split; [reflexivity|]. split; [reflexivity|]. right. reflexivity.
Qed.

(** X14.  An identity created through [createUser] can log in: when
    the handler answered 201 and the identity is active, a login with the
    address and the password of the body finds the new row and answers
    200 with tokens for it.  The library must accept a password against
    the hash it made of it. *)
Theorem created_user_can_login cfg env env' body db r db' :
  Handlers.createUser env body db = (Resolved r, db') -> res_status r = 201 ->
  or_default (Rules.n_status body) "active" = "active" ->
  bcrypt_compare (Rules.n_password body)
    (bcrypt_hash (salt env) (Rules.n_password body)) = true ->
  io_fails env' SelectUserByEmail = false -> io_fails env' InsertToken = false ->
  exists u a t,
    fst (AuthController.login cfg env' (Rules.n_email body) (Rules.n_password body) db')
    = ok 200 "Login successful" (LoginData u a t (jwt_expiresIn cfg)) /\
    User.j_email u = Rules.n_email body /\
    User.j_role u = or_default (Rules.n_role body) "user" /\
    res_data r = UserData u.
Proof.
  intros Hc Hs Hact Hlib F1 F2.
  pose proof (createUser_outcome env body db) as Ho. cbv zeta in Ho.
  rewrite Hc in Ho. destruct Ho as [[_ Ho]|(Hn & -> & [Ho|Ho])].
  - exfalso. exact (Ho r eq_refl Hs).
  - discriminate.
  - injection Ho as ->. rewrite login_steps, F1. unfold identity in *.
    cbn [users with_row].
    destruct (find _ (users db)) eqn:Hf; [discriminate|].
    rewrite (find_app_new _ _ _ Hf) by (cbn; apply String.eqb_refl).
    cbn [option_map].
    match goal with |- context [User.new ?x] => set (row := x) end.
    change (User.status (User.new row))
      with (or_default (Some (or_default (Rules.n_status body) "active")) "active").
    rewrite or_default_twice, Hact. change (negb ("active" =? "active")%string) with false. cbv iota.
    change (User.isLocked (User.new row) env') with false. cbv iota.
    unfold User.verifyPassword.
    change (User.password (User.new row))
      with (bcrypt_hash (salt env) (Rules.n_password body)).
    rewrite Hlib. cbn [negb].
    change (User.loginAttempts (User.new row)) with 0.
    change (0 >? 0) with false. cbn [andb]. cbv iota zeta. rewrite F2.
    cbn [fst]. eexists _, _, _. split; [reflexivity|].
    split; [reflexivity|]. split; [apply or_default_twice | reflexivity].
Qed.

Section RegistrationRules.
Context `{Validator} `{Registration}.

(** A body that passes the rules of the registration. *)
Lemma registration_passes body valid :
  Rules.validateUserRegistration body = inr valid ->
  exists e p,
    Rules.g_email body = Some e /\ Rules.g_password body = Some p /\
    isEmail e = true /\ isLength 8 None p = true /\ registration_password p = true /\
    Rules.n_email valid = normalizeEmail e /\ Rules.n_password valid = p /\
    (or_default (Rules.n_role valid) "user" = "user" \/
     or_default (Rules.n_role valid) "user" = "admin") /\
    (or_default (Rules.n_status valid) "active" = "active" \/
     or_default (Rules.n_status valid) "active" = "inactive").
Proof.
  unfold Rules.validateUserRegistration. cbv zeta.
  destruct (_ ++ _)%list eqn:E; [|discriminate].
  do 2 (apply app_eq_nil in E; destruct E as [_ E]).
  apply app_eq_nil in E. destruct E as [E1 E].
  apply app_eq_nil in E. destruct E as [E2 E].
  apply app_eq_nil in E. destruct E as [E3 E].
  apply app_eq_nil in E. destruct E as [E4 E5].
  destruct (option_map trim (Rules.g_firstName body)); [|discriminate].
  destruct (option_map trim (Rules.g_lastName body)); [|discriminate].
  apply required_nil in E1, E2, E3.
  destruct E1 as (e & He & Hv). destruct E2 as (p & Hp & Hl).
  destruct E3 as (p' & Hp' & Hm). rewrite Hp in Hp'. injection Hp' as <-.
  rewrite He, Hp. intros [= <-]. exists e, p. cbn.
  repeat (split; [assumption || reflexivity|]). split.
  - destruct (Rules.g_role body) as [r|] eqn:Er; [|left; reflexivity].
    pose proof (check_nil _ _ _ E4 r eq_refl) as Er'. apply isIn_two in Er'.
    destruct Er' as [->| ->]; [left | right]; reflexivity.
  - destruct (Rules.g_status body) as [r|] eqn:Er; [|left; reflexivity].
    pose proof (check_nil _ _ _ E5 r eq_refl) as Er'. apply isIn_two in Er'.
    destruct Er' as [->| ->]; [left | right]; reflexivity.
Qed.

(** POST /users changes nothing, or appends the row of a body that
    passes the rules, for a caller who is an active administrator. *)
Lemma post_users_cases cfg env authorization body db (P : DB -> Prop) :
  P db ->
  (forall c admin valid,
     Middleware.verifyToken cfg env authorization = inr c ->
     identity_by_id db (claim_id c) = Some admin ->
     User.status admin = "active" -> User.role admin = "admin" ->
     Rules.validateUserRegistration body = inr valid ->
     identity db (Rules.n_email valid) = None ->
     P (with_row db
          (inserted env (registered valid) (Rules.n_firstName valid)
             (Rules.n_lastName valid)
             (next_rowid (users_seq db) (map r_id (users db)))))) ->
  P (snd (Routes.post_users cfg env authorization body db)).
Proof.
  intros Hdb Hnew. unfold Routes.post_users, Routes.authenticated.
  destruct (Middleware.verifyToken cfg env authorization) as [denied|c] eqn:Ev;
    [exact Hdb|].
  rewrite snd_handler. unfold bind at 1.
  destruct (requireAdmin_allows env (claim_id c) db) as (Hs & _ & Ha).
  destruct (Middleware.requireAdmin env (claim_id c) db) as [[[denied|cu]|err] db1];
    cbn [snd fst] in *; subst db1; [exact Hdb | | exact Hdb].
  destruct (Ha cu eq_refl) as (Hu & Hst & Hr).
  destruct (Rules.validateUserRegistration body) as [bad|valid] eqn:Eb; [exact Hdb|].
  pose proof (createUser_outcome env valid db) as Ho. cbv zeta in Ho.
  destruct (Handlers.createUser env valid db) as [o db2].
  destruct Ho as [[-> _]|(Hn & -> & _)]; [exact Hdb|].
  now apply (Hnew c cu valid).
Qed.

(** X13.  POST /users never touches the ledger, and changes the users
    only in one way: for a caller whose token verifies and who is an
    active administrator, and a body that passes the rules with an
    address the store does not hold, it appends one row.  That row has the
    normalised address, the bcrypt hash of the password, a role and a
    status among the allowed words, a count of 0 and no lock. *)
Theorem post_users_guarded cfg env authorization body db :
  let db' := snd (Routes.post_users cfg env authorization body db) in
  same_ledger db db' /\
  (db' = db \/
   exists c admin e p row,
     Middleware.verifyToken cfg env authorization = inr c /\
     identity_by_id db (claim_id c) = Some admin /\
     User.status admin = "active" /\ User.role admin = "admin" /\
     Rules.g_email body = Some e /\ isEmail e = true /\
     Rules.g_password body = Some p /\
     isLength 8 None p = true /\ registration_password p = true /\
     identity db (normalizeEmail e) = None /\
     db' = with_row db row /\
     r_email row = normalizeEmail e /\
     r_password row = bcrypt_hash (salt env) p /\
     (r_role row = "user" \/ r_role row = "admin") /\
     (r_status row = "active" \/ r_status row = "inactive") /\
     r_login_attempts row = Some 0 /\ r_locked_until row = None).
Proof.
  cbv zeta. apply post_users_cases.
  { split; [apply frame_refl | left; reflexivity]. }
  intros c admin valid Ev Hu Hst Hr Eb Hn.
  destruct (registration_passes body valid Eb)
    as (e & p & He & Hp & Hv & Hl & Hm & Hne & Hnp & Hro & Hsta).
  split; [split; reflexivity|]. right.
  exists c, admin, e, p. eexists. rewrite <- Hne.
  repeat (split; [eassumption || reflexivity|]).
  cbn [inserted registered r_email r_password r_role r_status r_login_attempts
       r_locked_until User.d_email User.d_password User.d_role User.d_status].
  rewrite Hnp, !or_default_twice. auto 10.
Qed.

End RegistrationRules.

(** X15.  [createDefaultAdmin] never changes a store that has users.  On
    a store without users it changes nothing and rejects, or it appends
    one row: the active administrator [admin@example.com] with the bcrypt
    hash of the default password; it then resolves with the id of that
    row unless the driver fails the SELECT that reads it back. *)
Theorem default_admin_only_on_empty_store env list_fails db :
  let (o, db') := Startup.createDefaultAdmin env list_fails db in
  (users db <> [] ->
   db' = db /\ (o = Resolved None \/ o = Rejected "SQLITE_ERROR")) /\
  (users db = [] ->
   (db' = db /\ exists err, o = Rejected err) \/
   exists row,
     db' = with_row db row /\
     r_email row = "admin@example.com" /\ r_role row = "admin" /\
     r_status row = "active" /\
     r_password row = bcrypt_hash (salt env) "Admin123!" /\
     r_login_attempts row = Some 0 /\ r_locked_until row = None /\
     (o = Resolved (Some (r_id row)) \/ o = Rejected "SQLITE_ERROR")).
Proof.
  unfold Startup.createDefaultAdmin. unfold bind at 1. unfold Users.findAll.
  destruct list_fails.
  { split; [auto|]. intros _. left. split; [reflexivity | eauto]. }
  destruct (users db) as [|x l] eqn:Eu.
  - cbn [Users.newest_first fold_right map]. unfold bind at 1.
    destruct (create_writes env Startup.defaultAdmin db)
      as [[err ->]|(first & last & [= <-] & [= <-] & _ & _ & ->)].
    { split; [contradiction|]. intros _. left. split; [reflexivity | eauto]. }
    cbv iota beta. unfold bind. destruct (io_fails env SelectUserById) eqn:F.
    + unfold User.findById, bind. rewrite run_fail by assumption.
      split; [contradiction|]. intros _. right. eexists.
      split; [reflexivity|]. repeat (split; [reflexivity|]). right. reflexivity.
    + rewrite findById_ok by assumption. unfold identity_by_id.
      cbn [users with_row]. rewrite Eu. cbn [app find inserted r_id].
      rewrite Z.eqb_refl. cbn [option_map ret].
      split; [contradiction|]. intros _. right. eexists.
      split; [reflexivity|]. repeat (split; [reflexivity|]). left. reflexivity.
  - destruct (map User.new (Users.newest_first (x :: l))) eqn:En.
    + apply map_eq_nil in En. apply newest_first_nil in En. discriminate.
    + split; [|discriminate]. intros _. split; [reflexivity | left; reflexivity].
Qed.

End Registered.

(* ================================================================== *)
(** * The keys of the users *)

Section Keys.
Context `{Crypto} `{Validator} `{Registration} `{Platform}.

Lemma moves_authenticated {R : DB -> DB -> Prop} `{!Frame R} cfg env authorization
    (next : claims -> DB -> response * DB) :
  (forall c, moves R (next c)) ->
  moves R (Routes.authenticated cfg env authorization next).
Proof.
  intros Hn db. unfold Routes.authenticated.
  destruct (Middleware.verifyToken cfg env authorization);
    [apply frame_refl | apply Hn].
Qed.

Lemma login_moves_keys cfg env e pw :
  moves keeps_keys (AuthController.login cfg env e pw).
Proof.
  unfold AuthController.login, User.incrementLoginAttempts, User.resetLoginAttempts.
  frame.
Qed.

Lemma logout_moves_keys env t : moves keeps_keys (AuthController.logout env t).
Proof. unfold AuthController.logout. frame. Qed.

Lemma put_user_moves_keys cfg env a target body :
  moves keeps_keys (Routes.put_user cfg env a target body).
Proof.
  unfold Routes.put_user. apply moves_authenticated. intros c.
  unfold UserController.put, UserController.updateUser, Auth.canModifyUser. frame.
Qed.

Lemma post_users_moves_keys cfg env a body :
  moves keeps_keys (Routes.post_users cfg env a body).
Proof.
  unfold Routes.post_users. apply moves_authenticated. intros c.
  unfold Handlers.createUser, Middleware.requireAdmin. frame.
Qed.

Lemma default_admin_moves_keys env list_fails :
  moves keeps_keys (Startup.createDefaultAdmin env list_fails).
Proof. unfold Startup.createDefaultAdmin. frame. Qed.

(** What every record leaves in place, the loop of the sync leaves in
    place. *)
Lemma sync_loop_moves (R : DB -> DB -> Prop) `{!Frame R} xs :
  (forall env x, moves R (UserService.import_one env x)) ->
  forall db, R db (snd (Handlers.sync_loop xs db)).
Proof.
  intros Hone. induction xs as [|[env x] rest IH]; intros db; [apply frame_refl|].
  cbn [Handlers.sync_loop]. specialize (Hone env x db).
  destruct (UserService.import_one env x db) as [[added|err] db1]; cbn [snd] in Hone;
    specialize (IH db1);
    destruct (Handlers.sync_loop rest db1) as [[n errors] db2]; cbn [snd] in *;
    eapply frame_trans; eassumption.
Qed.

Lemma post_sync_moves_keys cfg env a xs :
  moves keeps_keys (Routes.post_sync cfg env a xs).
Proof.
  unfold Routes.post_sync. apply moves_authenticated. intros c db.
  destruct (requireAdmin_allows env (claim_id c) db) as (Hs & _).
  destruct (Middleware.requireAdmin env (claim_id c) db) as [[[denied|cu]|err] db1];
    cbn [snd] in *; subst db1; try apply frame_refl.
  unfold Handlers.syncUsersFromExcel.
  pose proof (sync_loop_moves keeps_keys xs import_one_moves_keys db) as Hx.
  destruct (Handlers.sync_loop xs db) as [[n errors] db2]. exact Hx.
Qed.

(** X9.  Every handler that writes to the users keeps their two keys:
    on a store whose ids are distinct and whose addresses are distinct,
    login, logout, PUT /users/:id, POST /users, POST /users/sync, the
    creation of the default administrator and the import leave such a
    store.  These are all the callers of [User.create] and
    [User.update]. *)
Theorem keys_stay_unique cfg env db :
  well_keyed db ->
  (forall e pw, well_keyed (snd (AuthController.login cfg env e pw db))) /\
  (forall t, well_keyed (snd (AuthController.logout env t db))) /\
  (forall a target body, well_keyed (snd (Routes.put_user cfg env a target body db))) /\
  (forall a body, well_keyed (snd (Routes.post_users cfg env a body db))) /\
  (forall a xs, well_keyed (snd (Routes.post_sync cfg env a xs db))) /\
  (forall list_fails, well_keyed (snd (Startup.createDefaultAdmin env list_fails db))) /\
  (forall xs, well_keyed (snd (UserService.initializeUsersFromExcel xs db))).
Proof.
  intros Hk. split; [|split; [|split; [|split; [|split; [|split]]]]].
  - intros e pw. exact (login_moves_keys cfg env e pw db Hk).
  - intros t. exact (logout_moves_keys env t db Hk).
  - intros a target body. exact (put_user_moves_keys cfg env a target body db Hk).
  - intros a body. exact (post_users_moves_keys cfg env a body db Hk).
  - intros a xs. exact (post_sync_moves_keys cfg env a xs db Hk).
  - intros list_fails. exact (default_admin_moves_keys env list_fails db Hk).
  - intros xs. exact (import_moves keeps_keys xs import_one_moves_keys db Hk).
Qed.

End Keys.

(* ================================================================== *)
(** * The handlers on the sample data *)

Import Sample.

(** C5, on the code.  A login at 2025-01-01 10:00 UTC stores a record
    that expires on 2025-01-08 at 10:00.  Asked on 2025-01-08 at 23:00,
    after that expiry, the ledger check still answers true: the stored
    text [2025-01-08T10:00:00.000Z] is compared byte by byte with
    [2025-01-08 23:00:00], and [T] is greater than a space. *)
Theorem C5_check_accepts_expired_record :
  let issued := quiet_at t0 in
  let later := quiet_at (t0 + 7 * day + 13 * hour) in
  let db := snd (AuthController.storeRefreshToken issued tok 7 (db_of [ana] [])) in
  AuthController.validateRefreshToken later tok 7 db = (Resolved true, db) /\
  forall r, recorded db tok 7 r ->
    t_expires_at r = "2025-01-08T10:00:00.000Z" /\
    sqlite_datetime (now later) = "2025-01-08 23:00:00" /\
    exists e, Date_parse (t_expires_at r) = Some e /\ e < now later.
Proof.
  cbv zeta. split.
  - vm_compute. reflexivity.
  - intros r (Hin & _). vm_compute in Hin. destruct Hin as [<-|[]].
    split; [vm_compute; reflexivity|]. split; [vm_compute; reflexivity|].
    eexists. split.
    + vm_compute. reflexivity.
    + vm_compute. reflexivity.
Qed.

(** C1: an hour after the login, the token is exchanged. *)
Lemma C1_refresh_witness :
  new_access_token
    (fst (AuthController.refreshToken cfg (quiet_at (t0 + hour)) (Some tok)
            (db_of [ana] ledger))).
Proof.
  refine (proj1 (proj2 (C1_refresh cfg (quiet_at (t0 + hour)) tok (db_of [ana] ledger)))
            _ (User.new ana) _ (t0 + 7 * day) _ _ _ _ _ _ _ _ _ _ _).
  - reflexivity.
  - reflexivity.
  - vm_compute. reflexivity.
  - intros exp [= <-]. vm_compute. reflexivity.
  - unfold recorded. cbn. split; [left; reflexivity | split; reflexivity].
  - reflexivity.
  - vm_compute. split; [discriminate | reflexivity].
  - vm_compute. split; [discriminate | reflexivity].
  - vm_compute. reflexivity.
  - vm_compute. reflexivity.
  - reflexivity.
Defined.

(** C1 as stated fails: the token verifies, is not expired, and its
    ledger record expires in the future, yet the identity is inactive and
    [refresh] returns no access token. *)
Lemma C1_inactive_identity_refused :
  let env := quiet_at (t0 + hour) in
  let db := db_of [with_status ana "inactive"] ledger in
  (exists c r e,
     jwt_decode (jwt_refreshSecret cfg) tok = Some c /\ unexpired env c /\
     recorded db tok (claim_id c) r /\
     Date_parse (t_expires_at r) = Some e /\ now env < e) /\
  ~ new_access_token (fst (AuthController.refreshToken cfg env (Some tok) db)).
Proof.
  cbv zeta. split.
  - eexists _, _, _. split; [vm_compute; reflexivity|].
    split; [intros exp [= <-]; vm_compute; reflexivity|].
    split; [|split].
    + unfold recorded. split; [left; reflexivity|]. split; vm_compute; reflexivity.
    + vm_compute. reflexivity.
    + vm_compute. reflexivity.
  - intros (a & x & Hr). vm_compute in Hr. discriminate.
Qed.



Lemma C3_import_hashes_again_witness :
  let (created, db') :=
    UserService.initializeUsersFromExcel [(quiet_at t0, juan)] (db_of [ana] []) in
  created = 1 /\
  exists u,
    identity db' "juan@example.com" = Some u /\
    User.password u = bcrypt_hash "NaCl" juan_hash.
Proof.
  apply (C3_import_hashes_again (quiet_at t0) juan "juan@example.com" juan_hash
           "Juan" "Mora" (db_of [ana] []));
    try reflexivity; discriminate.
Defined.

(** The password stored for Juan is not the one the spreadsheet held. *)
Example juan_password_not_kept :
  let db' :=
    snd (UserService.initializeUsersFromExcel [(quiet_at t0, juan)] (db_of [ana] [])) in
  exists u,
    identity db' "juan@example.com" = Some u /\ User.password u <> juan_hash.
Proof.
  cbv zeta. eexists. split; [vm_compute; reflexivity|]. vm_compute. discriminate.
Qed.

(** C4: a correct password after two failed attempts. *)
Lemma C4_success_resets_witness :
  let (r, db') :=
    AuthController.login cfg (quiet_at t0) "ana@example.com" "Secreto1!"
      (db_of [ana_twice] []) in
  res_success r = true /\
  exists u',
    identity db' "ana@example.com" = Some u' /\
    User.loginAttempts u' = 0 /\ User.lockedUntil u' = None.
Proof.
  destruct (AuthController.login cfg (quiet_at t0) "ana@example.com" "Secreto1!"
              (db_of [ana_twice] [])) as [r db'] eqn:E.
  assert (Hs : res_success r = true)
    by (apply (f_equal fst) in E; cbn [fst] in E; rewrite <- E; vm_compute; reflexivity).
  split; [exact Hs|].
  apply (proj1 (C4_success_resets cfg (quiet_at t0) "ana@example.com" "Secreto1!"
                  (db_of [ana_twice] []) r db' (User.new ana_twice) eq_refl E Hs)).
  vm_compute. reflexivity.
Defined.

(** C4 as stated fails: [ana] has set her own [lockedUntil] to a past
    time through PUT /users/7, her failure count is 0; her next login
    succeeds and [lockedUntil] is still set afterwards. *)
Lemma C4_lock_survives_login :
  let (r, db') :=
    AuthController.login cfg (quiet_at (t0 + hour)) "ana@example.com" "Secreto1!" stale in
  res_success r = true /\
  exists u',
    identity db' "ana@example.com" = Some u' /\
    User.loginAttempts u' = 0 /\
    User.lockedUntil u' = Some (Text "2024-12-31T00:00:00.000Z").
Proof.
  vm_compute. split; [reflexivity|]. eexists. repeat split; reflexivity.
Qed.

(** C6: the ledger is down while [ana] logs in with her password. *)
Lemma C6_ledger_write_failure_witness :
  fst (AuthController.login cfg (ledger_down t0) "ana@example.com" "Secreto1!"
         (db_of [ana_twice] []))
  = server_error "SQLITE_ERROR".
Proof.
  pose proof (C6_ledger_write_failure cfg (ledger_down t0) "ana@example.com" "Secreto1!"
                (db_of [ana_twice] []) eq_refl) as W.
  destruct (AuthController.login cfg (ledger_down t0) "ana@example.com" "Secreto1!"
              (db_of [ana_twice] [])) as [r db'].
  apply (proj2 W (User.new ana_twice)); vm_compute; reflexivity.
Defined.



(** C8: a new first name and a new password for [ana]. *)
Lemma C8_update_frame_witness :
  exists db' row',
    User.update (User.new ana) (quiet_at t0)
      {| User.u_firstName := Some "Anita"; User.u_lastName := None;
         User.u_email := None; User.u_password := Some "Nuevo123!";
         User.u_role := None; User.u_status := None;
         User.u_loginAttempts := None; User.u_lockedUntil := None |}
      (db_of [ana] ledger) = (Resolved true, db') /\
    find (fun r => r_id r =? 7) (users db') = Some row' /\
    r_first_name row' = "Anita" /\ r_last_name row' = "Ruiz" /\
    r_password row' = hash "NaCl" "Nuevo123!" /\
    r_updated_at row' = "2025-01-01 10:00:00".
Proof.
  destruct (C8_update_frame (User.new ana) (quiet_at t0)
      {| User.u_firstName := Some "Anita"; User.u_lastName := None;
         User.u_email := None; User.u_password := Some "Nuevo123!";
         User.u_role := None; User.u_status := None;
         User.u_loginAttempts := None; User.u_lockedUntil := None |}
      (db_of [ana] ledger) ana eq_refl eq_refl eq_refl)
    as (db' & row' & Hu & Hf & H1 & H2 & _ & H4 & _ & _ & _ & _ & _ & _ & H11 & _).
  exists db', row'. split; [exact Hu|]. split; [exact Hf|].
  split; [exact H1|]. split; [exact H2|]. split; [exact H4|].
  rewrite H11. vm_compute. reflexivity.
Defined.

(** C9: two logouts with the token of [ana]. *)
Lemma C9_logout_idempotent_witness :
  let (r1, db1) :=
    AuthController.logout (quiet_at (t0 + hour)) (Some tok) (db_of [ana] ledger) in
  let (r2, db2) := AuthController.logout (quiet_at (t0 + 2 * hour)) (Some tok) db1 in
  r1 = ok 200 "Logout successful" NoData /\
  r2 = ok 200 "Logout successful" NoData /\
  db2 = db1 /\
  users db1 = users (db_of [ana] ledger) /\
  (forall r, In r (refresh_tokens db1) <->
             In r (refresh_tokens (db_of [ana] ledger)) /\
             ~ (exists s, Some tok = Some s /\ s <> "" /\ t_token r = s)).
Proof.
  apply (C9_logout_idempotent (quiet_at (t0 + hour)) (quiet_at (t0 + 2 * hour))
           (Some tok) (db_of [ana] ledger)); reflexivity.
Defined.

(** C10: [ana] is locked, sends the two lockout fields to PUT /users/7,
    and is no longer turned away. *)
Lemma C10_lockout_fields_pass_through_witness :
  let env := quiet_at (t0 + minute) in
  let db := db_of [ana_locked] [] in
  AccountLocked (fst (AuthController.login cfg env "ana@example.com" "Secreto1!" db)) /\
  exists r db',
    UserController.put env 7 7 (lockout_fields 0 None) db = (r, db') /\
    res_status r = 200 /\
    ~ AccountLocked (fst (AuthController.login cfg env "ana@example.com" "Secreto1!" db')).
Proof.
  cbv zeta. split; [vm_compute; reflexivity|].
  destruct (proj2 (C10_lockout_fields_pass_through (quiet_at (t0 + minute)) 7
                     (lockout_fields 0 None) (db_of [ana_locked] []) ana_locked
                     eq_refl eq_refl))
    as (r & db' & Hp & Hs & _ & Hn).
  - intros s. reflexivity.
  - reflexivity.
  - reflexivity.
  - exists r, db'. split; [exact Hp|]. split; [exact Hs|]. apply Hn.
Defined.

(** ** Two scenarios of the specification *)

(** A login with correct credentials returns both tokens, and the refresh
    token is exchanged for a new access token an hour later. *)
Example login_then_refresh :
  let (r, db1) :=
    AuthController.login cfg (quiet_at t0) "ana@example.com" "Secreto1!"
      (db_of [ana] []) in
  match res_data r with
  | LoginData _ _ refreshToken _ =>
      new_access_token
        (fst (AuthController.refreshToken cfg (quiet_at (t0 + hour))
                (Some refreshToken) db1))
  | _ => False
  end.
Proof. vm_compute. eexists _, _. reflexivity. Qed.

(** A refresh token past its own [exp] claim is answered with
    [InvalidRefreshToken], not with a server fault. *)
Example expired_token_refused :
  InvalidRefreshToken
    (fst (AuthController.refreshToken cfg (quiet_at (t0 + 8 * day)) (Some tok)
            (db_of [ana] ledger))).
Proof. vm_compute. reflexivity. Qed.

(* ================================================================== *)
(** * The further properties on the sample data *)

Lemma login_only_with_credentials_witness :
  exists e p u,
    Some "ana@example.com" = Some e /\ isEmail e = true /\
    Some "Secreto1!" = Some p /\ p <> "" /\
    identity (db_of [ana] []) (normalizeEmail e) = Some u /\
    User.status u = "active" /\ User.isLocked u (quiet_at t0) = false /\
    bcrypt_compare p (User.password u) = true.
Proof.
  apply (login_only_with_credentials cfg (quiet_at t0) (Some "ana@example.com")
           (Some "Secreto1!") (db_of [ana] [])).
  vm_compute. reflexivity.
Defined.

Lemma refresh_accepts_login_token_witness :
  fst (AuthController.refreshToken cfg (quiet_at (t0 + hour)) (Some tok)
         (snd first_login))
  = ok 200 "Token refreshed successfully"
      (TokenData
         (AuthController.sign (quiet_at (t0 + hour)) (jwt_secret cfg) 7
            "ana@example.com" (Some "user") (jwt_expiresIn cfg))
         (jwt_expiresIn cfg)).
Proof.
  refine (refresh_accepts_login_token cfg (quiet_at t0) (quiet_at (t0 + hour))
            "ana@example.com" "Secreto1!" (db_of [ana] [])
            (User.toJSON (User.new ana))
            (AuthController.sign (quiet_at t0) (jwt_secret cfg) 7 "ana@example.com"
               (Some "user") (jwt_expiresIn cfg))
            tok (jwt_expiresIn cfg) (snd first_login) _ _ _ _ _ _ _ _ _).
  - repeat constructor. intros [].
  - vm_compute. reflexivity.
  - vm_compute. reflexivity.
  - reflexivity.
  - reflexivity.
  - vm_compute. reflexivity.
  - vm_compute. split; [discriminate | reflexivity].
  - vm_compute. split; [discriminate | reflexivity].
  - vm_compute. discriminate.
Defined.

Lemma expired_lock_witness :
  let (r, db') :=
    AuthController.login cfg (quiet_at (t0 + hour)) "ana@example.com" "uno"
      (db_of [ana_locked] []) in
  exists u',
    identity db' "ana@example.com" = Some u' /\
    r = failure 401 "Too many failed attempts. Account has been temporarily locked." /\
    User.loginAttempts u' = 4 /\
    User.lockedUntil u' = Some (Text "2025-01-01T11:15:00.000Z").
Proof.
  pose proof (expired_lock cfg (quiet_at (t0 + hour)) "ana@example.com" "uno"
                (db_of [ana_locked] []) (User.new ana_locked) (t0 + 15 * minute)
                eq_refl eq_refl eq_refl eq_refl eq_refl eq_refl) as Hx.
  destruct (AuthController.login cfg (quiet_at (t0 + hour)) "ana@example.com" "uno"
              (db_of [ana_locked] [])) as [r db'].
  destruct Hx as (u' & Hi & Hr & Hn & Hl).
  - vm_compute. split; [discriminate | reflexivity].
  - vm_compute. discriminate.
  - vm_compute. discriminate.
  - vm_compute. reflexivity.
  - exists u'. split; [exact Hi|]. split; [exact Hr|].
    split; [exact Hn|]. rewrite Hl. vm_compute. reflexivity.
Defined.

Lemma put_keeps_privileges_witness :
  map (fun r => (r_id r, r_role r, r_status r))
      (users (snd (UserController.put (quiet_at t0) 7 7 promote (db_of [ana] []))))
  = [(7, "user", "active")].
Proof.
  apply (put_keeps_privileges (quiet_at t0) 7 7 promote (db_of [ana] []) (User.new ana)).
  - reflexivity.
  - discriminate.
Defined.

Lemma keys_stay_unique_witness :
  well_keyed (snd (AuthController.login cfg (quiet_at t0) "ana@example.com" "uno"
                     (db_of [ana] []))) /\
  well_keyed (snd (UserService.initializeUsersFromExcel [(quiet_at t0, juan)]
                     (db_of [ana] []))).
Proof.
  assert (Hk : well_keyed (db_of [ana] []))
    by (split; repeat constructor; intros []).
  destruct (keys_stay_unique cfg (quiet_at t0) (db_of [ana] []) Hk)
    as (Hl & _ & _ & _ & _ & _ & Hi).
  split; [apply Hl | apply Hi].
Defined.

Lemma import_again_adds_nothing_witness :
  let db' := snd (UserService.initializeUsersFromExcel [(quiet_at t0, juan)]
                    (db_of [ana] [])) in
  List.length (users db') = 2%nat /\
  UserService.initializeUsersFromExcel [(ledger_down (t0 + day), juan)] db' = (0, db').
Proof.
  cbv zeta. split; [vm_compute; reflexivity|].
  apply (import_again_adds_nothing [(quiet_at t0, juan)]
           [(ledger_down (t0 + day), juan)] (db_of [ana] [])).
  - reflexivity.
  - constructor; [|constructor]. cbn. repeat split; discriminate.
Defined.

Lemma bearer_header_is_refused_witness :
  Middleware.verifyToken cfg (quiet_at t0)
    (Some ("Bearer " ++
           AuthController.sign (quiet_at t0) (jwt_secret cfg) 7 "ana@example.com"
             (Some "user") (jwt_expiresIn cfg)))
  = inl (mkResponse 401 false "Invalid token." (Some "invalid signature") NoData).
Proof.
  refine (proj1 (bearer_header_is_refused cfg (quiet_at t0)
                   (AuthController.sign (quiet_at t0) (jwt_secret cfg) 7
                      "ana@example.com" (Some "user") (jwt_expiresIn cfg)) _)).
  intros s. reflexivity.
Defined.

Lemma created_user_can_login_witness :
  exists u a t,
    fst (AuthController.login cfg (quiet_at (t0 + hour)) "eva@example.com" "Clave123!"
           (snd eva_created))
    = ok 200 "Login successful" (LoginData u a t (jwt_expiresIn cfg)) /\
    User.j_email u = "eva@example.com" /\ User.j_role u = "user".
Proof.
  destruct (created_user_can_login cfg (quiet_at t0) (quiet_at (t0 + hour)) eva
              (db_of [ana] []) (answer (fst eva_created)) (snd eva_created))
    as (u & a & t & Hl & He & Hr & _).
  - vm_compute. reflexivity.
  - reflexivity.
  - reflexivity.
  - vm_compute. reflexivity.
  - reflexivity.
  - reflexivity.
  - exists u, a, t. auto.
Defined.

(** A text that is a number is not stored as that text.  On the sample
    platform, which reads a text of digits as SQLite does, the text
    [4070908800000] that [ana] sends to PUT /users/7 is stored as a
    number; read back, it is the time 2099-01-01T00:00:00Z, and her next
    login is turned away. *)
Example numeric_text_is_stored_as_number :
  let db' := snd (UserController.put (quiet_at t0) 7 7 digits_lock (db_of [ana] [])) in
  map (fun r => match r_locked_until r with
                | Some (Number x) => TimeClip x
                | _ => None
                end) (users db') = [Some 4070908800000] /\
  AccountLocked
    (fst (AuthController.login cfg (quiet_at (t0 + hour)) "ana@example.com"
            "Secreto1!" db')).
Proof.
  cbv zeta. split.
  - vm_compute. reflexivity.
  - vm_compute. reflexivity.
Qed.
